(** * MuulRepo: database router, remote bridge protocol and join inference

    A shallow embedding of the parts of the TypeScript sources that the
    specification speaks about:

    - [services/dialects/SqlDialects.ts]: the dialect registry,
    - the [MuulService] router ([executeRemoteQuery],
      [getRemoteDatabaseSchema], [explainQuery], [getDialectForDb]),
    - [engines/SqliteEngine] and [engines/MongoEngine],
    - [App.tsx], [handleEditorDrop]: the join inference loop and what the
      drop does to the editor.

    Conventions of the embedding.

    - JavaScript strings are [string] (sequences of 8-bit characters).
      Lower-casing is that of the letters A to Z and leaves bytes above 127
      alone; upper-casing is that of the letters a to z on a text of ASCII
      characters, and a parameter ([upper_unicode], the case tables of the
      runtime) on any other text.
    - Values that cross the bridge or come out of the embedded database are
      [JsVal]: undefined, null, booleans, integer-valued numbers, strings,
      arrays and plain objects.  An object is the list of its own enumerable
      properties in enumeration order; members inherited from a prototype
      are not modelled.
    - The comparison [v > 0] of a value that is not a number, a boolean,
      null or undefined depends on the numeric reading of strings; that
      reading is a parameter ([coerced]) of the functions that compare.
    - Code that may throw returns [Res]; an [async] method that talks to the
      bridge is a state transformer over an abstract world, whose result is
      the value it resolves with or the reason it rejects with.  Clock
      readings ([timestamp], [requestId], [executionTimeMs] of the local
      engines) are left out.
    - The libraries the embedded engine drives (the database and the
      delimited-text parser) are parameters of the engine. *)

From Stdlib Require Import String Ascii List ZArith Bool Lia DecimalString DecimalNat.

Import ListNotations.
Open Scope string_scope.

Set Implicit Arguments.
Set Warnings "-register-all".

(* ================================================================== *)
(** * Strings *)
(* ================================================================== *)

Module JsString.

(** The double quote character, and the line feed. *)
Definition dq : string := String "034"%char EmptyString.
Definition nl : string := String "010"%char EmptyString.

Definition is_upper (c : ascii) : bool :=
  let n := nat_of_ascii c in (65 <=? n)%nat && (n <=? 90)%nat.
Definition is_lower (c : ascii) : bool :=
  let n := nat_of_ascii c in (97 <=? n)%nat && (n <=? 122)%nat.
Definition is_digit (c : ascii) : bool :=
  let n := nat_of_ascii c in (48 <=? n)%nat && (n <=? 57)%nat.

Definition lower_char (c : ascii) : ascii :=
  if is_upper c then ascii_of_nat (nat_of_ascii c + 32) else c.
Definition upper_char (c : ascii) : ascii :=
  if is_lower c then ascii_of_nat (nat_of_ascii c - 32) else c.

Fixpoint map_chars (f : ascii -> ascii) (s : string) : string :=
  match s with
  | EmptyString => EmptyString
  | String c s' => String (f c) (map_chars f s')
  end.

(** [String.prototype.toLowerCase]. *)
Definition toLowerCase : string -> string := map_chars lower_char.

(** Whether every character of [s] is an ASCII character. *)
Definition is_ascii_char (c : ascii) : bool :=
  match c with Ascii _ _ _ _ _ _ _ b7 => negb b7 end.

Fixpoint all_ascii (s : string) : bool :=
  match s with
  | EmptyString => true
  | String c s' => is_ascii_char c && all_ascii s'
  end.

(** [String.prototype.toUpperCase].  On a text of ASCII characters the
    Unicode case mapping upper-cases the letters a to z and changes nothing
    else.  On any other text it is given by the case tables of the runtime,
    which are not part of the repository: the parameter [upper_unicode]. *)
Definition toUpperCase (upper_unicode : string -> string) (s : string) : string :=
  if all_ascii s then map_chars upper_char s else upper_unicode s.

(** Equality of two strings up to the case of their letters. *)
Definition equal_ignoring_case (a b : string) : bool :=
  String.eqb (toLowerCase a) (toLowerCase b).

(** [s.includes(sub)] *)
Fixpoint includes (sub s : string) : bool :=
  String.prefix sub s ||
  match s with
  | EmptyString => false
  | String _ s' => includes sub s'
  end.

(** [s.endsWith(suffix)] *)
Fixpoint endsWith (suffix s : string) : bool :=
  String.eqb s suffix ||
  match s with
  | EmptyString => false
  | String _ s' => endsWith suffix s'
  end.

(** The last character of a string. *)
Fixpoint last_char (s : string) : option ascii :=
  match s with
  | EmptyString => None
  | String c EmptyString => Some c
  | String _ s' => last_char s'
  end.

(** [parts.join(sep)] *)
Fixpoint join (sep : string) (parts : list string) : string :=
  match parts with
  | [] => ""
  | [p] => p
  | p :: rest => p ++ sep ++ join sep rest
  end.

(** The elements of a [Set] of strings filled in the order [xs], given
    those already in it: the first occurrence of every element, in
    order ([Array.from(new Set(xs))] when [seen] is empty). *)
Fixpoint dedup (seen : list string) (xs : list string) : list string :=
  match xs with
  | [] => []
  | x :: rest =>
      if existsb (String.eqb x) seen then dedup seen rest
      else x :: dedup (x :: seen) rest
  end.

(** The template fragment ["${s}"]. *)
Definition quoted (s : string) : string := dq ++ s ++ dq.

End JsString.
Import JsString.

(* ================================================================== *)
(** * The canonical schema shape ([types.ts]) *)
(* ================================================================== *)

(** The interfaces declare every field a [string]; at run time the remote
    and embedded sources store whatever value the reply carried, so the
    records are parametric in the type [V] of names. *)

Record Reference (V : Type) : Type := mkReference {
  table : V;
  column : V
}.

Record ColumnDefinition (V : Type) : Type := mkColumn {
  c_name : V;
  c_type : V;
  isPrimaryKey : bool;
  isForeignKey : bool;
  references : option (Reference V)
}.

Record TableDefinition (V : Type) : Type := mkTable {
  t_name : V;
  t_columns : list (ColumnDefinition V)
}.

Record DbSchema (V : Type) : Type := mkSchema {
  tables : list (TableDefinition V)
}.

(** The invariant of the data model: the foreign-key flag is set exactly
    when a reference is carried. *)
Definition fk_consistent {V} (c : ColumnDefinition V) : Prop :=
  isForeignKey c = true <-> references c <> None.

Definition fk_consistent_b {V} (c : ColumnDefinition V) : bool :=
  Bool.eqb (isForeignKey c)
           (match references c with Some _ => true | None => false end).

Definition schema_fk_consistent {V} (s : DbSchema V) : Prop :=
  forall t, In t (tables s) -> forall c, In c (t_columns t) -> fk_consistent c.

(* ================================================================== *)
(** * Join inference ([App.tsx], [handleEditorDrop]) *)
(* ================================================================== *)

Module JoinInference.

(** [PendingJoin] of [JoinBuilderModal.tsx].  The optional flag
    [isHeuristic] is [false] when the property is not set; [isLogical] is
    never set by [handleEditorDrop]. *)
Record PendingJoin : Type := mkJoin {
  newTable : TableDefinition string;
  existingTable : string;
  joinCondition : string;
  isHeuristic : bool
}.

(** The character class [[\w$]] of the table-name pattern. *)
Definition is_word_char (c : ascii) : bool :=
  is_upper c || is_lower c || is_digit c
  || Ascii.eqb c "_"%char || Ascii.eqb c "$"%char.

(** The first capture group of every match of [/"?([\w$]+)"?/g], in
    order: the maximal runs of word characters.  [cur] is the run being
    read, newest character first. *)
Definition flush (cur : list ascii) (acc : list string) : list string :=
  match cur with
  | [] => acc
  | _ => string_of_list_ascii (rev cur) :: acc
  end.

Fixpoint word_runs (s : string) (cur : list ascii) : list string :=
  match s with
  | EmptyString => flush cur []
  | String c s' =>
      if is_word_char c then word_runs s' (c :: cur)
      else flush cur (word_runs s' [])
  end.

Definition existingTablesInSql (newSql : string) : list string :=
  dedup [] (word_runs newSql []).

Section Scan.

Variable activeSchema : DbSchema string.

(** [activeSchema.tables.find(t => t.name === n)] *)
Definition find_table (n : string) : option (TableDefinition string) :=
  find (fun t => String.eqb (t_name t) n) (tables activeSchema).

(** [cols.find(c => c.isForeignKey && c.references?.table === target)],
    returned together with the reference that the test has just read
    (the source re-reads it as [fk.references!]). *)
Fixpoint find_fk (target : string) (cols : list (ColumnDefinition string))
  : option (ColumnDefinition string * Reference string) :=
  match cols with
  | [] => None
  | c :: rest =>
      match references c with
      | Some r =>
          if isForeignKey c && String.eqb (table r) target
          then Some (c, r) else find_fk target rest
      | None => find_fk target rest
      end
  end.

Definition lower_names (cols : list (ColumnDefinition string)) : list string :=
  map (fun c => toLowerCase (c_name c)) cols.

(** The [intersect] array of the third tier. *)
Definition intersect (tableDef : TableDefinition string)
           (existingDef : option (TableDefinition string)) : list string :=
  filter
    (fun c =>
       match existingDef with
       | Some ed => existsb (String.eqb c) (lower_names (t_columns ed))
       | None => false
       end
       && (includes "id" c || includes "key" c))
    (lower_names (t_columns tableDef)).

Definition condition (t1 c1 t2 c2 : string) : string :=
  quoted t1 ++ "." ++ quoted c1 ++ " = " ++ quoted t2 ++ "." ++ quoted c2.

(** The loop state: [bestJoin] and [bestScore]. *)
Definition ScanState : Type := (option PendingJoin * Z)%type.

Definition scan_init : ScanState := (None, (-1)%Z).

Variable newTable_name : string.
Variable tableDef : TableDefinition string.

(** The three joins the body can build for one existing table. *)
Definition fk_join (existing : string)
           (fk : ColumnDefinition string * Reference string) : PendingJoin :=
  mkJoin tableDef existing
         (condition newTable_name (c_name (fst fk)) existing (column (snd fk)))
         false.

Definition rev_join (existing : string)
           (revFk : ColumnDefinition string * Reference string) : PendingJoin :=
  mkJoin tableDef existing
         (condition existing (c_name (fst revFk)) newTable_name (column (snd revFk)))
         false.

Definition heuristic_join (existing : string) (col : string) : PendingJoin :=
  mkJoin tableDef existing (condition newTable_name col existing col) true.

(** [existingDef?.columns.find(...)] *)
Definition find_rev_fk (existingDef : option (TableDefinition string))
  : option (ColumnDefinition string * Reference string) :=
  match existingDef with
  | Some ed => find_fk newTable_name (t_columns ed)
  | None => None
  end.

(** One iteration of [for (const existing of existingTablesInSql)]. *)
Definition scan_step (st : ScanState) (existing : string) : ScanState :=
  let existingDef := find_table existing in
  let st1 :=
    match find_fk existing (t_columns tableDef) with
    | Some fk => (Some (fk_join existing fk), 10%Z)
    | None => st
    end in
  let st2 :=
    if (snd st1 <? 10)%Z then
      match find_rev_fk existingDef with
      | Some revFk => (Some (rev_join existing revFk), 8%Z)
      | None => st1
      end
    else st1 in
  if (snd st2 <? 8)%Z then
    match intersect tableDef existingDef with
    | col :: _ => (Some (heuristic_join existing col), 2%Z)
    | [] => st2
    end
  else st2.

Definition scan (existing : list string) : ScanState :=
  fold_left scan_step existing scan_init.

(** The tier one existing table qualifies for, taken alone: the first
    test of the body that succeeds. *)
Definition tier (existing : string) : Z :=
  match find_fk existing (t_columns tableDef) with
  | Some _ => 10%Z
  | None =>
      match find_rev_fk (find_table existing) with
      | Some _ => 8%Z
      | None =>
          match intersect tableDef (find_table existing) with
          | _ :: _ => 2%Z
          | [] => (-1)%Z
          end
      end
  end.

(** The join the body builds for one existing table, taken alone. *)
Definition candidate (existing : string) : option PendingJoin :=
  fst (scan_step scan_init existing).

(** The best tier over a list of existing tables. *)
Definition best_tier (existing : list string) : Z :=
  fold_left (fun m e => Z.max m (tier e)) existing (-1)%Z.

End Scan.

(** The scores the loop can hold. *)
Definition valid_score (s : Z) : Prop :=
  (s = -1 \/ s = 2 \/ s = 8 \/ s = 10)%Z.

(** What the loop state means: no join below tier 2, a flagged join at
    tier 2, an unflagged one at tiers 8 and 10. *)
Definition state_ok (st : ScanState) : Prop :=
  match fst st with
  | None => snd st = (-1)%Z
  | Some j =>
      (snd st = 2%Z /\ isHeuristic j = true)
      \/ ((snd st = 8 \/ snd st = 10)%Z /\ isHeuristic j = false)
  end.

(** A small shop schema used in the examples below. *)
Definition plain (n ty : string) (pk : bool) : ColumnDefinition string :=
  mkColumn n ty pk false None.
Definition fkcol (n ty t c : string) : ColumnDefinition string :=
  mkColumn n ty false true (Some (mkReference t c)).

Definition customers : TableDefinition string :=
  mkTable "customers" [plain "id" "int" true; plain "email" "text" false].
Definition products : TableDefinition string :=
  mkTable "products" [plain "id" "int" true; plain "title" "text" false].
Definition orders : TableDefinition string :=
  mkTable "orders"
    [plain "id" "int" true;
     fkcol "customer_id" "int" "customers" "id";
     fkcol "product_id" "int" "products" "id"].
Definition shop : DbSchema string := mkSchema [customers; products; orders].

Definition shop_sql : string :=
  "SELECT * FROM " ++ quoted "customers" ++ ", " ++ quoted "products".

(** The callback of [tableNames.forEach]: state is [foundJoins] and
    [newSql]. *)
Definition drop_table (activeSchema : DbSchema string) (existing : list string)
           (st : list PendingJoin * string) (newTable_name : string)
  : list PendingJoin * string :=
  match find_table activeSchema newTable_name with
  | None => st
  | Some tableDef =>
      match fst (scan activeSchema newTable_name tableDef existing) with
      | Some bestJoin => ((fst st ++ [bestJoin])%list, snd st)
      | None =>
          (fst st,
           snd st ++ nl ++ nl ++ "SELECT * FROM " ++ quoted newTable_name ++ " LIMIT 100;")
      end
  end.

(** What a drop does to the editor in the end: nothing, opening the join
    builder on the joins found ([setPendingJoins(foundJoins)],
    [setIsJoinBuilderOpen(true)]), or [updateTabContent(content)].  The
    dragging indicator, reset on every path, is left out. *)
Inductive DropEffect : Type :=
| Ignored
| OpenJoinBuilder (foundJoins : list PendingJoin)
| UpdateTabContent (content : string).

(** [handleEditorDrop].  [tablesJson] and [dbId] are the two payloads of
    the drag event, [tableNames] is what [JSON.parse(tablesJson)] gives, and
    [newSql] is the content of the active tab after [trim()]. *)
Definition handleEditorDrop (activeSchema : DbSchema string) (selectedDbId : string)
           (tablesJson dbId : string) (tableNames : list string) (newSql : string)
  : DropEffect :=
  if String.eqb tablesJson "" || negb (String.eqb dbId selectedDbId) then Ignored
  else if String.eqb newSql "" then
    UpdateTabContent
      (join (nl ++ nl)
            (map (fun t => "SELECT * FROM " ++ quoted t ++ " LIMIT 100;") tableNames))
  else
    let '(foundJoins, newSql') :=
      fold_left (drop_table activeSchema (existingTablesInSql newSql))
                tableNames ([], newSql) in
    match foundJoins with
    | _ :: _ => OpenJoinBuilder foundJoins
    | [] => UpdateTabContent newSql'
    end.

End JoinInference.

(* ================================================================== *)
(** * JavaScript values *)
(* ================================================================== *)

Module Js.

(** The values a bridge reply or a database cell can hold.  [JNum n] is the
    number with integer value [n].  An object is the list of its own
    enumerable properties in enumeration order; members inherited from
    [Object.prototype] are not part of the model. *)
Inductive JsVal : Type :=
| JUndefined
| JNull
| JBool (b : bool)
| JNum (n : Z)
| JStr (s : string)
| JArr (items : list JsVal)
| JObj (props : list (string * JsVal)).

(** The outcome of code that may throw: the value thrown is any value. *)
Inductive Res (A : Type) : Type :=
| Ok (a : A)
| Throw (e : JsVal).
Arguments Ok {A} a.
Arguments Throw {A} e.

Definition bind {A B} (r : Res A) (k : A -> Res B) : Res B :=
  match r with
  | Ok a => k a
  | Throw e => Throw e
  end.

(** [xs.map(f)] when [f] may throw: the first exception ends the loop. *)
Fixpoint mapM {A B} (f : A -> Res B) (xs : list A) : Res (list B) :=
  match xs with
  | [] => Ok []
  | x :: rest =>
      bind (f x) (fun y => bind (mapM f rest) (fun ys => Ok (y :: ys)))
  end.

(** The [TypeError] the runtime raises; only its [message] is observable
    to the code modelled here, and it is never empty. *)
Definition TypeError (msg : string) : JsVal :=
  JObj [("message", JStr ("TypeError: " ++ msg))].

(** [!!v] *)
Definition truthy (v : JsVal) : bool :=
  match v with
  | JUndefined | JNull => false
  | JBool b => b
  | JNum n => negb (n =? 0)%Z
  | JStr s => negb (String.eqb s "")
  | JArr _ | JObj _ => true
  end.

(** [a || b] *)
Definition or_else (a b : JsVal) : JsVal := if truthy a then a else b.

(** [a === b].  Two arrays or objects read from replies are never the same
    reference. *)
Definition strict_eq (a b : JsVal) : bool :=
  match a, b with
  | JUndefined, JUndefined => true
  | JNull, JNull => true
  | JBool x, JBool y => Bool.eqb x y
  | JNum x, JNum y => (x =? y)%Z
  | JStr x, JStr y => String.eqb x y
  | _, _ => false
  end.

(** Decimal spelling of an array index and of an integer. *)
Definition index_string (i : nat) : string :=
  DecimalString.NilZero.string_of_uint (Nat.to_uint i).

Definition number_string (n : Z) : string :=
  DecimalString.NilZero.string_of_int (Z.to_int n).

(** Lookup of an own property. *)
Fixpoint lookup (props : list (string * JsVal)) (key : string) : JsVal :=
  match props with
  | [] => JUndefined
  | (k, v) :: rest => if String.eqb k key then v else lookup rest key
  end.

(** [obj[key] = v] on a plain object: overwrite in place or append. *)
Fixpoint assign (props : list (string * JsVal)) (key : string) (v : JsVal)
  : list (string * JsVal) :=
  match props with
  | [] => [(key, v)]
  | (k, old) :: rest =>
      if String.eqb k key then (k, v) :: rest else (k, old) :: assign rest key v
  end.

(** The element of an array stored under the property name [key]. *)
Fixpoint element_named (items : list JsVal) (i : nat) (key : string) : JsVal :=
  match items with
  | [] => JUndefined
  | x :: rest =>
      if String.eqb (index_string i) key then x else element_named rest (S i) key
  end.

Definition char_named (s : string) (key : string) : JsVal :=
  element_named (map (fun c => JStr (String c EmptyString)) (list_ascii_of_string s)) 0 key.

(** [v[key]] / [v.key]: reading a property of [null] or [undefined]
    throws. *)
Definition get (v : JsVal) (key : string) : Res JsVal :=
  match v with
  | JUndefined | JNull =>
      Throw (TypeError ("Cannot read properties of null or undefined (reading '" ++ key ++ "')"))
  | JBool _ | JNum _ => Ok JUndefined
  | JStr s =>
      if String.eqb key "length" then Ok (JNum (Z.of_nat (String.length s)))
      else Ok (char_named s key)
  | JArr items =>
      if String.eqb key "length" then Ok (JNum (Z.of_nat (List.length items)))
      else Ok (element_named items 0 key)
  | JObj props => Ok (lookup props key)
  end.

(** The value of [v[key]] when [v] is neither [null] nor [undefined]. *)
Definition read (v : JsVal) (key : string) : JsVal :=
  match get v key with
  | Ok x => x
  | Throw _ => JUndefined
  end.

(** [v[i]] for a numeric index. *)
Definition get_index (v : JsVal) (i : nat) : Res JsVal := get v (index_string i).

(** [v?.key] *)
Definition get_opt (v : JsVal) (key : string) : Res JsVal :=
  match v with
  | JUndefined | JNull => Ok JUndefined
  | _ => get v key
  end.

(** [Array.isArray(v)] and [typeof v === 'object' && v !== null]. *)
Definition isArray (v : JsVal) : bool :=
  match v with JArr _ => true | _ => false end.

Definition is_object (v : JsVal) : bool :=
  match v with JArr _ | JObj _ => true | _ => false end.

(** [Object.keys(v)] for an array or an object. *)
Definition keys (v : JsVal) : list string :=
  match v with
  | JObj props => map fst props
  | JArr items => map index_string (seq 0 (List.length items))
  | JStr s => map index_string (seq 0 (String.length s))
  | _ => []
  end.

(** Template-literal conversion [`${v}`].  Exact for the integers whose
    decimal spelling has at most 21 digits. *)
Fixpoint to_string (v : JsVal) : string :=
  match v with
  | JUndefined => "undefined"
  | JNull => "null"
  | JBool true => "true"
  | JBool false => "false"
  | JNum n => number_string n
  | JStr s => s
  | JArr items =>
      join ","
        ((fix each (l : list JsVal) : list string :=
            match l with
            | [] => []
            | x :: rest =>
                match x with
                | JUndefined | JNull => ""
                | _ => to_string x
                end :: each rest
            end) items)
  | JObj _ => "[object Object]"
  end.

(** [v > 0].  For a string, an array or an object the comparison goes
    through [ToPrimitive] and the numeric-literal grammar; that part is the
    parameter [coerced]. *)
Definition gt_zero (coerced : JsVal -> bool) (v : JsVal) : bool :=
  match v with
  | JUndefined | JNull => false
  | JBool b => b
  | JNum n => (0 <? n)%Z
  | JStr _ | JArr _ | JObj _ => coerced v
  end.

End Js.
Import Js.

(* ================================================================== *)
(** * The dialect registry ([SqlDialects.ts]) *)
(* ================================================================== *)

Module Dialects.

(** The [queries] member of a [DialectDefinition]; the version string, the
    management generators and the insight catalogue are not read by the
    router functions modelled below. *)
Record DialectDefinition : Type := mkDialect {
  getTables : string;
  getColumns : string -> string;
  getForeignKeys : string -> string
}.

Definition postgres_getTables : string :=
  "SELECT table_name AS " ++ dq ++ "name" ++ dq ++ " FROM information_schema.tables WHERE table_schema = 'public' AND table_type = 'BASE TABLE' ORDER BY table_name".

Definition postgres_getColumns (table : string) : string :=
  "
        SELECT 
          c.column_name AS " ++ dq ++ "name" ++ dq ++ ", 
          c.data_type AS " ++ dq ++ "type" ++ dq ++ ", 
          (SELECT COUNT(" ++ "*) > 0 FROM information_schema.table_constraints tc 
           JOIN information_schema.key_column_usage kcu ON tc.constraint_name = kcu.constraint_name 
           WHERE tc.constraint_type = 'PRIMARY KEY' AND tc.table_name='" ++ table ++ "' AND kcu.column_name=c.column_name) as " ++ dq ++ "pk" ++ dq ++ " 
        FROM information_schema.columns c 
        WHERE c.table_name = '" ++ table ++ "' AND c.table_schema = 'public'
        ORDER BY c.ordinal_position".

Definition postgres_getForeignKeys (table : string) : string :=
  "
        SELECT 
          kcu.column_name AS " ++ dq ++ "from" ++ dq ++ ", 
          ccu.table_name AS " ++ dq ++ "table" ++ dq ++ ", 
          ccu.column_name AS " ++ dq ++ "to" ++ dq ++ " 
        FROM information_schema.key_column_usage AS kcu 
        JOIN information_schema.table_constraints AS tc ON kcu.constraint_name = tc.constraint_name 
        JOIN information_schema.constraint_column_usage AS ccu ON ccu.constraint_name = tc.constraint_name 
        WHERE tc.constraint_type = 'FOREIGN KEY' AND kcu.table_name = '" ++ table ++ "' AND kcu.table_schema = 'public'".

Definition mssql_getTables : string :=
  "SELECT name AS " ++ dq ++ "name" ++ dq ++ " FROM sys.tables WHERE is_ms_shipped = 0 ORDER BY name".

Definition mssql_getColumns (table : string) : string :=
  "
        SELECT 
          c.name AS " ++ dq ++ "name" ++ dq ++ ", 
          TYPE_NAME(c.system_type_id) as " ++ dq ++ "type" ++ dq ++ ", 
          CONVERT(bit, i.is_primary_key) as " ++ dq ++ "pk" ++ dq ++ " 
        FROM sys.columns c 
        LEFT JOIN sys.index_columns ic ON ic.object_id = c.object_id AND ic.column_id = c.column_id 
        LEFT JOIN sys.indexes i ON i.object_id = c.object_id AND i.index_id = ic.index_id AND i.is_primary_key = 1 
        WHERE c.object_id = OBJECT_ID('" ++ table ++ "')
        ORDER BY c.column_id".

Definition mssql_getForeignKeys (table : string) : string :=
  "
        SELECT 
          cpa.name AS " ++ dq ++ "from" ++ dq ++ ", 
          OBJECT_NAME(f.referenced_object_id) AS " ++ dq ++ "table" ++ dq ++ ", 
          cpr.name AS " ++ dq ++ "to" ++ dq ++ " 
        FROM sys.foreign_keys AS f 
        INNER JOIN sys.foreign_key_columns AS fc ON f.object_id = fc.constraint_object_id 
        INNER JOIN sys.columns AS cpa ON fc.parent_object_id = cpa.object_id AND fc.parent_column_id = cpa.column_id 
        INNER JOIN sys.columns AS cpr ON fc.referenced_object_id = cpr.object_id AND fc.referenced_column_id = cpr.column_id 
        WHERE f.parent_object_id = OBJECT_ID('" ++ table ++ "')".

Definition mysql_getTables : string :=
  "SELECT table_name AS " ++ dq ++ "name" ++ dq ++ " FROM information_schema.tables WHERE table_schema = DATABASE()".

Definition mysql_getColumns (table : string) : string :=
  "DESCRIBE `" ++ table ++ "`".

Definition mysql_getForeignKeys (table : string) : string :=
  "SELECT K.COLUMN_NAME AS 'from', K.REFERENCED_TABLE_NAME AS 'table', K.REFERENCED_COLUMN_NAME AS 'to' FROM INFORMATION_SCHEMA.KEY_COLUMN_USAGE AS K WHERE K.TABLE_SCHEMA = SCHEMA() AND K.TABLE_NAME = '" ++ table ++ "' AND K.REFERENCED_TABLE_NAME IS NOT NULL;".

Definition sqlite_getTables : string :=
  "SELECT name FROM sqlite_master WHERE type='table' AND name NOT LIKE 'sqlite_%' ORDER BY name".

Definition sqlite_getColumns (table : string) : string :=
  "PRAGMA table_info(" ++ dq ++ "" ++ table ++ "" ++ dq ++ ")".

Definition sqlite_getForeignKeys (table : string) : string :=
  "PRAGMA foreign_key_list(" ++ dq ++ "" ++ table ++ "" ++ dq ++ ")".

Definition mongodb_getTables : string :=
  "".

Definition mongodb_getColumns (table : string) : string :=
  "".

Definition mongodb_getForeignKeys (table : string) : string :=
  "".

Definition parquet_getTables : string :=
  "".

Definition parquet_getColumns (table : string) : string :=
  "".

Definition parquet_getForeignKeys (table : string) : string :=
  "".


Definition postgres : DialectDefinition :=
  mkDialect postgres_getTables postgres_getColumns postgres_getForeignKeys.
Definition mssql : DialectDefinition :=
  mkDialect mssql_getTables mssql_getColumns mssql_getForeignKeys.
Definition mysql : DialectDefinition :=
  mkDialect mysql_getTables mysql_getColumns mysql_getForeignKeys.
Definition sqlite : DialectDefinition :=
  mkDialect sqlite_getTables sqlite_getColumns sqlite_getForeignKeys.
Definition mongodb : DialectDefinition :=
  mkDialect mongodb_getTables mongodb_getColumns mongodb_getForeignKeys.
Definition parquet : DialectDefinition :=
  mkDialect parquet_getTables parquet_getColumns parquet_getForeignKeys.

(** What [DialectRegistry[tag]] evaluates to for an arbitrary string: one of
    the six entries, a member inherited from [Object.prototype] (the only
    all-lower-case ones are [constructor] and [__proto__]; both are truthy
    and have no [queries]), or [undefined]. *)
Inductive RegistryEntry : Type :=
| Entry (d : DialectDefinition)
| Inherited
| Missing.

(** The keys of the registry object, and the all-lower-case names of the
    members every object inherits. *)
Definition registry_keys : list string :=
  ["postgres"; "mssql"; "mysql"; "sqlite"; "mongodb"; "parquet"].

Definition inherited_keys : list string := ["constructor"; "__proto__"].

Definition DialectRegistry (tag : string) : RegistryEntry :=
  if String.eqb tag "postgres" then Entry postgres
  else if String.eqb tag "mssql" then Entry mssql
  else if String.eqb tag "mysql" then Entry mysql
  else if String.eqb tag "sqlite" then Entry sqlite
  else if String.eqb tag "mongodb" then Entry mongodb
  else if String.eqb tag "parquet" then Entry parquet
  else if String.eqb tag "constructor" || String.eqb tag "__proto__" then Inherited
  else Missing.

End Dialects.

(* ================================================================== *)
(** * The router ([MuulService]) *)
(* ================================================================== *)

Module MuulService.

Import Dialects.

(** [CredentialEntry]: the router reads [id] and the optional [dbType]
    only. *)
Record CredentialEntry : Type := mkCredential {
  id : string;
  dbType : option string
}.

(** [QueryResult] as it exists at run time: the success branch stores the
    reply's members unchecked, so every field is a [JsVal]; an absent
    [error] or [rawJson] is [JUndefined].  The [timestamp] member (a clock
    reading) is left out. *)
Record QueryResult : Type := mkResult {
  columns : JsVal;
  rows : JsVal;
  rowCount : JsVal;
  executionTimeMs : JsVal;
  error : JsVal;
  rawJson : JsVal
}.

(** The literal returned on the three failure paths. *)
Definition failure (message : JsVal) : QueryResult :=
  mkResult (JArr []) (JArr []) (JNum 0) (JNum 0) message JUndefined.

(** The request envelope; its [requestId] is derived from the clock and
    belongs to the world. *)
Record RemoteRequest : Type := mkRequest {
  req_type : string;
  credentialId : string;
  sql : string
}.

(** What awaiting [window.externalMessage.send(...)] gives: the reply, or
    the reason of a synchronous throw or a rejection. *)
Inductive SendOutcome : Type :=
| Resolved (response : JsVal)
| Rejected (reason : JsVal).

(** [credential.dbType?.toLowerCase() === 'sqlserver' ? 'mssql'
      : credential.dbType?.toLowerCase() || 'postgres'] *)
Definition dialect_tag (credential : CredentialEntry) : string :=
  match dbType credential with
  | None => "postgres"
  | Some t =>
      if String.eqb (toLowerCase t) "sqlserver" then "mssql"
      else if String.eqb (toLowerCase t) "" then "postgres"
      else toLowerCase t
  end.

(** The data-shape inference of the success branch: the pair of the final
    [columns] and [rows]. *)
Definition infer_shape (columns0 rows0 : JsVal) : Res (JsVal * JsVal) :=
  bind (if truthy columns0 then get columns0 "length" else Ok JUndefined)
       (fun len =>
          if negb (truthy columns0) || strict_eq len (JNum 0) then
            match rows0 with
            | JArr (first :: others) =>
                if is_object first then
                  let cols := keys first in
                  bind (mapM (fun obj => mapM (fun col => get obj col) cols)
                             (first :: others))
                       (fun projected =>
                          Ok (JArr (map JStr cols), JArr (map JArr projected)))
                else Ok (columns0, rows0)
            | _ => Ok (columns0, rows0)
            end
          else Ok (columns0, rows0)).

(** The branch [if (response && response.ok) { ... }]. *)
Definition success (response : JsVal) : Res QueryResult :=
  bind (get response "columns") (fun c =>
  bind (get response "rows") (fun r =>
  bind (infer_shape (or_else c (JArr [])) (or_else r (JArr []))) (fun shaped =>
  let '(columns1, rows1) := shaped in
  bind (get response "rowCount") (fun rc =>
  bind (if truthy rc then Ok rc
        else if truthy rows1 then get rows1 "length" else Ok (JNum 0)) (fun count =>
  bind (get response "executionTimeMs") (fun ms =>
  bind (get response "rawJson") (fun raw =>
  Ok (mkResult columns1 rows1 count (or_else ms (JNum 0)) JUndefined raw)))))))).

(** The body of the [try] block after the reply has arrived. *)
Definition handle_response (response : JsVal) : Res QueryResult :=
  bind (if truthy response then get response "ok" else Ok response) (fun ok =>
  if truthy ok then success response
  else
    bind (get_opt response "error") (fun e =>
    Ok (failure (or_else e (JStr "Unknown remote error"))))).

(** The [catch (error)] block: it reads [error.message]. *)
Definition handle_failure (reason : JsVal) : Res QueryResult :=
  bind (get reason "message") (fun m =>
  Ok (failure (or_else m (JStr "Bridge communication failed")))).

(** [(a || b) || c] over the own properties of a row object. *)
Definition first_of (row : list (string * JsVal)) (ks : list string) : JsVal :=
  fold_left (fun acc k => or_else acc (lookup row k)) ks JUndefined.

Section Router.

(** The hosting environment: the state of everything behind the bridge,
    and [window.externalMessage?.send] ([None] when the bridge is not
    there). *)
Variable World : Type.
Variable externalMessage_send : option (RemoteRequest -> World -> SendOutcome * World).

(** The numeric reading of non-numeric cells in [cell > 0]. *)
Variable coerced : JsVal -> bool.

(** The case tables of the runtime, for texts that are not ASCII. *)
Variable upper_unicode : string -> string.

(** An [async] method: it may reject and it moves the world on. *)
Definition Async (A : Type) : Type := World -> Res A * World.

Definition ret {A} (a : A) : Async A := fun w => (Ok a, w).
Definition lift {A} (r : Res A) : Async A := fun w => (r, w).
Definition await {A B} (m : Async A) (k : A -> Async B) : Async B :=
  fun w =>
    match m w with
    | (Ok a, w') => k a w'
    | (Throw e, w') => (Throw e, w')
    end.

Definition executeRemoteQuery (credential : CredentialEntry) (sql_text : string)
  : Async QueryResult :=
  fun w =>
    match externalMessage_send with
    | None => (Ok (failure (JStr "Muul Browser bridge not detected.")), w)
    | Some send =>
        let '(outcome, w') :=
          send (mkRequest "EXECUTE_REMOTE_QUERY" (id credential) sql_text) w in
        let attempt :=
          match outcome with
          | Resolved response => handle_response response
          | Rejected reason => Throw reason
          end in
        match attempt with
        | Ok result => (Ok result, w')
        | Throw reason => (handle_failure reason, w')
        end
    end.

(** The inner [forEach] of [toObjects]:
    [obj[col.toLowerCase()] = row[i]] for the columns from index [i] on. *)
Fixpoint fill_object (cols : list JsVal) (i : nat) (row : JsVal)
         (obj : list (string * JsVal)) : Res (list (string * JsVal)) :=
  match cols with
  | [] => Ok obj
  | col :: rest =>
      match col with
      | JStr c =>
          bind (get_index row i) (fun cell =>
          fill_object rest (S i) row (assign obj (toLowerCase c) cell))
      | _ => Throw (TypeError "col.toLowerCase is not a function")
      end
  end.

(** [toObjects(res)].  A column spelled [__proto__] is stored like any
    other (the prototype of the row object is not modelled). *)
Definition toObjects (res : QueryResult) : Res (list (list (string * JsVal))) :=
  match rows res with
  | JArr rs =>
      mapM (fun row =>
              match columns res with
              | JArr cols => fill_object cols 0 row []
              | _ => Throw (TypeError "res.columns.forEach is not a function")
              end) rs
  | _ => Throw (TypeError "res.rows.map is not a function")
  end.

(** The dialect-specific primary-key test of the column callback. *)
Definition is_pk (dbTypeStr : string) (colRow : list (string * JsVal)) : Res bool :=
  if String.eqb dbTypeStr "sqlite" then Ok (gt_zero coerced (lookup colRow "pk"))
  else if String.eqb dbTypeStr "postgres" || String.eqb dbTypeStr "mssql" then
    Ok (strict_eq (lookup colRow "pk") (JNum 1)
        || strict_eq (lookup colRow "pk") (JBool true))
  else if String.eqb dbTypeStr "mysql" then
    match or_else (lookup colRow "key") (JStr "") with
    | JStr k => Ok (String.eqb (toUpperCase upper_unicode k) "PRI")
    | _ => Throw (TypeError "(colRow.key || '').toUpperCase is not a function")
    end
  else Ok false.

(** The callback of [toObjects(colsResult).map(colRow => ...)]. *)
Definition column_of (dbTypeStr : string) (fksData : list (list (string * JsVal)))
           (colRow : list (string * JsVal)) : Res (ColumnDefinition JsVal) :=
  let name := first_of colRow ["name"; "field"; "column_name"] in
  let type := first_of colRow ["type"; "data_type"] in
  bind (is_pk dbTypeStr colRow) (fun isPk =>
  let fkDef := find (fun fk => strict_eq (lookup fk "from") name) fksData in
  Ok (mkColumn name type isPk
        (match fkDef with Some _ => true | None => false end)
        (match fkDef with
         | Some fk => Some (mkReference (lookup fk "table") (lookup fk "to"))
         | None => None
         end))).

(** The body of [for (const tableName of tableNames)]: the table pushed, or
    [None] after [continue]. *)
Definition discover_table (credential : CredentialEntry) (dbTypeStr : string)
           (dialect : DialectDefinition) (tableName : JsVal)
  : Async (option (TableDefinition JsVal)) :=
  await (executeRemoteQuery credential (getColumns dialect (to_string tableName)))
        (fun colsResult =>
  if truthy (error colsResult) then ret None
  else
    await (executeRemoteQuery credential (getForeignKeys dialect (to_string tableName)))
          (fun fksResult =>
    lift
      (bind (if truthy (error fksResult) then Ok [] else toObjects fksResult)
            (fun fksData =>
       bind (toObjects colsResult) (fun colRows =>
       bind (mapM (column_of dbTypeStr fksData) colRows) (fun cols =>
       Ok (Some (mkTable tableName cols)))))))).

Fixpoint discover_tables (credential : CredentialEntry) (dbTypeStr : string)
         (dialect : DialectDefinition) (tableNames : list JsVal)
  : Async (list (TableDefinition JsVal)) :=
  match tableNames with
  | [] => ret []
  | tableName :: rest =>
      await (discover_table credential dbTypeStr dialect tableName) (fun pushed =>
      await (discover_tables credential dbTypeStr dialect rest) (fun more =>
      ret (match pushed with Some t => t :: more | None => more end)))
  end.

(** [firstColName]: [null] is [None]. *)
Definition first_column_name (tablesResult : QueryResult) : Res (option string) :=
  bind (get (columns tablesResult) "length") (fun len =>
  if gt_zero coerced len then
    bind (get_index (columns tablesResult) 0) (fun c0 =>
    match c0 with
    | JStr c => Ok (Some (toLowerCase c))
    | _ => Throw (TypeError "tablesResult.columns[0].toLowerCase is not a function")
    end)
  else Ok None).

(** [tableObjects.map(row => row.name || (firstColName ? row[firstColName]
    : undefined)).filter(n => n)] *)
Definition table_names (tableObjects : list (list (string * JsVal)))
           (firstColName : option string) : list JsVal :=
  filter truthy
    (map (fun row =>
            or_else (lookup row "name")
                    (match firstColName with
                     | Some f => if String.eqb f "" then JUndefined else lookup row f
                     | None => JUndefined
                     end))
         tableObjects).

(** [getRemoteDatabaseSchema] once [dialect] has been found in the
    registry. *)
Definition discover_with (credential : CredentialEntry) (dbTypeStr : string)
           (dialect : DialectDefinition) : Async (DbSchema JsVal) :=
  await (executeRemoteQuery credential (getTables dialect)) (fun tablesResult =>
  if truthy (error tablesResult) || negb (truthy (rows tablesResult))
  then ret (mkSchema [])
  else
    await (lift (toObjects tablesResult)) (fun tableObjects =>
    await (lift (first_column_name tablesResult)) (fun firstColName =>
    await (discover_tables credential dbTypeStr dialect
             (table_names tableObjects firstColName)) (fun tables =>
    ret (mkSchema tables))))).

Definition getRemoteDatabaseSchema (credential : CredentialEntry)
  : Async (DbSchema JsVal) :=
  let dbTypeStr := dialect_tag credential in
  match DialectRegistry dbTypeStr with
  | Missing => ret (mkSchema [])
  | Inherited =>
      lift (Throw (TypeError "Cannot read properties of undefined (reading 'getTables')"))
  | Entry dialect => discover_with credential dbTypeStr dialect
  end.

(** A result the discovery can read without an exception: its rows turn
    into objects, its first column name can be taken, and the primary-key
    test applies to every row. *)
Definition readable (dbTypeStr : string) (r : QueryResult) : Prop :=
  exists objs,
    toObjects r = Ok objs
    /\ (exists f, first_column_name r = Ok f)
    /\ Forall (fun row => exists b, is_pk dbTypeStr row = Ok b) objs.

(** A query that comes back with a result which either reports an error or
    is readable. *)
Definition answered (dbTypeStr : string) (outcome : Res QueryResult * World) : Prop :=
  exists r w1,
    outcome = (Ok r, w1) /\ (truthy (error r) = true \/ readable dbTypeStr r).

(** [this.realDatabases]: the uploaded databases, newest entry first, with
    their name and type. *)
Variable realDatabases : list (string * (string * string)).

Definition realDatabases_get (dbId : string) : option (string * string) :=
  option_map snd (find (fun e => String.eqb (fst e) dbId) realDatabases).

Definition getDialectForDb (dbId : string) (credential : option CredentialEntry)
  : string :=
  match credential with
  | Some c => dialect_tag c
  | None =>
      if String.eqb dbId "db-mssql" then "mssql"
      else if String.eqb dbId "db-mongo" then "mongodb"
      else match realDatabases_get dbId with
           | Some meta => snd meta
           | None => "postgres"
           end
  end.

(** The two execution paths [explainQuery] hands the rewritten statement
    to: [this.executeQuery(dbId, sql, queryId)] (the [queryId] is not read
    by it) and [this.executeRemoteQuery(credential, sql)]. *)
Variable Outcome : Type.
Variable executeQuery : string -> string -> Outcome.
Variable executeRemote : CredentialEntry -> string -> Outcome.

Definition explainQuery (dbId : string) (sql_text : string)
           (credential : option CredentialEntry) : Outcome :=
  let type := getDialectForDb dbId credential in
  let run explainSql :=
    match credential with
    | Some c => executeRemote c explainSql
    | None => executeQuery dbId explainSql
    end in
  if String.eqb type "postgres" then run ("EXPLAIN (FORMAT JSON, ANALYZE) " ++ sql_text)
  else if String.eqb type "sqlite" then run ("EXPLAIN QUERY PLAN " ++ sql_text)
  else if String.eqb type "mssql" then
    run ("SET SHOWPLAN_XML ON;" ++ nl ++ "GO" ++ nl ++ sql_text ++ nl ++ "GO" ++ nl
         ++ "SET SHOWPLAN_XML OFF;")
  else if String.eqb type "mysql" then run ("EXPLAIN FORMAT=JSON " ++ sql_text)
  else if String.eqb type "mongodb" then
    executeQuery dbId
      (if includes ".explain" sql_text then sql_text
       else sql_text ++ ".explain(" ++ dq ++ "executionStats" ++ dq ++ ")")
  else run ("EXPLAIN " ++ sql_text).

End Router.

End MuulService.

(* ================================================================== *)
(** * The document-store engine ([MongoEngine]) *)
(* ================================================================== *)

Module MongoEngine.

(** [getMockDocuments(collection)] *)
Definition getMockDocuments (collection : string) : list JsVal :=
  if String.eqb collection "users" then
    [ JObj [("_id", JStr "64a1b2c3"); ("username", JStr "jdoe");
            ("profile", JObj [("age", JNum 30); ("city", JStr "NY")]);
            ("tags", JArr [JStr "dev"; JStr "admin"])];
      JObj [("_id", JStr "64a1b2c4"); ("username", JStr "asmith");
            ("profile", JObj [("age", JNum 25); ("city", JStr "SF")]);
            ("tags", JArr [JStr "design"])];
      JObj [("_id", JStr "64a1b2c5"); ("username", JStr "bwong");
            ("profile", JObj [("age", JNum 34); ("city", JStr "London")]);
            ("tags", JArr [JStr "hr"])] ]
  else
    [ JObj [("_id", JStr "99x88y77"); ("collection", JStr collection);
            ("status", JStr "processed");
            ("metadata", JObj [("source", JStr "web")])];
      JObj [("_id", JStr "99x88y78"); ("collection", JStr collection);
            ("status", JStr "pending");
            ("metadata", JObj [("source", JStr "api")])] ].

(** The keys one document contributes in [extractColumns]: a nested plain
    object is flattened one level into dotted names. *)
Definition document_keys (doc : JsVal) : list string :=
  flat_map
    (fun k =>
       match read doc k with
       | JObj sub => map (fun subK => k ++ "." ++ subK) (map fst sub)
       | _ => [k]
       end)
    (keys doc).

(** [extractColumns(docs)] *)
Definition extractColumns (docs : list JsVal) : list string :=
  dedup [] (flat_map document_keys docs).

Definition collections : list string := ["users"; "orders"; "logs"; "settings"].

(** [getSchema(dbId)]: the column literal has no [references] member. *)
Definition getSchema (dbId : string) : DbSchema string :=
  mkSchema
    (map (fun name =>
            let sampleDocs := firstn 1 (getMockDocuments name) in
            let cols := extractColumns sampleDocs in
            mkTable name
              (map (fun c =>
                      mkColumn c "bson" (String.eqb c "_id")
                               (endsWith "_id" c && negb (String.eqb c "_id"))
                               None)
                   cols))
         collections).

End MongoEngine.

(* ================================================================== *)
(** * The simulation engine ([MockEngine]): its schema *)
(* ================================================================== *)

Module MockEngine.

Definition col (n ty : string) (pk : bool) : ColumnDefinition string :=
  mkColumn n ty pk false None.

(** [getSchema(dbId)] *)
Definition getSchema (dbId : string) : DbSchema string :=
  if String.eqb dbId "db-mssql" then
    mkSchema
      [ mkTable "SalesOrderHeader"
          [ col "SalesOrderID" "int" true;
            col "OrderDate" "datetime" false;
            mkColumn "CustomerID" "int" false true
                     (Some (mkReference "Customer" "CustomerID"));
            col "TotalDue" "money" false ] ]
  else
    mkSchema
      [ mkTable "users" [col "id" "uuid" true; col "email" "varchar" false];
        mkTable "audit_log_heap"
          [col "event_id" "uuid" false; col "payload" "text" false] ].

End MockEngine.

(* ================================================================== *)
(** * The embedded engine ([SqliteEngine]): introspection *)
(* ================================================================== *)

Module SqliteEngine.

(** One entry of the array [db.exec(sql)] returns. *)
Record ExecResult : Type := mkExec {
  res_columns : list string;
  values : list (list JsVal)
}.

Section Introspection.

(** The database object of the embedded library: [exec] runs a statement
    text, may throw, and may change the database. *)
Variable Db : Type.
Variable db_exec : Db -> string -> Res (list ExecResult) * Db.

(** [cell > 0] for cells that are not numbers. *)
Variable coerced : JsVal -> bool.

Definition cell (row : list JsVal) (i : nat) : JsVal := nth i row JUndefined.

(** The literal built from one row of [PRAGMA foreign_key_list]. *)
Record FkEdge : Type := mkEdge { from : JsVal; fk_table : JsVal; to : JsVal }.

Definition edge_of (row : list JsVal) : FkEdge :=
  mkEdge (cell row 3) (cell row 2) (cell row 4).

(** The callback of [colsRes[0].values.map(row => ...)]. *)
Definition column_of (fks : list FkEdge) (row : list JsVal) : ColumnDefinition JsVal :=
  let name := cell row 1 in
  let type := cell row 2 in
  let isPk := gt_zero coerced (cell row 5) in
  let fkDef := find (fun f => strict_eq (from f) name) fks in
  mkColumn name type isPk
    (match fkDef with Some _ => true | None => false end)
    (match fkDef with
     | Some f => Some (mkReference (fk_table f) (to f))
     | None => None
     end).

(** The body of [for (const tableName of tableNames)]. *)
Definition introspect_table (db : Db) (tableName : JsVal)
  : Res (TableDefinition JsVal) * Db :=
  match db_exec db ("PRAGMA table_info(" ++ quoted (to_string tableName) ++ ")") with
  | (Throw e, db1) => (Throw e, db1)
  | (Ok colsRes, db1) =>
      match db_exec db1 ("PRAGMA foreign_key_list(" ++ quoted (to_string tableName) ++ ")") with
      | (Throw e, db2) => (Throw e, db2)
      | (Ok fkRes, db2) =>
          let fks :=
            match fkRes with
            | r :: _ => map edge_of (values r)
            | [] => []
            end in
          match colsRes with
          | r :: _ => (Ok (mkTable tableName (map (column_of fks) (values r))), db2)
          | [] =>
              (Throw (TypeError "Cannot read properties of undefined (reading 'values')"),
               db2)
          end
      end
  end.

Fixpoint introspect_tables (db : Db) (tableNames : list JsVal)
  : Res (list (TableDefinition JsVal)) * Db :=
  match tableNames with
  | [] => (Ok [], db)
  | tableName :: rest =>
      match introspect_table db tableName with
      | (Throw e, db1) => (Throw e, db1)
      | (Ok t, db1) =>
          match introspect_tables db1 rest with
          | (Throw e, db2) => (Throw e, db2)
          | (Ok ts, db2) => (Ok (t :: ts), db2)
          end
      end
  end.

Definition tables_query : string :=
  "SELECT name FROM sqlite_master WHERE type='table' AND name NOT LIKE 'sqlite_%'".

(** The [try] block of [getSchema]. *)
Definition read_schema (db : Db) : Res (DbSchema JsVal) * Db :=
  match db_exec db tables_query with
  | (Throw e, db1) => (Throw e, db1)
  | (Ok [], db1) => (Ok (mkSchema []), db1)
  | (Ok (r :: _), db1) =>
      match introspect_tables db1 (concat (values r)) with
      | (Throw e, db2) => (Throw e, db2)
      | (Ok ts, db2) => (Ok (mkSchema ts), db2)
      end
  end.

(** [getSchema(dbId)] on the instance found under [dbId] ([None] when
    there is none): every exception degrades to the empty schema. *)
Definition getSchema (instance : option Db) : DbSchema JsVal * option Db :=
  match instance with
  | None => (mkSchema [], None)
  | Some db =>
      match read_schema db with
      | (Ok schema, db1) => (schema, Some db1)
      | (Throw _, db1) => (mkSchema [], Some db1)
      end
  end.

(** The result literal of [executeQuery]; timing members are left out. *)
Record QueryResult : Type := mkResult {
  columns : list string;
  rows : list (list JsVal);
  rowCount : nat;
  error : JsVal
}.

Fixpoint last_result (results : list ExecResult) : option ExecResult :=
  match results with
  | [] => None
  | [r] => Some r
  | _ :: rest => last_result rest
  end.

(** [executeQuery(dbId, sql)]: a missing instance is the only case that
    throws. *)
Definition executeQuery (instance : option Db) (sql_text : string)
  : Res QueryResult * option Db :=
  match instance with
  | None => (Throw (JObj [("message", JStr "Database instance not found")]), None)
  | Some db =>
      match db_exec db sql_text with
      | (Ok results, db1) =>
          match last_result results with
          | None => (Ok (mkResult [] [] 0 JUndefined), Some db1)
          | Some lastRes =>
              (Ok (mkResult (res_columns lastRes) (values lastRes)
                     (List.length (values lastRes)) JUndefined), Some db1)
          end
      | (Throw e, db1) =>
          (bind (get e "message") (fun message => Ok (mkResult [] [] 0 message)),
           Some db1)
      end
  end.

End Introspection.

(** [sanitizeTableName(filename)]:
    [filename.replace(/[^a-zA-Z0-9]/g, '_').replace(/_(csv|json|parquet)$/i, '')] *)
Definition is_alnum (c : ascii) : bool := is_upper c || is_lower c || is_digit c.

Definition underscore_others (c : ascii) : ascii :=
  if is_alnum c then c else "_"%char.

(** [s] without its tail, when the tail equals [suffix] up to letter
    case. *)
Fixpoint drop_suffix (suffix s : string) : option string :=
  if equal_ignoring_case s suffix then Some ""
  else match s with
       | EmptyString => None
       | String c s' => option_map (String c) (drop_suffix suffix s')
       end.

Definition sanitizeTableName (filename : string) : string :=
  let s := map_chars underscore_others filename in
  match drop_suffix "_csv" s with
  | Some r => r
  | None =>
      match drop_suffix "_json" s with
      | Some r => r
      | None =>
          match drop_suffix "_parquet" s with
          | Some r => r
          | None => s
          end
      end
  end.

(** What the engine reads of [Papa.parse(text, {header: true,
    dynamicTyping: true, skipEmptyLines: true})]: [meta.fields]
    ([None] when absent) and [data]. *)
Record ParseResult : Type := mkParsed {
  fields : option (list string);
  data : list JsVal
}.

(** The [File] handed to the import. *)
Record File : Type := mkFile {
  file_name : string;
  file_text : string
}.

Section CsvImport.

(** The embedded database library and the delimited-text parser.  Both are
    external to the repository; the engine is written against these
    operations: [new SQL.Database()], [new SQL.Database(bytes)], [db.run],
    [db.prepare], [stmt.run], [db.exec], and [Papa.parse]. *)
Variable Db : Type.
Variable Statement : Type.
Variable db_new : Db.
Variable db_open : string -> Db.
Variable db_run : Db -> string -> Res Db.
Variable db_prepare : Db -> string -> Res Statement.
Variable stmt_run : Db -> Statement -> list JsVal -> Res Db.
Variable db_exec : Db -> string -> Res (list ExecResult) * Db.
Variable papa_parse : string -> ParseResult.

(** [fields.map(f => row[f] ?? null)] *)
Definition row_values (field_names : list string) (row : JsVal) : Res (list JsVal) :=
  mapM (fun f =>
          bind (get row f) (fun v =>
          Ok (match v with JUndefined | JNull => JNull | _ => v end)))
       field_names.

(** The [for (const row of data)] loop. *)
Fixpoint insert_rows (db : Db) (stmt : Statement) (field_names : list string)
         (rows : list JsVal) : Res Db :=
  match rows with
  | [] => Ok db
  | row :: rest =>
      bind (row_values field_names row) (fun vals =>
      bind (stmt_run db stmt vals) (fun db1 =>
      insert_rows db1 stmt field_names rest))
  end.

(** The result of [db.exec] is discarded: only the exception and the new
    database matter. *)
Definition exec_only (db : Db) (sql_text : string) : Res Db :=
  match db_exec db sql_text with
  | (Ok _, db1) => Ok db1
  | (Throw e, _) => Throw e
  end.

Definition importDataToTable (db : Db) (tableName : string)
           (field_names : list string) (rows : list JsVal) : Res Db :=
  let columnsDef := join ", " (map (fun f => quoted f ++ " TEXT") field_names) in
  bind (db_run db ("CREATE TABLE " ++ quoted tableName ++ " (" ++ columnsDef ++ ");"))
       (fun db1 =>
  let placeholders := join ", " (map (fun _ => "?") field_names) in
  bind (db_prepare db1
          ("INSERT INTO " ++ quoted tableName ++ " VALUES (" ++ placeholders ++ ")"))
       (fun stmt =>
  bind (exec_only db1 "BEGIN TRANSACTION") (fun db2 =>
  bind (insert_rows db2 stmt field_names rows) (fun db3 =>
  exec_only db3 "COMMIT")))).

(** [createDatabaseFromFile(file)]: the database and the type tag. *)
Definition createDatabaseFromFile (file : File) : Res (Db * string) :=
  if endsWith ".sqlite" (file_name file) || endsWith ".db" (file_name file) then
    bind (db_run (db_open (file_text file)) "PRAGMA foreign_keys = ON;") (fun db =>
    Ok (db, "sqlite"))
  else if endsWith ".csv" (file_name file) then
    let parseResult := papa_parse (file_text file) in
    let db := db_new in
    let tableName := sanitizeTableName (file_name file) in
    match fields parseResult, data parseResult with
    | Some field_names, _ :: _ =>
        bind (importDataToTable db tableName field_names (data parseResult))
             (fun db1 => Ok (db1, "sqlite"))
    | _, _ => Ok (db, "sqlite")
    end
  else Ok (db_new, "sqlite").

End CsvImport.

End SqliteEngine.

(* ================================================================== *)
(** * A sample bridge *)
(* ================================================================== *)

Module SampleBridge.

Import MuulService.

(** A bridge in front of an SQLite database with three tables.  The world
    counts the requests served.  The column query of [broken] fails, and so
    does the foreign-key query of [customers]. *)
Definition reply (cols : list string) (rws : list (list JsVal)) : JsVal :=
  JObj [("ok", JBool true); ("columns", JArr (map JStr cols));
        ("rows", JArr (map JArr rws))].

Definition refusal (message : string) : JsVal :=
  JObj [("ok", JBool false); ("error", JStr message)].

Definition table_info_columns : list string :=
  ["cid"; "name"; "type"; "notnull"; "dflt_value"; "pk"].

Definition fk_list_columns : list string :=
  ["id"; "seq"; "table"; "from"; "to"; "on_update"; "on_delete"; "match"].

Definition answer (sql_text : string) : JsVal :=
  if String.eqb sql_text Dialects.sqlite_getTables then
    reply ["name"] [[JStr "orders"]; [JStr "broken"]; [JStr "customers"]]
  else if String.eqb sql_text (Dialects.sqlite_getColumns "orders") then
    reply table_info_columns
      [[JNum 0; JStr "id"; JStr "INTEGER"; JNum 0; JNull; JNum 1];
       [JNum 1; JStr "customer_id"; JStr "INTEGER"; JNum 0; JNull; JNum 0]]
  else if String.eqb sql_text (Dialects.sqlite_getForeignKeys "orders") then
    reply fk_list_columns
      [[JNum 0; JNum 0; JStr "customers"; JStr "customer_id"; JStr "id";
        JStr "NO ACTION"; JStr "NO ACTION"; JStr "NONE"]]
  else if String.eqb sql_text (Dialects.sqlite_getColumns "customers") then
    reply table_info_columns
      [[JNum 0; JStr "id"; JStr "INTEGER"; JNum 0; JNull; JNum 1]]
  else if String.eqb sql_text (Dialects.sqlite_getColumns "broken") then
    refusal "no such table: broken"
  else refusal "not authorized".

Definition send (request : RemoteRequest) (served : nat) : SendOutcome * nat :=
  (Resolved (answer (sql request)), S served).

Definition credential : CredentialEntry := mkCredential "cred-1" (Some "SQLite").



Definition no_coercion (v : JsVal) : bool := false.

(** A runtime without case tables: the samples hold ASCII texts only. *)
Definition no_case_table (s : string) : string := s.

(** The schema the discovery is expected to return. *)
Definition expected : DbSchema JsVal :=
  mkSchema
    [ mkTable (JStr "orders")
        [ mkColumn (JStr "id") (JStr "INTEGER") true false None;
          mkColumn (JStr "customer_id") (JStr "INTEGER") false true
                   (Some (mkReference (JStr "customers") (JStr "id"))) ];
      mkTable (JStr "customers")
        [ mkColumn (JStr "id") (JStr "INTEGER") true false None ] ].

End SampleBridge.

(* ================================================================== *)
(** * A reference model of the embedded database library *)
(* ================================================================== *)

Module SqlJsModel.

Import SqliteEngine.

(** Modelled from the spec: the embedded database library (sql.js, a build
    of SQLite) and the delimited-text parser are not part of the sources.
    This is the slice of the library that the embedded-file engine drives:
    creating a table whose columns are all [TEXT], a prepared positional
    insert, the two transaction statements, the catalogue query of
    [getSchema], the two reflection pragmas, and [SELECT *] from a
    double-quoted table name.  Values stored in a [TEXT] column take text
    form; [exec] reports a statement only when it has at least one row; a
    table whose name matches [sqlite_%] is reserved or hidden from the
    catalogue query.  Any other statement is outside the model and is
    reported as an exception. *)
Record Stored : Type := mkStored {
  stored_name : string;
  stored_columns : list (string * string);
  stored_rows : list (list JsVal)
}.

(** Tables in creation order. *)
Definition Db : Type := list Stored.

Record Statement : Type := mkStatement {
  target : string;
  arity : nat
}.

Definition db_new : Db := [].

Definition SqlError (message : string) : JsVal := JObj [("message", JStr message)].

(** [s] without the prefix [p]. *)
Fixpoint strip_prefix (p s : string) : option string :=
  match p with
  | EmptyString => Some s
  | String a p' =>
      match s with
      | EmptyString => None
      | String b s' => if Ascii.eqb a b then strip_prefix p' s' else None
      end
  end.

(** The text up to the next double quote, and what follows the quote. *)
Fixpoint read_name (s : string) : option (string * string) :=
  match s with
  | EmptyString => None
  | String c s' =>
      if Ascii.eqb c "034"%char then Some (EmptyString, s')
      else match read_name s' with
           | Some (n, rest) => Some (String c n, rest)
           | None => None
           end
  end.

(** ["a" TEXT, "b" TEXT);] *)
Fixpoint read_columns (fuel : nat) (s : string) : option (list (string * string)) :=
  match fuel with
  | O => None
  | S fuel' =>
      match strip_prefix dq s with
      | None => None
      | Some s1 =>
          match read_name s1 with
          | None => None
          | Some (col, s2) =>
              match strip_prefix " TEXT" s2 with
              | None => None
              | Some s3 =>
                  if String.eqb s3 ");" then Some [(col, "TEXT")]
                  else match strip_prefix ", " s3 with
                       | None => None
                       | Some s4 =>
                           option_map (cons (col, "TEXT")) (read_columns fuel' s4)
                       end
              end
          end
      end
  end.

(** [?, ?, ?)] *)
Fixpoint count_placeholders (fuel : nat) (s : string) : option nat :=
  match fuel with
  | O => None
  | S fuel' =>
      match strip_prefix "?" s with
      | None => None
      | Some s1 =>
          if String.eqb s1 ")" then Some 1
          else match strip_prefix ", " s1 with
               | None => None
               | Some s2 => option_map S (count_placeholders fuel' s2)
               end
      end
  end.

(** [name LIKE 'sqlite_%']: [sqlite] in any letter case, then at least one
    more character. *)
Definition like_sqlite (name : string) : bool :=
  equal_ignoring_case (substring 0 6 name) "sqlite"
  && (7 <=? String.length name)%nat.

(** Names starting with [sqlite_] are reserved for internal use. *)
Definition reserved (name : string) : bool :=
  equal_ignoring_case (substring 0 7 name) "sqlite_".

Definition find_stored (db : Db) (name : string) : option Stored :=
  find (fun t => equal_ignoring_case (stored_name t) name) db.

Fixpoint distinct (names : list string) : bool :=
  match names with
  | [] => true
  | n :: rest => negb (existsb (equal_ignoring_case n) rest) && distinct rest
  end.

Definition create_table (db : Db) (name : string) (cols : list (string * string))
  : Res Db :=
  if reserved name then
    Throw (SqlError ("object name reserved for internal use: " ++ name))
  else if match find_stored db name with Some _ => true | None => false end then
    Throw (SqlError ("table " ++ name ++ " already exists"))
  else if negb (distinct (map fst cols)) then
    Throw (SqlError "duplicate column name")
  else Ok (db ++ [mkStored name cols []])%list.

Definition table_info_rows (cols : list (string * string)) : list (list JsVal) :=
  map (fun ic =>
         [JNum (Z.of_nat (fst ic)); JStr (fst (snd ic)); JStr (snd (snd ic));
          JNum 0; JNull; JNum 0])
      (combine (seq 0 (List.length cols)) cols).

(** The entries [exec] reports for one statement that returns [rws]. *)
Definition reported (cols : list string) (rws : list (list JsVal)) : list ExecResult :=
  match rws with
  | [] => []
  | _ => [mkExec cols rws]
  end.

(** Modelled from the spec: [db.exec(sql)] of the library, for the
    statements listed above. *)
Definition db_exec (db : Db) (sql_text : string) : Res (list ExecResult) * Db :=
  if String.eqb sql_text "BEGIN TRANSACTION" || String.eqb sql_text "COMMIT"
     || String.eqb sql_text "PRAGMA foreign_keys = ON;"
  then (Ok [], db)
  else if String.eqb sql_text tables_query then
    (Ok (reported ["name"]
           (map (fun t => [JStr (stored_name t)])
                (filter (fun t => negb (like_sqlite (stored_name t))) db))), db)
  else
    match strip_prefix ("CREATE TABLE " ++ dq) sql_text with
    | Some s1 =>
        match read_name s1 with
        | Some (name, s2) =>
            match strip_prefix " (" s2 with
            | Some s3 =>
                match read_columns (String.length s3) s3 with
                | Some cols =>
                    match create_table db name cols with
                    | Ok db1 => (Ok [], db1)
                    | Throw e => (Throw e, db)
                    end
                | None => (Throw (SqlError "statement outside the model"), db)
                end
            | None => (Throw (SqlError "statement outside the model"), db)
            end
        | None => (Throw (SqlError "statement outside the model"), db)
        end
    | None =>
    match strip_prefix ("PRAGMA table_info(" ++ dq) sql_text with
    | Some s1 =>
        match read_name s1 with
        | Some (name, ")") =>
            match find_stored db name with
            | Some t =>
                (Ok (reported ["cid"; "name"; "type"; "notnull"; "dflt_value"; "pk"]
                       (table_info_rows (stored_columns t))), db)
            | None => (Ok [], db)
            end
        | _ => (Throw (SqlError "statement outside the model"), db)
        end
    | None =>
    match strip_prefix ("PRAGMA foreign_key_list(" ++ dq) sql_text with
    | Some s1 =>
        match read_name s1 with
        | Some (name, ")") => (Ok [], db)
        | _ => (Throw (SqlError "statement outside the model"), db)
        end
    | None =>
    match strip_prefix ("SELECT * FROM " ++ dq) sql_text with
    | Some s1 =>
        match read_name s1 with
        | Some (name, "") =>
            match find_stored db name with
            | Some t =>
                (Ok (reported (map fst (stored_columns t)) (stored_rows t)), db)
            | None => (Throw (SqlError ("no such table: " ++ name)), db)
            end
        | _ => (Throw (SqlError "statement outside the model"), db)
        end
    | None => (Throw (SqlError "statement outside the model"), db)
    end end end end.

(** [db.run(sql)] *)
Definition db_run (db : Db) (sql_text : string) : Res Db :=
  match db_exec db sql_text with
  | (Ok _, db1) => Ok db1
  | (Throw e, _) => Throw e
  end.

(** Modelled from the spec: [db.prepare(sql)] of the library, for a
    positional insert. *)
Definition db_prepare (db : Db) (sql_text : string) : Res Statement :=
  match strip_prefix ("INSERT INTO " ++ dq) sql_text with
  | Some s1 =>
      match read_name s1 with
      | Some (name, s2) =>
          match strip_prefix " VALUES (" s2 with
          | Some s3 =>
              match count_placeholders (String.length s3) s3, find_stored db name with
              | Some n, Some t =>
                  if (n =? List.length (stored_columns t))%nat
                  then Ok (mkStatement name n)
                  else Throw (SqlError "wrong number of values supplied")
              | Some _, None => Throw (SqlError ("no such table: " ++ name))
              | None, _ => Throw (SqlError "statement outside the model")
              end
          | None => Throw (SqlError "statement outside the model")
          end
      | None => Throw (SqlError "statement outside the model")
      end
  | None => Throw (SqlError "statement outside the model")
  end.

(** The text form a bound value takes in a [TEXT] column. *)
Definition as_text (v : JsVal) : Res JsVal :=
  match v with
  | JUndefined | JNull => Ok JNull
  | JBool true => Ok (JStr "1")
  | JBool false => Ok (JStr "0")
  | JNum n => Ok (JStr (number_string n))
  | JStr s => Ok (JStr s)
  | JArr _ | JObj _ => Throw (SqlError "tried to bind a value of an unknown type")
  end.

Fixpoint append_row (db : Db) (name : string) (row : list JsVal) : Db :=
  match db with
  | [] => []
  | t :: rest =>
      if equal_ignoring_case (stored_name t) name
      then mkStored (stored_name t) (stored_columns t) (stored_rows t ++ [row])%list
           :: rest
      else t :: append_row rest name row
  end.

(** Modelled from the spec: [stmt.run(values)] of the library; every
    column is a [TEXT] column. *)
Definition stmt_run (db : Db) (stmt : Statement) (vals : list JsVal) : Res Db :=
  if negb (List.length vals =? arity stmt)%nat then
    Throw (SqlError "wrong number of values bound")
  else
    match find_stored db (target stmt) with
    | None => Throw (SqlError ("no such table: " ++ target stmt))
    | Some _ =>
        bind (mapM as_text vals) (fun row => Ok (append_row db (target stmt) row))
    end.

(** No double quote occurs in [s]. *)
Fixpoint no_quote (s : string) : bool :=
  match s with
  | EmptyString => true
  | String c s' => negb (Ascii.eqb c "034"%char) && no_quote s'
  end.

(** Modelled from the spec: the delimited-text parser on the file of the
    scenario, read with a header line and dynamic typing: two fields, one
    row whose [id] is the number 1. *)
Definition scenario_text : string := "id,name" ++ nl ++ "1,Alice".

Definition scenario_parse (text : string) : ParseResult :=
  if String.eqb text scenario_text
  then mkParsed (Some ["id"; "name"]) [JObj [("id", JNum 1); ("name", JStr "Alice")]]
  else mkParsed None [].

(** The table the scenario is expected to leave in the database. *)
Definition scenario_columns : list (string * string) :=
  [("id", "TEXT"); ("name", "TEXT")].

Definition scenario_table (name : string) : Stored :=
  mkStored name scenario_columns [[JStr "1"; JStr "Alice"]].

Definition text_column (name : string) : ColumnDefinition JsVal :=
  mkColumn (JStr name) (JStr "TEXT") false false None.

(** The engine on top of the model. *)
Definition import (parse : string -> ParseResult) (file : File) : Res (Db * string) :=
  createDatabaseFromFile db_new (fun _ => db_new) db_run db_prepare stmt_run db_exec
    parse file.

Definition schema_of (coerced : JsVal -> bool) (db : Db) : DbSchema JsVal :=
  fst (getSchema db_exec coerced (Some db)).

Definition select_all (db : Db) (tableName : string) : Res QueryResult :=
  fst (executeQuery db_exec (Some db) ("SELECT * FROM " ++ quoted tableName)).

End SqlJsModel.

(* ================================================================== *)
(** * Statistics folding ([MuulService.calculateStatsFromSchema]) *)
(* ================================================================== *)

Module Stats.

(** [DbStats].  The index count of the embedded engine is whatever
    [Number(...)] made of a cell, hence a [JsVal]. *)
Record DbStats : Type := mkStats {
  tableCount : nat;
  columnCount : nat;
  pkCount : nat;
  fkCount : nat;
  indexCount : JsVal
}.

(** The three counters [pks], [fks], [cols] of the nested [forEach]. *)
Definition Counters : Type := (nat * nat * nat)%type.

Definition count_column {V} (k : Counters) (c : ColumnDefinition V) : Counters :=
  let '(pks, fks, cols) := k in
  let cols := S cols in
  let pks := if isPrimaryKey c then S pks else pks in
  let fks := if isForeignKey c then S fks else fks in
  (pks, fks, cols).

Definition count_table {V} (k : Counters) (t : TableDefinition V) : Counters :=
  fold_left count_column (t_columns t) k.

Definition count_schema {V} (schema : DbSchema V) : Counters :=
  fold_left count_table (tables schema) (0, 0, 0).

(** [calculateStatsFromSchema(schema)]: the index count is the number of
    primary keys. *)
Definition calculateStatsFromSchema {V} (schema : DbSchema V) : DbStats :=
  let '(pks, fks, cols) := count_schema schema in
  mkStats (List.length (tables schema)) cols pks fks (JNum (Z.of_nat pks)).

(** The literal of zeroes returned by [SqliteEngine.getStats] on its
    failure paths. *)
Definition zero_stats : DbStats := mkStats 0 0 0 0 (JNum 0).

(** All the columns of a schema, table after table. *)
Definition all_columns {V} (schema : DbSchema V) : list (ColumnDefinition V) :=
  flat_map (@t_columns V) (tables schema).

End Stats.

(* ================================================================== *)
(** * The schema advisor ([DbaAdvisorService.auditSchema]) *)
(* ================================================================== *)

Module DbaAdvisor.

Inductive Severity : Type := Critical | Warning | Pass.

(** [AdvisorResult]; the category of every schema finding is
    ['Schema']. *)
Record AdvisorResult : Type := mkFinding {
  finding_id : string;
  category : string;
  severity : Severity;
  title : string;
  message : string;
  recommendation : option string
}.

(** [table.columns.some(c => c.isPrimaryKey)] *)
Definition hasPk (t : TableDefinition string) : bool :=
  existsb (fun c => isPrimaryKey c) (t_columns t).

(** [c.type && (c.type.includes('max') || c.type.includes('text')
    || c.type.includes('blob'))] *)
Definition is_wide (c : ColumnDefinition string) : bool :=
  negb (String.eqb (c_type c) "")
  && (includes "max" (c_type c) || includes "text" (c_type c)
      || includes "blob" (c_type c)).

Definition wideCols (t : TableDefinition string) : list (ColumnDefinition string) :=
  filter is_wide (t_columns t).

Definition heap_finding (t : TableDefinition string) : AdvisorResult :=
  mkFinding ("schema-nopk-" ++ t_name t) "Schema" Critical
    ("Heap Table Detected: " ++ t_name t)
    ("Table " ++ quoted (t_name t)
     ++ " has no Primary Key. Updates/Deletes will be slow and replication may fail.")
    (Some ("ALTER TABLE " ++ quoted (t_name t) ++ " ADD PRIMARY KEY ...")).

Definition wide_finding (t : TableDefinition string) : AdvisorResult :=
  mkFinding ("schema-wide-" ++ t_name t) "Schema" Warning
    ("Wide Table: " ++ t_name t)
    ("Contains " ++ index_string (List.length (wideCols t))
     ++ " LOB/Text columns. This may impact memory grants and buffer cache.")
    (Some "Consider vertical partitioning or moving BLOBS to object storage.").

Definition ok_finding : AdvisorResult :=
  mkFinding "schema-ok" "Schema" Pass "Schema Hygiene"
    "No obvious anti-patterns detected in mapped tables." None.

(** The callback of [schema.tables.forEach]: what one table pushes. *)
Definition audit_table (t : TableDefinition string) : list AdvisorResult :=
  ((if hasPk t then [] else [heap_finding t])
   ++ (if (2 <? List.length (wideCols t))%nat then [wide_finding t] else []))%list.

(** [auditSchema(schema)] *)
Definition auditSchema (schema : DbSchema string) : list AdvisorResult :=
  let results := flat_map audit_table (tables schema) in
  match results, tables schema with
  | [], _ :: _ => [ok_finding]
  | _, _ => results
  end.

Definition is_critical (r : AdvisorResult) : bool :=
  match severity r with Critical => true | _ => false end.

Definition is_pass (r : AdvisorResult) : bool :=
  match severity r with Pass => true | _ => false end.

End DbaAdvisor.

(* ================================================================== *)
(** * The document-store engine: [executeQuery] *)
(* ================================================================== *)

Module MongoQuery.

Import MongoEngine.

(** The character class [\w]. *)
Definition is_w (c : ascii) : bool :=
  is_upper c || is_lower c || is_digit c || Ascii.eqb c "_"%char.

(** The longest prefix of [\w] characters, and what follows it. *)
Fixpoint take_word (s : string) : string * string :=
  match s with
  | EmptyString => (EmptyString, EmptyString)
  | String c s' =>
      if is_w c then let '(w, rest) := take_word s' in (String c w, rest)
      else (EmptyString, s)
  end.

(** [s] without the prefix [p]. *)
Fixpoint after_prefix (p s : string) : option string :=
  match p with
  | EmptyString => Some s
  | String a p' =>
      match s with
      | EmptyString => None
      | String b s' => if Ascii.eqb a b then after_prefix p' s' else None
      end
  end.

(** The pattern [/db\.(\w+)\./] tried at the start of [s]: the greedy run
    of word characters must be non-empty and followed by a dot (a shorter
    run would be followed by a word character). *)
Definition match_here (s : string) : option string :=
  match after_prefix "db." s with
  | None => None
  | Some rest =>
      match take_word rest with
      | (EmptyString, _) => None
      | (w, String "."%char _) => Some w
      | _ => None
      end
  end.

(** [query.match(/db\.(\w+)\./)]: group 1 of the leftmost match. *)
Fixpoint match_collection (query : string) : option string :=
  match match_here query with
  | Some w => Some w
  | None =>
      match query with
      | EmptyString => None
      | String _ rest => match_collection rest
      end
  end.

(** The collection a query addresses. *)
Definition collection_of (query : string) : string :=
  if includes "db." query then
    match match_collection query with
    | Some w => w
    | None => "users"
    end
  else "users".

(** [path.split('.')] *)
Fixpoint split_dots (path : string) : list string :=
  match path with
  | EmptyString => [EmptyString]
  | String c rest =>
      if Ascii.eqb c "."%char then EmptyString :: split_dots rest
      else match split_dots rest with
           | seg :: segs => String c seg :: segs
           | [] => [String c EmptyString]
           end
  end.

(** [path.split('.').reduce((prev, curr) => prev && prev[curr], obj)] *)
Definition getNestedValue (obj : JsVal) (path : string) : JsVal :=
  fold_left (fun prev curr => if truthy prev then read prev curr else prev)
            (split_dots path) obj.

(** The result literal of the [try] block; timing members are left out. *)
Record QueryResult : Type := mkResult {
  columns : list string;
  rows : list (list JsVal);
  rowCount : nat;
  rawJson : list JsVal
}.

(** [executeQuery(dbId, query)].  Nothing in the [try] block can throw on
    the canned documents, so the [catch] literal is never returned. *)
Definition executeQuery (dbId : string) (query : string) : QueryResult :=
  let mockDocs := getMockDocuments (collection_of query) in
  let cols := extractColumns mockDocs in
  let rws := map (fun doc => map (fun col => getNestedValue doc col) cols) mockDocs in
  mkResult cols rws (List.length rws) mockDocs.

(** No dot occurs in [s]. *)
Fixpoint dot_free (s : string) : bool :=
  match s with
  | EmptyString => true
  | String c s' => negb (Ascii.eqb c "."%char) && dot_free s'
  end.

(** Every character of [s] is a word character. *)
Fixpoint all_w (s : string) : bool :=
  match s with
  | EmptyString => true
  | String c s' => is_w c && all_w s'
  end.

End MongoQuery.

(* ================================================================== *)
(** * Bridge helpers ([muulCredentials.ts], [muulBrowserDetect.ts]) *)
(* ================================================================== *)

Module BridgeHelpers.

Import MuulService.

Section Helpers.

(** The bridge as these helpers see it: the request is identified by its
    [type]; the other members of the envelope ([requestId], [href], [ts])
    come from the clock and the location and belong to the world. *)
Variable World : Type.
Variable externalMessage_send : option (string -> World -> SendOutcome * World).

(** The [try] block of [fetchSavedCredentials] once the reply is there. *)
Definition entries_of (response : JsVal) : Res (list JsVal) :=
  bind (if truthy response then get response "ok" else Ok response) (fun ok =>
  if truthy ok then
    bind (get response "entries") (fun root =>
    bind (if truthy root then Ok root
          else bind (get response "data") (fun d => get_opt d "entries"))
         (fun entries =>
    match entries with
    | JArr items => Ok items
    | _ => Ok []
    end))
  else Ok []).

(** [fetchSavedCredentials()]: the [catch] block does not read the
    reason. *)
Definition fetchSavedCredentials : World -> list JsVal * World :=
  fun w =>
    match externalMessage_send with
    | None => ([], w)
    | Some send =>
        let '(outcome, w') := send "GET_SAVED_CREDENTIALS" w in
        match outcome with
        | Resolved response =>
            match entries_of response with
            | Ok items => (items, w')
            | Throw _ => ([], w')
            end
        | Rejected _ => ([], w')
        end
    end.

(** [response?.ok === true && response?.isMuulorigin === true] *)
Definition is_muul_reply (response : JsVal) : Res bool :=
  bind (get_opt response "ok") (fun ok =>
  if strict_eq ok (JBool true) then
    bind (get_opt response "isMuulorigin") (fun flag =>
    Ok (strict_eq flag (JBool true)))
  else Ok false).

(** [detectMuulBrowser()] *)
Definition detectMuulBrowser : World -> bool * World :=
  fun w =>
    match externalMessage_send with
    | None => (false, w)
    | Some send =>
        let '(outcome, w') := send "MUULORIGIN" w in
        match outcome with
        | Resolved response =>
            match is_muul_reply response with
            | Ok b => (b, w')
            | Throw _ => (false, w')
            end
        | Rejected _ => (false, w')
        end
    end.

End Helpers.

End BridgeHelpers.

(* ================================================================== *)
(** * The embedded engine: [getStats] *)
(* ================================================================== *)

Module SqliteStats.

Import SqliteEngine Stats.

Section WithLibrary.

Variable Db : Type.
Variable db_exec : Db -> string -> Res (list ExecResult) * Db.
Variable coerced : JsVal -> bool.

(** [Number(v)] for a value that is not a number. *)
Variable number_of : JsVal -> JsVal.

Definition to_number (v : JsVal) : JsVal :=
  match v with
  | JNum n => JNum n
  | _ => number_of v
  end.

Definition index_query : string :=
  "SELECT count(" ++ "*) FROM sqlite_master WHERE type='index'".

(** [indexRes.length > 0 ? Number(indexRes[0].values[0][0]) : 0] *)
Definition index_count (indexRes : list ExecResult) : Res JsVal :=
  match indexRes with
  | [] => Ok (JNum 0)
  | r :: _ =>
      match values r with
      | [] => Throw (TypeError "Cannot read properties of undefined (reading '0')")
      | row :: _ => Ok (to_number (cell row 0))
      end
  end.

(** [getStats(dbId)] on the instance found under [dbId]. *)
Definition getStats (instance : option Db) : DbStats * option Db :=
  match instance with
  | None => (zero_stats, None)
  | Some db =>
      match getSchema db_exec coerced (Some db) with
      | (schema, Some db1) =>
          match db_exec db1 index_query with
          | (Ok indexRes, db2) =>
              match index_count indexRes with
              | Ok indexCount =>
                  let '(pks, fks, cols) := count_schema schema in
                  (mkStats (List.length (tables schema)) cols pks fks indexCount,
                   Some db2)
              | Throw _ => (zero_stats, Some db2)
              end
          | (Throw _, db2) => (zero_stats, Some db2)
          end
      | (_, None) => (zero_stats, None)
      end
  end.

End WithLibrary.

End SqliteStats.

(* ================================================================== *)
(** * The router state: uploads and dispatch ([MuulService]) *)
(* ================================================================== *)

Module Router.

Import SqliteEngine.

(** [Map.prototype.set]: overwrite in place, or append. *)
Fixpoint map_set {A} (m : list (string * A)) (key : string) (v : A) : list (string * A) :=
  match m with
  | [] => [(key, v)]
  | (k, old) :: rest =>
      if String.eqb k key then (k, v) :: rest else (k, old) :: map_set rest key v
  end.

Definition map_get {A} (m : list (string * A)) (key : string) : option A :=
  option_map snd (find (fun e => String.eqb (fst e) key) m).

Definition map_has {A} (m : list (string * A)) (key : string) : bool :=
  match map_get m key with Some _ => true | None => false end.

(** [Database] *)
Record Database : Type := mkDatabase {
  db_id : string;
  db_name : string;
  db_type : string
}.

Definition systemDbs : list Database :=
  [ mkDatabase "db-1" "Production DB (Mock SQL)" "postgres";
    mkDatabase "db-mssql" "Enterprise SQL Server (Mock)" "mssql";
    mkDatabase "db-2" "Analytics Parquet (Mock)" "parquet";
    mkDatabase "db-mongo" "User Store (Mock MongoDB)" "mongodb" ].

Section WithLibrary.

Variable Db : Type.
Variable Statement : Type.
Variable db_new : Db.
Variable db_open : string -> Db.
Variable db_run : Db -> string -> Res Db.
Variable db_prepare : Db -> string -> Res Statement.
Variable stmt_run : Db -> Statement -> list JsVal -> Res Db.
Variable db_exec : Db -> string -> Res (list ExecResult) * Db.
Variable papa_parse : string -> ParseResult.
Variable coerced : JsVal -> bool.

(** The mutable members of the service: [realDatabases] (name and type
    by id, in insertion order), [virtualIdCounter], and the [instances] of
    the embedded engine. *)
Record Service : Type := mkService {
  realDatabases : list (string * (string * string));
  virtualIdCounter : nat;
  instances : list (string * Db)
}.

Definition initial : Service := mkService [] 1 [].

(** [getDatabases()] *)
Definition getDatabases (s : Service) : list Database :=
  (map (fun e => mkDatabase (fst e) (fst (snd e)) (snd (snd e))) (realDatabases s)
   ++ systemDbs)%list.

(** The id the next upload will take: [`user-db-${this.virtualIdCounter}`]. *)
Definition next_id (s : Service) : string :=
  "user-db-" ++ index_string (virtualIdCounter s).

(** [uploadDatabase(file)] *)
Definition uploadDatabase (file : File) (s : Service) : Res (Database * Service) :=
  bind (createDatabaseFromFile db_new db_open db_run db_prepare stmt_run db_exec
          papa_parse file)
       (fun created =>
  let '(db, type) := created in
  let dbId := next_id s in
  Ok (mkDatabase dbId (file_name file) type,
      mkService (map_set (realDatabases s) dbId (file_name file, type))
                (S (virtualIdCounter s))
                (map_set (instances s) dbId db))).

(** A schema of the simulation engines, with its names as values. *)
Definition as_values (schema : DbSchema string) : DbSchema JsVal :=
  mkSchema
    (map (fun t =>
            mkTable (JStr (t_name t))
              (map (fun c =>
                      mkColumn (JStr (c_name c)) (JStr (c_type c))
                               (isPrimaryKey c) (isForeignKey c)
                               (option_map (fun r => mkReference (JStr (table r))
                                                                 (JStr (column r)))
                                           (references c)))
                   (t_columns t)))
         (tables schema)).

(** [getDatabaseSchema(dbId)]; the database object is updated in place by
    the statements run on it. *)
Definition getDatabaseSchema (dbId : string) (s : Service) : DbSchema JsVal * Service :=
  if String.eqb dbId "db-mongo" then (as_values (MongoEngine.getSchema dbId), s)
  else if map_has (realDatabases s) dbId then
    match getSchema db_exec coerced (map_get (instances s) dbId) with
    | (schema, Some db1) =>
        (schema, mkService (realDatabases s) (virtualIdCounter s)
                           (map_set (instances s) dbId db1))
    | (schema, None) => (schema, s)
    end
  else (as_values (MockEngine.getSchema dbId), s).

End WithLibrary.

End Router.

(* ================================================================== *)
(** * Join inference: what the loops compute *)
(* ================================================================== *)

Module JoinOutcome.

Import JoinInference.

(** What a token of the statement looks like. *)
Definition word_token (t : string) : Prop :=
  t <> "" /\ forall c, In c (list_ascii_of_string t) -> is_word_char c = true.



End JoinOutcome.

(* ================================================================== *)
(** * Remote results: shapes *)
(* ================================================================== *)

Module RemoteShape.

Import MuulService.

(** A result is either free of error or the failure literal. *)
Definition well_formed_result (r : QueryResult) : Prop :=
  error r = JUndefined \/ (r = failure (error r) /\ truthy (error r) = true).

(** A bridge that rejects every request with an [Error] carrying
    [message], and one that answers every request with [response]. *)
Definition rejecting (message : string) (request : RemoteRequest) (w : unit)
  : SendOutcome * unit :=
  (Rejected (JObj [("message", JStr message)]), w).

Definition answering (response : JsVal) (request : RemoteRequest) (w : unit)
  : SendOutcome * unit :=
  (Resolved response, w).

End RemoteShape.

(* ================================================================== *)
(** * A sample database object *)
(* ================================================================== *)

Module SampleEngine.

Import SqliteEngine.

Definition info_columns : list string :=
  ["cid"; "name"; "type"; "notnull"; "dflt_value"; "pk"].

(** A database object holding two tables, [a] and [b], with a foreign key
    from [b.a_id] to [a.id] and two indexes.  When [broken], reading the
    columns of [b] fails. *)
Definition exec (broken : bool) (db : unit) (sql_text : string)
  : Res (list ExecResult) * unit :=
  if String.eqb sql_text tables_query then
    (Ok [mkExec ["name"] [[JStr "a"]; [JStr "b"]]], db)
  else if String.eqb sql_text ("PRAGMA table_info(" ++ quoted "a" ++ ")") then
    (Ok [mkExec info_columns
           [[JNum 0; JStr "id"; JStr "INTEGER"; JNum 0; JNull; JNum 1]]], db)
  else if String.eqb sql_text ("PRAGMA table_info(" ++ quoted "b" ++ ")") then
    if broken then
      (Throw (JObj [("message", JStr "database disk image is malformed")]), db)
    else
      (Ok [mkExec info_columns
             [[JNum 0; JStr "a_id"; JStr "INTEGER"; JNum 0; JNull; JNum 0]]], db)
  else if String.eqb sql_text ("PRAGMA foreign_key_list(" ++ quoted "b" ++ ")") then
    (Ok [mkExec ["id"; "seq"; "table"; "from"; "to"]
           [[JNum 0; JNum 0; JStr "a"; JStr "a_id"; JStr "id"]]], db)
  else if String.eqb sql_text SqliteStats.index_query then
    (Ok [mkExec ["count"] [[JNum 2]]], db)
  else if String.eqb sql_text "SELECT 1; SELECT 2" then
    (Ok [mkExec ["1"] [[JNum 1]]; mkExec ["2"] [[JNum 2]]], db)
  else (Ok [], db).

Definition no_coercion (v : JsVal) : bool := false.

End SampleEngine.

(* ================================================================== *)
(** * The router state: what uploads maintain *)
(* ================================================================== *)

Module RouterState.

Import SqliteEngine Router.

(** Every id registered so far was handed out by an earlier upload: it is
    [user-db-k] for some [k] below the counter. *)
Definition ids_below {Db} (s : Service Db) : Prop :=
  forall dbId,
    map_has (realDatabases s) dbId = true ->
    exists k, k < virtualIdCounter s /\ dbId = "user-db-" ++ index_string k.

(** The entries [getDatabases] lists before the simulated ones. *)
Definition userDbs {Db} (s : Service Db) : list Database :=
  map (fun e => mkDatabase (fst e) (fst (snd e)) (snd (snd e))) (realDatabases s).

(** Uploads on top of the reference model of the embedded library. *)
Definition upload (file : File) (s : Service SqlJsModel.Db)
  : Res (Database * Service SqlJsModel.Db) :=
  uploadDatabase SqlJsModel.db_new (fun _ => SqlJsModel.db_new) SqlJsModel.db_run
    SqlJsModel.db_prepare SqlJsModel.stmt_run SqlJsModel.db_exec
    SqlJsModel.scenario_parse file s.

End RouterState.

(* ================================================================== *)
(** * The delimited-text export ([exportService.ts]) *)
(* ================================================================== *)

Module ExportService.

(** [str.replace] with the global pattern of one double quote and two
    double quotes as the replacement. *)
Fixpoint double_quotes (str : string) : string :=
  match str with
  | EmptyString => EmptyString
  | String c rest =>
      if Ascii.eqb c "034"%char then String c (String c (double_quotes rest))
      else String c (double_quotes rest)
  end.

(** The test for a comma, a double quote or a line feed in [str]. *)
Definition needs_quotes (str : string) : bool :=
  includes "," str || includes dq str || includes nl str.

(** The callback of [row.map(cell => ...)]. *)
Definition encode_cell (cell : JsVal) : string :=
  match cell with
  | JNull => ""
  | _ =>
      let str := to_string cell in
      if needs_quotes str then dq ++ double_quotes str ++ dq else str
  end.

(** [csvContent], the text handed to the download; [None] when
    [downloadCSV] returns before building it. *)
Definition csvContent (columns : list string) (rows : list (list JsVal))
  : option string :=
  match rows with
  | [] => None
  | _ :: _ =>
      let headers := join "," columns in
      let lines := map (fun row => join "," (map encode_cell row)) rows in
      Some (join nl (headers :: lines))
  end.

End ExportService.

(* ================================================================== *)
(** * Remote discovery: the tables it resolves *)
(* ================================================================== *)

Module DiscoverySpec.

Import MuulService.

Section Run.

Variable World : Type.
Variable externalMessage_send : option (RemoteRequest -> World -> SendOutcome * World).
Variable credential : CredentialEntry.
Variable dialect : Dialects.DialectDefinition.

(** The tables a discovery resolves, read off the answers only.
    [resolved w names kept w'] holds when the tables [names] are asked
    about in turn, starting in the world [w] and ending in [w']: a table
    whose column query comes back with an error is left out; every other
    table is in [kept], under its name, together with the flag of whether
    its foreign-key query came back with an error. *)
Inductive resolved : World -> list JsVal -> list (JsVal * bool) -> World -> Prop :=
| resolved_none (w : World) : resolved w [] [] w
| resolved_omitted (w : World) (tableName : JsVal) (rest : list JsVal)
    (r : QueryResult) (w1 : World) (kept : list (JsVal * bool)) (w' : World) :
    executeRemoteQuery externalMessage_send credential
      (Dialects.getColumns dialect (to_string tableName)) w = (Ok r, w1) ->
    truthy (error r) = true ->
    resolved w1 rest kept w' ->
    resolved w (tableName :: rest) kept w'
| resolved_kept (w : World) (tableName : JsVal) (rest : list JsVal)
    (rc : QueryResult) (w1 : World) (rf : QueryResult) (w2 : World)
    (kept : list (JsVal * bool)) (w' : World) :
    executeRemoteQuery externalMessage_send credential
      (Dialects.getColumns dialect (to_string tableName)) w = (Ok rc, w1) ->
    truthy (error rc) = false ->
    executeRemoteQuery externalMessage_send credential
      (Dialects.getForeignKeys dialect (to_string tableName)) w1 = (Ok rf, w2) ->
    resolved w2 rest kept w' ->
    resolved w (tableName :: rest) ((tableName, truthy (error rf)) :: kept) w'.

End Run.

(** No column of the table is a foreign key or carries a reference. *)
Definition no_edges (t : TableDefinition JsVal) : Prop :=
  Forall (fun c => isForeignKey c = false /\ references c = None) (t_columns t).

(** The tables of a schema are the kept ones, under their names and in
    their order, and a table whose foreign-key query failed has no edge. *)
Definition tables_as_resolved (schema : DbSchema JsVal) (kept : list (JsVal * bool))
  : Prop :=
  Forall2 (fun t k => t_name t = fst k /\ (snd k = true -> no_edges t))
          (tables schema) kept.

End DiscoverySpec.

(* ================================================================== *)
(** * Join inference: declared keys, in the words of the schema *)
(* ================================================================== *)

Module JoinSpec.

Import JoinInference.

(** The table a schema gives for a name: the first one so named. *)
Definition table_named (activeSchema : DbSchema string) (n : string)
           (def : TableDefinition string) : Prop :=
  exists pre post,
    tables activeSchema = (pre ++ def :: post)%list
    /\ t_name def = n
    /\ Forall (fun t => t_name t <> n) pre.

(** The column [c], one of [cols], is declared as a foreign key to the
    table [target], with the reference [r]. *)
Definition declares (cols : list (ColumnDefinition string)) (target : string)
           (c : ColumnDefinition string) (r : Reference string) : Prop :=
  In c cols /\ isForeignKey c = true /\ references c = Some r /\ table r = target.

(** The text of an equality between two quoted columns. *)
Definition equality (t1 c1 t2 c2 : string) : string :=
  dq ++ t1 ++ dq ++ "." ++ dq ++ c1 ++ dq ++ " = "
  ++ dq ++ t2 ++ dq ++ "." ++ dq ++ c2 ++ dq.

(** The new table declares a foreign key to the existing one. *)
Definition direct_fk (tableDef : TableDefinition string) (existing : string) : Prop :=
  exists c r, declares (t_columns tableDef) existing c r.

(** The existing table declares a foreign key to the new one. *)
Definition reverse_fk (activeSchema : DbSchema string) (newTable_name : string)
           (existing : string) : Prop :=
  exists existingDef c r,
    table_named activeSchema existing existingDef
    /\ declares (t_columns existingDef) newTable_name c r.

Definition declared_fk (activeSchema : DbSchema string) (newTable_name : string)
           (tableDef : TableDefinition string) (existing : string) : Prop :=
  direct_fk tableDef existing \/ reverse_fk activeSchema newTable_name existing.

(** The two tables share a column name, up to letter case, that contains
    [id] or [key]. *)
Definition shared_key_name (activeSchema : DbSchema string)
           (tableDef : TableDefinition string) (existing : string) : Prop :=
  exists existingDef a b,
    table_named activeSchema existing existingDef
    /\ In a (t_columns tableDef) /\ In b (t_columns existingDef)
    /\ toLowerCase (c_name a) = toLowerCase (c_name b)
    /\ (includes "id" (toLowerCase (c_name a)) = true
        \/ includes "key" (toLowerCase (c_name a)) = true).

(** [j] joins the new table to an existing one on a column that the new
    table declares as a foreign key to it; it is not flagged. *)
Definition direct_join (newTable_name : string) (tableDef : TableDefinition string)
           (j : PendingJoin) : Prop :=
  newTable j = tableDef /\ isHeuristic j = false
  /\ exists c r,
       declares (t_columns tableDef) (existingTable j) c r
       /\ joinCondition j
          = equality newTable_name (c_name c) (existingTable j) (column r).

(** [j] joins on a column that the existing table declares as a foreign
    key to the new one; it is not flagged. *)
Definition reverse_join (activeSchema : DbSchema string) (newTable_name : string)
           (tableDef : TableDefinition string) (j : PendingJoin) : Prop :=
  newTable j = tableDef /\ isHeuristic j = false
  /\ exists existingDef c r,
       table_named activeSchema (existingTable j) existingDef
       /\ declares (t_columns existingDef) newTable_name c r
       /\ joinCondition j
          = equality (existingTable j) (c_name c) newTable_name (column r).

End JoinSpec.

(* ================================================================== *)
(** * Properties *)
(* ================================================================== *)

Unset Implicit Arguments.

(* ------------------------------------------------------------------ *)
(** ** Join inference *)
(* ------------------------------------------------------------------ *)

Section JoinInferenceFacts.

Import JoinInference.

Variable activeSchema : DbSchema string.
Variable newTable_name : string.
Variable tableDef : TableDefinition string.

#[local] Abbreviation step := (scan_step activeSchema newTable_name tableDef).
#[local] Abbreviation tier_of := (tier activeSchema newTable_name tableDef).
#[local] Abbreviation candidate_of := (candidate activeSchema newTable_name tableDef).
#[local] Abbreviation scan_of := (scan activeSchema newTable_name tableDef).
#[local] Abbreviation best_of := (best_tier activeSchema newTable_name tableDef).

Lemma tier_valid e : valid_score (tier_of e).
Proof.
  unfold valid_score, tier.
  destruct (find_fk e (t_columns tableDef)); [lia|].
  destruct (find_rev_fk newTable_name (find_table activeSchema e)); [lia|].
  destruct (intersect tableDef (find_table activeSchema e)); lia.
Qed.

Lemma state_ok_valid st : state_ok st -> valid_score (snd st).
Proof.
  unfold state_ok, valid_score. destruct st as [[j|] s]; simpl; intuition lia.
Qed.

(** A table that qualifies for nothing leaves the state alone. *)
Lemma step_none st e : tier_of e = (-1)%Z -> valid_score (snd st) -> step st e = st.
Proof.
  unfold tier, scan_step. intros Ht Hv.
  destruct (find_fk e (t_columns tableDef)); [discriminate|].
  destruct (find_rev_fk newTable_name (find_table activeSchema e)); [discriminate|].
  destruct (intersect tableDef (find_table activeSchema e)); [|discriminate].
  destruct st as [bj bs]; simpl.
  destruct (bs <? 10)%Z; simpl; destruct (bs <? 8)%Z; reflexivity.
Qed.

(** A table of a lower tier than the score held leaves the state alone. *)
Lemma step_lower st e :
  valid_score (snd st) -> (tier_of e < snd st)%Z -> step st e = st.
Proof.
  unfold tier, scan_step, valid_score. intros Hv Hlt.
  destruct st as [bj bs]; simpl in *.
  destruct (find_fk e (t_columns tableDef)); [lia|]. simpl.
  destruct (find_rev_fk newTable_name (find_table activeSchema e)).
  - assert (bs = 10%Z) by lia. subst. reflexivity.
  - destruct (intersect tableDef (find_table activeSchema e)).
    + destruct (bs <? 10)%Z; simpl; destruct (bs <? 8)%Z; reflexivity.
    + assert (bs = 8 \/ bs = 10)%Z as [-> | ->] by lia; reflexivity.
Qed.

(** A table of a tier at least the score held replaces the state by its
    own candidate. *)
Lemma step_take st e :
  (2 <= tier_of e)%Z -> (snd st <= tier_of e)%Z ->
  step st e = (candidate_of e, tier_of e).
Proof.
  unfold candidate, tier, scan_step, scan_init. intros H2 Hle.
  destruct st as [bj bs]; simpl in *.
  destruct (find_fk e (t_columns tableDef)); [reflexivity|]. simpl.
  destruct (find_rev_fk newTable_name (find_table activeSchema e)).
  - replace (bs <? 10)%Z with true by (symmetry; apply Z.ltb_lt; lia). reflexivity.
  - destruct (intersect tableDef (find_table activeSchema e)); [lia|].
    replace (bs <? 10)%Z with true by (symmetry; apply Z.ltb_lt; lia). simpl.
    replace (bs <? 8)%Z with true by (symmetry; apply Z.ltb_lt; lia).
    reflexivity.
Qed.

Lemma candidate_ok e : (2 <= tier_of e)%Z -> state_ok (candidate_of e, tier_of e).
Proof.
  unfold candidate, tier, scan_step, scan_init, state_ok. simpl.
  destruct (find_fk e (t_columns tableDef)); simpl; [intros; right; lia|].
  destruct (find_rev_fk newTable_name (find_table activeSchema e)); simpl;
    [intros; right; lia|].
  destruct (intersect tableDef (find_table activeSchema e)); simpl; [lia|].
  intros; left; split; reflexivity.
Qed.

(** Every iteration either keeps the state or takes the candidate. *)
Lemma step_cases st e :
  valid_score (snd st) ->
  (step st e = st /\ (tier_of e < snd st \/ tier_of e = -1)%Z)
  \/ (step st e = (candidate_of e, tier_of e)
      /\ (2 <= tier_of e)%Z /\ (snd st <= tier_of e)%Z).
Proof.
  intros Hv.
  destruct (Z_lt_ge_dec (tier_of e) (snd st)) as [Hlt|Hge].
  - left. split; [apply step_lower; assumption | lia].
  - destruct (tier_valid e) as [Hm|Ht].
    + left. split; [apply step_none; assumption | lia].
    + right. split; [apply step_take; lia | lia].
Qed.

Lemma step_ok st e : state_ok st -> state_ok (step st e).
Proof.
  intros Hok. destruct (step_cases st e (state_ok_valid st Hok)) as [[-> _]|[-> [H2 _]]].
  - assumption.
  - apply candidate_ok; assumption.
Qed.

Lemma step_score st e :
  valid_score (snd st) -> snd (step st e) = Z.max (snd st) (tier_of e).
Proof.
  intros Hv. destruct (step_cases st e Hv) as [[-> H]|[-> [H2 Hle]]]; simpl.
  - destruct Hv as [?|[?|[?|?]]]; lia.
  - lia.
Qed.

Lemma fold_ok l : forall st, state_ok st -> state_ok (fold_left step l st).
Proof.
  induction l as [|e l IH]; simpl; intros st Hok; [assumption|].
  apply IH, step_ok, Hok.
Qed.

Lemma fold_score l : forall st,
  state_ok st ->
  snd (fold_left step l st)
  = fold_left (fun m e => Z.max m (tier_of e)) l (snd st).
Proof.
  induction l as [|e l IH]; simpl; intros st Hok; [reflexivity|].
  rewrite IH by (apply step_ok, Hok).
  rewrite step_score by (apply state_ok_valid, Hok). reflexivity.
Qed.

Lemma init_ok : state_ok scan_init.
Proof. reflexivity. Qed.

Lemma scan_ok l : state_ok (scan_of l).
Proof. apply fold_ok, init_ok. Qed.

Lemma scan_score l : snd (scan_of l) = best_of l.
Proof. unfold scan, best_tier. rewrite fold_score by apply init_ok. reflexivity. Qed.

Lemma fold_max_ge l : forall m, (m <= fold_left (fun m e => Z.max m (tier_of e)) l m)%Z.
Proof.
  induction l as [|e l IH]; simpl; intros m; [lia|].
  specialize (IH (Z.max m (tier_of e))). lia.
Qed.

Lemma fold_max_bound l b : forall m,
  (m <= b)%Z -> (forall x, In x l -> (tier_of x <= b)%Z) ->
  (fold_left (fun m e => Z.max m (tier_of e)) l m <= b)%Z.
Proof.
  induction l as [|e l IH]; simpl; intros m Hm Hall; [assumption|].
  apply IH; [|intros x Hx; apply Hall; right; exact Hx].
  specialize (Hall e (or_introl eq_refl)). lia.
Qed.

Lemma fold_max_mem l : forall m x,
  In x l -> (tier_of x <= fold_left (fun m e => Z.max m (tier_of e)) l m)%Z.
Proof.
  induction l as [|e l IH]; simpl; intros m x [].
  - subst. pose proof (fold_max_ge l (Z.max m (tier_of x))). lia.
  - apply IH; assumption.
Qed.

(** Later tables of a strictly lower tier never displace the state. *)
Lemma fold_lower post : forall st,
  state_ok st -> (forall x, In x post -> (tier_of x < snd st)%Z) ->
  fold_left step post st = st.
Proof.
  induction post as [|e post IH]; simpl; intros st Hok Hall; [reflexivity|].
  rewrite step_lower; [apply IH; auto | apply state_ok_valid, Hok | apply Hall; left; reflexivity].
Qed.

(** The scan returns the candidate of the last table of the best tier. *)
Lemma scan_last pre e post :
  (2 <= tier_of e)%Z ->
  (forall x, In x pre -> (tier_of x <= tier_of e)%Z) ->
  (forall x, In x post -> (tier_of x < tier_of e)%Z) ->
  scan_of (pre ++ e :: post) = (candidate_of e, tier_of e).
Proof.
  intros H2 Hpre Hpost. unfold scan. rewrite fold_left_app. simpl.
  fold (scan_of pre).
  rewrite step_take; [| assumption |].
  - apply fold_lower; [apply candidate_ok; assumption | exact Hpost].
  - rewrite scan_score. unfold best_tier. apply fold_max_bound; [lia | exact Hpre].
Qed.

Lemma candidate_existing e j : candidate_of e = Some j -> existingTable j = e.
Proof.
  unfold candidate, scan_step, scan_init. simpl.
  destruct (find_fk e (t_columns tableDef)); simpl.
  - intros [= <-]; reflexivity.
  - destruct (find_rev_fk newTable_name (find_table activeSchema e)); simpl.
    + intros [= <-]; reflexivity.
    + destruct (intersect tableDef (find_table activeSchema e)); simpl.
      * discriminate.
      * intros [= <-]; reflexivity.
Qed.

Lemma candidate_some e : (2 <= tier_of e)%Z -> exists j, candidate_of e = Some j.
Proof.
  intros H2. pose proof (candidate_ok e H2) as Hok. unfold state_ok in Hok. simpl in Hok.
  destruct (candidate_of e) as [j|]; [eauto | lia].
Qed.

End JoinInferenceFacts.

Section JoinInferenceExamples.

Import JoinInference.

Example shop_existing :
  existingTablesInSql shop_sql = ["SELECT"; "FROM"; "customers"; "products"].
Proof. reflexivity. Qed.

Example tokens_of_a_statement :
  existingTablesInSql
    ("SELECT " ++ quoted "a$b" ++ ".x FROM t1 JOIN t1 ON (t1.x=1)")
  = ["SELECT"; "a$b"; "x"; "FROM"; "t1"; "JOIN"; "ON"; "1"].
Proof. reflexivity. Qed.

Example shop_tiers :
  map (tier shop "orders" orders) (existingTablesInSql shop_sql)
  = [-1; -1; 10; 10]%Z.
Proof. reflexivity. Qed.

Example shop_scan :
  scan shop "orders" orders (existingTablesInSql shop_sql)
  = (Some (mkJoin orders "products"
             (quoted "orders" ++ "." ++ quoted "product_id" ++ " = "
              ++ quoted "products" ++ "." ++ quoted "id") false), 10%Z).
Proof. reflexivity. Qed.

Example shop_reverse :
  scan shop "customers" customers ["orders"]
  = (Some (mkJoin customers "orders"
             (quoted "orders" ++ "." ++ quoted "customer_id" ++ " = "
              ++ quoted "customers" ++ "." ++ quoted "id") false), 8%Z).
Proof. reflexivity. Qed.

Example shop_heuristic :
  scan shop "products" products ["customers"]
  = (Some (mkJoin products "customers"
             (quoted "products" ++ "." ++ quoted "id" ++ " = "
              ++ quoted "customers" ++ "." ++ quoted "id") true), 2%Z).
Proof. reflexivity. Qed.

End JoinInferenceExamples.

(** C1, as the specification states it, fails: with two existing tables
    tied at the best tier the loop does not keep the first one.  Dropping
    [orders] onto a statement that names [customers] and then [products]
    (both referenced by a foreign key of [orders], tier 10) proposes the
    join against [products]. *)
Lemma C1_first_on_tie_fails :
  ~ (forall (activeSchema : DbSchema string) (newTable_name : string)
            (tableDef : TableDefinition string)
            (pre mid post : list string) (e1 e2 : string),
        let existing := (pre ++ e1 :: mid ++ e2 :: post)%list in
        let tier_of := JoinInference.tier activeSchema newTable_name tableDef in
        (2 <= tier_of e1)%Z ->
        tier_of e1 = JoinInference.best_tier activeSchema newTable_name tableDef existing ->
        tier_of e2 = tier_of e1 ->
        (forall x, In x pre -> (tier_of x < tier_of e1)%Z) ->
        exists j,
          fst (JoinInference.scan activeSchema newTable_name tableDef existing) = Some j
          /\ JoinInference.existingTable j = e1).
Proof.
  intros H.
  specialize (H JoinInference.shop "orders" JoinInference.orders
                ["SELECT"; "FROM"] [] [] "customers" "products").
  destruct H as [j [Hj He]].
  - vm_compute. discriminate.
  - reflexivity.
  - reflexivity.
  - intros x [<-|[<-|[]]]; vm_compute; reflexivity.
  - vm_compute in Hj. injection Hj as <-. discriminate He.
Qed.

(** C1, amended: among the existing tables tied at the best tier the loop
    keeps the join against the last one in scan order.  If [e] reaches a
    tier of at least 2, no earlier table reaches a higher tier and no later
    table reaches the same or a higher tier, the proposed join is the
    candidate of [e]. *)
Theorem C1_last_on_tie :
  forall (activeSchema : DbSchema string) (newTable_name : string)
         (tableDef : TableDefinition string)
         (pre post : list string) (e : string),
    let tier_of := JoinInference.tier activeSchema newTable_name tableDef in
    (2 <= tier_of e)%Z ->
    (forall x, In x pre -> (tier_of x <= tier_of e)%Z) ->
    (forall x, In x post -> (tier_of x < tier_of e)%Z) ->
    exists j,
      JoinInference.scan activeSchema newTable_name tableDef (pre ++ e :: post)
      = (Some j, tier_of e)
      /\ JoinInference.candidate activeSchema newTable_name tableDef e = Some j
      /\ JoinInference.existingTable j = e.
Proof.
  intros S n d pre post e tier_of H2 Hpre Hpost.
  destruct (candidate_some S n d e H2) as [j Hj].
  exists j. split; [|split].
  - rewrite (scan_last S n d pre e post H2 Hpre Hpost). rewrite Hj. reflexivity.
  - exact Hj.
  - exact (candidate_existing S n d e j Hj).
Qed.

Lemma C1_last_on_tie_witness :
  exists j,
    JoinInference.scan JoinInference.shop "orders" JoinInference.orders
      (["SELECT"; "FROM"; "customers"] ++ "products" :: [])
    = (Some j, JoinInference.tier JoinInference.shop "orders" JoinInference.orders "products")
    /\ JoinInference.candidate JoinInference.shop "orders" JoinInference.orders "products"
       = Some j
    /\ JoinInference.existingTable j = "products".
Proof.
  apply (C1_last_on_tie JoinInference.shop "orders" JoinInference.orders
           ["SELECT"; "FROM"; "customers"] [] "products").
  - vm_compute. discriminate.
  - intros x [<-|[<-|[<-|[]]]]; vm_compute; discriminate.
  - intros x [].
Defined.

Section TierFacts.

Import JoinInference JoinSpec.

Variable activeSchema : DbSchema string.
Variable newTable_name : string.
Variable tableDef : TableDefinition string.

#[local] Abbreviation tier_of := (tier activeSchema newTable_name tableDef).
#[local] Abbreviation candidate_of := (candidate activeSchema newTable_name tableDef).
#[local] Abbreviation scan_of := (scan activeSchema newTable_name tableDef).

Lemma find_split {A} (p : A -> bool) (l : list A) (x : A) :
  find p l = Some x ->
  exists pre post,
    l = (pre ++ x :: post)%list /\ p x = true /\ Forall (fun y => p y = false) pre.
Proof.
  induction l as [|a l IH]; cbn [find]; [discriminate|].
  destruct (p a) eqn:Ea.
  - intros [= <-]. exists [], l. split; [reflexivity|]. split; [exact Ea | constructor].
  - intros H. destruct (IH H) as [pre [post [-> [Hx Hpre]]]].
    exists (a :: pre), post. split; [reflexivity|]. split; [exact Hx|].
    constructor; assumption.
Qed.

Lemma find_of_split {A} (p : A -> bool) (pre post : list A) (x : A) :
  p x = true -> Forall (fun y => p y = false) pre ->
  find p (pre ++ x :: post)%list = Some x.
Proof.
  intros Hx Hpre. induction Hpre as [|a pre Ha _ IH]; cbn [app find].
  - rewrite Hx. reflexivity.
  - rewrite Ha. exact IH.
Qed.

Lemma find_table_named n def :
  find_table activeSchema n = Some def <-> table_named activeSchema n def.
Proof.
  unfold find_table, table_named. split.
  - intros H. destruct (find_split _ _ _ H) as [pre [post [Hl [Hx Hpre]]]].
    exists pre, post. split; [exact Hl|]. split; [apply String.eqb_eq, Hx|].
    eapply Forall_impl; [|exact Hpre]. intros t Ht. apply String.eqb_neq, Ht.
  - intros [pre [post [-> [Hn Hpre]]]]. apply find_of_split.
    + apply String.eqb_eq, Hn.
    + eapply Forall_impl; [|exact Hpre]. intros t Ht. apply String.eqb_neq, Ht.
Qed.

Lemma find_fk_sound target cols c r :
  find_fk target cols = Some (c, r) -> declares cols target c r.
Proof.
  unfold declares. induction cols as [|a cols IH]; cbn [find_fk]; [discriminate|].
  destruct (references a) as [r0|] eqn:Er.
  - destruct (isForeignKey a) eqn:Ef; cbn [andb].
    + destruct (String.eqb_spec (table r0) target) as [Et|_].
      * intros [= <- <-]. split; [left; reflexivity|]. auto.
      * intros H. destruct (IH H) as [Hin Hrest]. split; [right; exact Hin | exact Hrest].
    + intros H. destruct (IH H) as [Hin Hrest]. split; [right; exact Hin | exact Hrest].
  - intros H. destruct (IH H) as [Hin Hrest]. split; [right; exact Hin | exact Hrest].
Qed.

Lemma find_fk_complete target cols c r :
  declares cols target c r -> find_fk target cols <> None.
Proof.
  unfold declares. intros [Hin [Hf [Hr Ht]]].
  induction cols as [|a cols IH]; [contradiction|]. cbn [find_fk].
  destruct Hin as [->|Hin].
  - rewrite Hr, Hf. cbn [andb].
    destruct (String.eqb_spec (table r) target); [discriminate | contradiction].
  - destruct (references a) as [r0|]; [|exact (IH Hin)].
    destruct (isForeignKey a && String.eqb (table r0) target);
      [discriminate | exact (IH Hin)].
Qed.

Lemma direct_found e :
  direct_fk tableDef e <-> find_fk e (t_columns tableDef) <> None.
Proof.
  unfold direct_fk. split.
  - intros [c [r H]]. exact (find_fk_complete _ _ _ _ H).
  - destruct (find_fk e (t_columns tableDef)) as [[c r]|] eqn:E; [|congruence].
    intros _. exists c, r. exact (find_fk_sound _ _ _ _ E).
Qed.

Lemma reverse_found e :
  reverse_fk activeSchema newTable_name e
  <-> find_rev_fk newTable_name (find_table activeSchema e) <> None.
Proof.
  unfold reverse_fk, find_rev_fk. split.
  - intros [ed [c [r [Hn H]]]]. apply find_table_named in Hn. rewrite Hn.
    exact (find_fk_complete _ _ _ _ H).
  - destruct (find_table activeSchema e) as [ed|] eqn:Et; [|congruence].
    destruct (find_fk newTable_name (t_columns ed)) as [[c r]|] eqn:E; [|congruence].
    intros _. exists ed, c, r. split; [apply find_table_named, Et|].
    exact (find_fk_sound _ _ _ _ E).
Qed.

Lemma tier_direct e : tier_of e = 10%Z <-> direct_fk tableDef e.
Proof.
  rewrite direct_found. unfold tier.
  destruct (find_fk e (t_columns tableDef)); [split; [discriminate | reflexivity]|].
  destruct (find_rev_fk newTable_name (find_table activeSchema e));
    [split; [discriminate | congruence]|].
  destruct (intersect tableDef (find_table activeSchema e));
    split; (discriminate || congruence).
Qed.

Lemma tier_declared e :
  (8 <= tier_of e)%Z <-> declared_fk activeSchema newTable_name tableDef e.
Proof.
  unfold declared_fk. rewrite direct_found, reverse_found. unfold tier.
  destruct (find_fk e (t_columns tableDef));
    [split; [intros _; left; discriminate | lia]|].
  destruct (find_rev_fk newTable_name (find_table activeSchema e));
    [split; [intros _; right; discriminate | lia]|].
  destruct (intersect tableDef (find_table activeSchema e));
    (split; [lia | intros [H|H]; congruence]).
Qed.

Lemma quoted_text (t rest : string) : quoted t ++ rest = dq ++ t ++ dq ++ rest.
Proof.
  unfold quoted, dq. cbn [append]. f_equal.
  induction t as [|c t IH]; cbn [append]; [reflexivity | rewrite IH; reflexivity].
Qed.

Lemma condition_text t1 c1 t2 c2 : condition t1 c1 t2 c2 = equality t1 c1 t2 c2.
Proof.
  unfold condition, equality. rewrite !quoted_text. unfold quoted. reflexivity.
Qed.

(** The join built for a table of tier 10, and for one of tier 8. *)
Lemma candidate_direct e :
  tier_of e = 10%Z ->
  exists j, candidate_of e = Some j /\ existingTable j = e
            /\ direct_join newTable_name tableDef j.
Proof.
  unfold tier, candidate, scan_step, scan_init, direct_join. cbn [fst snd].
  destruct (find_fk e (t_columns tableDef)) as [[c r]|] eqn:E.
  - intros _. cbn. eexists. split; [reflexivity|]. cbn.
    split; [reflexivity|]. split; [reflexivity|]. split; [reflexivity|].
    exists c, r. split; [exact (find_fk_sound _ _ _ _ E) | apply condition_text].
  - destruct (find_rev_fk newTable_name (find_table activeSchema e)); [discriminate|].
    destruct (intersect tableDef (find_table activeSchema e)); discriminate.
Qed.

Lemma candidate_reverse e :
  tier_of e = 8%Z ->
  exists j, candidate_of e = Some j /\ existingTable j = e
            /\ reverse_join activeSchema newTable_name tableDef j.
Proof.
  unfold tier, candidate, scan_step, scan_init, reverse_join. cbn [fst snd].
  destruct (find_fk e (t_columns tableDef)) as [[c r]|] eqn:E; [discriminate|].
  cbn. unfold find_rev_fk.
  destruct (find_table activeSchema e) as [ed|] eqn:Et.
  - destruct (find_fk newTable_name (t_columns ed)) as [[c r]|] eqn:Er.
    + intros _. cbn. eexists. split; [reflexivity|]. cbn.
      split; [reflexivity|]. split; [reflexivity|]. split; [reflexivity|].
      exists ed, c, r. split; [apply find_table_named, Et|].
      split; [exact (find_fk_sound _ _ _ _ Er) | apply condition_text].
    + destruct (intersect tableDef (Some ed)); discriminate.
  - destruct (intersect tableDef None); discriminate.
Qed.

(** The state after a scan is the initial one or what some scanned table
    gives when taken alone. *)
Lemma scan_origin l :
  scan_of l = scan_init
  \/ exists e, In e l /\ scan_of l = (candidate_of e, tier_of e) /\ (2 <= tier_of e)%Z.
Proof.
  induction l as [|x l IH] using rev_ind; [left; reflexivity|].
  unfold scan. rewrite fold_left_app. cbn [fold_left].
  fold (scan_of l).
  destruct (step_cases activeSchema newTable_name tableDef (scan_of l) x
              (state_ok_valid _ (scan_ok activeSchema newTable_name tableDef l)))
    as [[Hsame _] | [Htake [H2 _]]].
  - rewrite Hsame. destruct IH as [IH | [e [Hin He]]]; [left; exact IH|].
    right. exists e. split; [apply in_or_app; left; exact Hin | exact He].
  - right. exists x. split; [apply in_or_app; right; left; reflexivity|].
    split; [exact Htake | exact H2].
Qed.

(** With a declared key in the list, the scan ends on a declared join. *)
Lemma scan_declared l e :
  In e l -> declared_fk activeSchema newTable_name tableDef e ->
  (8 <= snd (scan_of l))%Z
  /\ exists x, In x l /\ scan_of l = (candidate_of x, tier_of x)
               /\ tier_of x = snd (scan_of l).
Proof.
  intros Hin Hd. apply tier_declared in Hd.
  assert (Hs : (8 <= snd (scan_of l))%Z).
  { rewrite scan_score. unfold best_tier.
    pose proof (fold_max_mem activeSchema newTable_name tableDef l (-1)%Z e Hin).
    lia. }
  split; [exact Hs|].
  destruct (scan_origin l) as [H0 | [x [Hx [Heq _]]]].
  - rewrite H0 in Hs. cbn in Hs. lia.
  - exists x. split; [exact Hx|]. split; [exact Heq|]. rewrite Heq. reflexivity.
Qed.

End TierFacts.

(** C6: strict tier priority, with the declared keys read off the schema.
    Whenever some table of the list is linked to the new table by a
    declared foreign key, in either direction, and whether or not the name
    heuristic applies as well:
    - the scan proposes a join against a table of the list that is built
      from a declared foreign key: its predicate equates the declaring
      column with the column it references, and it is not flagged as
      heuristic;
    - if some table of the list is referenced by the new table, the score
      is 10 and the join is built from such a reference; if none is, the
      score is 8 and the join is built from a key declared by the existing
      table (scores are never added up);
    - tables that come later and have no declared key change nothing, and
      once the new table references a table of the list, later tables that
      it does not reference change nothing either. *)
Theorem C6_tier_priority :
  forall (activeSchema : DbSchema string) (newTable_name : string)
         (tableDef : TableDefinition string)
         (existing : list string) (e : string),
    let scan_of := JoinInference.scan activeSchema newTable_name tableDef in
    In e existing ->
    JoinSpec.declared_fk activeSchema newTable_name tableDef e ->
    (exists j, fst (scan_of existing) = Some j
               /\ In (JoinInference.existingTable j) existing
               /\ (JoinSpec.direct_join newTable_name tableDef j
                   \/ JoinSpec.reverse_join activeSchema newTable_name tableDef j))
    /\ ((exists x, In x existing /\ JoinSpec.direct_fk tableDef x) ->
        snd (scan_of existing) = 10%Z
        /\ exists j, fst (scan_of existing) = Some j
                     /\ JoinSpec.direct_join newTable_name tableDef j)
    /\ ((forall x, In x existing -> ~ JoinSpec.direct_fk tableDef x) ->
        snd (scan_of existing) = 8%Z
        /\ exists j, fst (scan_of existing) = Some j
                     /\ JoinSpec.reverse_join activeSchema newTable_name tableDef j)
    /\ (forall post,
           (forall x, In x post ->
                      ~ JoinSpec.declared_fk activeSchema newTable_name tableDef x) ->
           scan_of (existing ++ post)%list = scan_of existing)
    /\ (forall post,
           (exists x, In x existing /\ JoinSpec.direct_fk tableDef x) ->
           (forall x, In x post -> ~ JoinSpec.direct_fk tableDef x) ->
           scan_of (existing ++ post)%list = scan_of existing).
Proof.
  intros S n d existing e scan_of Hin Hd. subst scan_of.
  destruct (scan_declared S n d existing e Hin Hd) as [Hs [x [Hx [Heq Htx]]]].
  pose proof (tier_valid S n d x) as Hv. unfold JoinInference.valid_score in Hv.
  assert (Hten : (exists y, In y existing /\ JoinSpec.direct_fk d y) ->
                 snd (JoinInference.scan S n d existing) = 10%Z).
  { intros [y [Hy Hdy]]. apply (tier_direct S n d) in Hdy.
    pose proof (fold_max_mem S n d existing (-1)%Z y Hy) as Hmax.
    rewrite <- Htx. rewrite scan_score in Htx. unfold JoinInference.best_tier in Htx.
    lia. }
  assert (Hdirect : snd (JoinInference.scan S n d existing) = 10%Z ->
                    exists j, fst (JoinInference.scan S n d existing) = Some j
                              /\ JoinInference.existingTable j = x
                              /\ JoinSpec.direct_join n d j).
  { intros H10. rewrite <- Htx in H10.
    destruct (candidate_direct S n d x H10) as [j [Hj Hrest]].
    exists j. rewrite Heq. split; [exact Hj | exact Hrest]. }
  assert (Hreverse : snd (JoinInference.scan S n d existing) = 8%Z ->
                     exists j, fst (JoinInference.scan S n d existing) = Some j
                               /\ JoinInference.existingTable j = x
                               /\ JoinSpec.reverse_join S n d j).
  { intros H8. rewrite <- Htx in H8.
    destruct (candidate_reverse S n d x H8) as [j [Hj Hrest]].
    exists j. rewrite Heq. split; [exact Hj | exact Hrest]. }
  assert (Hscore : snd (JoinInference.scan S n d existing) = 8%Z
                   \/ snd (JoinInference.scan S n d existing) = 10%Z) by lia.
  split; [|split; [|split; [|split]]].
  - destruct Hscore as [H8|H10].
    + destruct (Hreverse H8) as [j [Hj [He Hr]]].
      exists j. split; [exact Hj|]. split; [rewrite He; exact Hx | right; exact Hr].
    + destruct (Hdirect H10) as [j [Hj [He Hr]]].
      exists j. split; [exact Hj|]. split; [rewrite He; exact Hx | left; exact Hr].
  - intros Hex. pose proof (Hten Hex) as H10. split; [exact H10|].
    destruct (Hdirect H10) as [j [Hj [_ Hr]]]. exists j. split; assumption.
  - intros Hnone.
    assert (H8 : snd (JoinInference.scan S n d existing) = 8%Z).
    { destruct Hscore as [H8|H10]; [exact H8|]. exfalso.
      rewrite <- Htx in H10. apply (tier_direct S n d) in H10.
      exact (Hnone x Hx H10). }
    split; [exact H8|].
    destruct (Hreverse H8) as [j [Hj [_ Hr]]]. exists j. split; assumption.
  - intros post Hpost. unfold JoinInference.scan. rewrite fold_left_app.
    apply fold_lower; [apply scan_ok|].
    intros y Hy. specialize (Hpost y Hy).
    pose proof (tier_declared S n d y) as Hiff.
    fold (JoinInference.scan S n d existing).
    destruct (Z_lt_ge_dec (JoinInference.tier S n d y) 8) as [Hlt|Hge]; [lia|].
    exfalso. apply Hpost, Hiff. lia.
  - intros post Hex Hpost. pose proof (Hten Hex) as H10.
    unfold JoinInference.scan. rewrite fold_left_app.
    apply fold_lower; [apply scan_ok|].
    intros y Hy. specialize (Hpost y Hy).
    pose proof (tier_direct S n d y) as Hiff.
    pose proof (tier_valid S n d y) as Hvy. unfold JoinInference.valid_score in Hvy.
    fold (JoinInference.scan S n d existing). rewrite H10.
    destruct (Z.eq_dec (JoinInference.tier S n d y) 10) as [E|E]; [|lia].
    exfalso. apply Hpost, Hiff, E.
Qed.

Lemma C6_tier_priority_witness :
  let scan_of := JoinInference.scan JoinInference.shop "orders" JoinInference.orders in
  JoinSpec.shared_key_name JoinInference.shop JoinInference.orders "customers"
  /\ (exists j, fst (scan_of ["FROM"; "customers"]) = Some j
                /\ In (JoinInference.existingTable j) ["FROM"; "customers"]
                /\ (JoinSpec.direct_join "orders" JoinInference.orders j
                    \/ JoinSpec.reverse_join JoinInference.shop "orders"
                         JoinInference.orders j))
  /\ ((exists x, In x ["FROM"; "customers"]
                 /\ JoinSpec.direct_fk JoinInference.orders x) ->
      snd (scan_of ["FROM"; "customers"]) = 10%Z
      /\ exists j, fst (scan_of ["FROM"; "customers"]) = Some j
                   /\ JoinSpec.direct_join "orders" JoinInference.orders j)
  /\ ((forall x, In x ["FROM"; "customers"]
                 -> ~ JoinSpec.direct_fk JoinInference.orders x) ->
      snd (scan_of ["FROM"; "customers"]) = 8%Z
      /\ exists j, fst (scan_of ["FROM"; "customers"]) = Some j
                   /\ JoinSpec.reverse_join JoinInference.shop "orders"
                        JoinInference.orders j)
  /\ (forall post,
         (forall x, In x post ->
                    ~ JoinSpec.declared_fk JoinInference.shop "orders"
                        JoinInference.orders x) ->
         scan_of (["FROM"; "customers"] ++ post)%list = scan_of ["FROM"; "customers"])
  /\ (forall post,
         (exists x, In x ["FROM"; "customers"]
                    /\ JoinSpec.direct_fk JoinInference.orders x) ->
         (forall x, In x post -> ~ JoinSpec.direct_fk JoinInference.orders x) ->
         scan_of (["FROM"; "customers"] ++ post)%list = scan_of ["FROM"; "customers"]).
Proof.
  split.
  - exists JoinInference.customers, (JoinInference.plain "id" "int" true),
           (JoinInference.plain "id" "int" true).
    split.
    + exists [], [JoinInference.products; JoinInference.orders].
      split; [reflexivity|]. split; [reflexivity | constructor].
    + split; [left; reflexivity|]. split; [left; reflexivity|].
      split; [reflexivity | left; reflexivity].
  - apply (C6_tier_priority JoinInference.shop "orders" JoinInference.orders
             ["FROM"; "customers"] "customers").
    + right. left. reflexivity.
    + left. exists (JoinInference.fkcol "customer_id" "int" "customers" "id"),
                   (mkReference "customers" "id").
      split; [right; left; reflexivity|]. repeat split.
Defined.

(** The two directions on the shop schema: dropping [orders] next to
    [customers] joins on the key [orders] declares; dropping [customers]
    next to [orders] joins on the same key, read from the other side.
    Both tables have a column [id], and neither join is the heuristic
    one. *)
Example declared_joins :
  fst (JoinInference.scan JoinInference.shop "orders" JoinInference.orders
         ["customers"])
  = Some (JoinInference.mkJoin JoinInference.orders "customers"
            (JoinSpec.equality "orders" "customer_id" "customers" "id") false)
  /\ fst (JoinInference.scan JoinInference.shop "customers" JoinInference.customers
            ["orders"])
     = Some (JoinInference.mkJoin JoinInference.customers "orders"
               (JoinSpec.equality "orders" "customer_id" "customers" "id") false).
Proof. split; reflexivity. Qed.

(* ------------------------------------------------------------------ *)
(** ** Dialect resolution and explain rewriting *)
(* ------------------------------------------------------------------ *)

Section DialectFacts.

Import MuulService Dialects.

Variable World : Type.
Variable externalMessage_send : option (RemoteRequest -> World -> SendOutcome * World).
Variable coerced : JsVal -> bool.
Variable upper_unicode : string -> string.

Lemma dialect_tag_sqlserver credential t :
  dbType credential = Some t -> toLowerCase t = "sqlserver" ->
  dialect_tag credential = "mssql".
Proof. unfold dialect_tag. intros -> ->. reflexivity. Qed.

Lemma dialect_tag_absent credential :
  dbType credential = None \/ dbType credential = Some "" ->
  dialect_tag credential = "postgres".
Proof. unfold dialect_tag. intros [-> | ->]; reflexivity. Qed.

Lemma dialect_tag_other credential t :
  dbType credential = Some t ->
  toLowerCase t <> "sqlserver" -> toLowerCase t <> "" ->
  dialect_tag credential = toLowerCase t.
Proof.
  unfold dialect_tag. intros -> H1 H2.
  destruct (String.eqb_spec (toLowerCase t) "sqlserver"); [contradiction|].
  destruct (String.eqb_spec (toLowerCase t) ""); [contradiction|]. reflexivity.
Qed.

Lemma schema_of_missing_dialect credential w :
  DialectRegistry (dialect_tag credential) = Missing ->
  getRemoteDatabaseSchema externalMessage_send coerced upper_unicode credential w
  = (Ok (mkSchema []), w).
Proof. unfold getRemoteDatabaseSchema. intros ->. reflexivity. Qed.

End DialectFacts.

(** C2, as stated, fails for an unrecognized engine name: the credential
    [{id: "c1", dbType: "Oracle"}] resolves to the tag ["oracle"], not to
    ["postgres"]. *)
Lemma C2_unrecognized_is_not_postgres :
  ~ (forall (credential : MuulService.CredentialEntry) (t : string),
        MuulService.dbType credential = Some t ->
        toLowerCase t <> "sqlserver" ->
        Dialects.DialectRegistry (toLowerCase t) = Dialects.Missing ->
        MuulService.dialect_tag credential = "postgres").
Proof.
  intros H.
  specialize (H (MuulService.mkCredential "c1" (Some "Oracle")) "Oracle" eq_refl).
  assert (Hne : toLowerCase "Oracle" <> "sqlserver") by (vm_compute; discriminate).
  specialize (H Hne eq_refl). vm_compute in H. discriminate H.
Qed.

(** C2, amended: the spelling [sqlserver] in any letter case resolves to
    [mssql]; an absent or empty [dbType] resolves to [postgres] and
    discovery runs with the postgres templates; any other value resolves
    to its own lower-cased spelling.  When that spelling is a key of the
    registry, discovery runs with the templates stored under it; when it is
    neither a key nor the name of a member every object inherits, the
    discovery returns the empty schema without sending a request. *)
Theorem C2_dialect_resolution :
  forall (World : Type)
         (send : option (MuulService.RemoteRequest -> World
                         -> MuulService.SendOutcome * World))
         (coerced : JsVal -> bool) (upper_unicode : string -> string)
         (credential : MuulService.CredentialEntry),
    (forall t, MuulService.dbType credential = Some t ->
               equal_ignoring_case t "sqlserver" = true ->
               MuulService.dialect_tag credential = "mssql"
               /\ MuulService.getRemoteDatabaseSchema send coerced upper_unicode
                    credential
                  = MuulService.discover_with send coerced upper_unicode credential
                      "mssql" Dialects.mssql)
    /\ (MuulService.dbType credential = None
        \/ MuulService.dbType credential = Some "" ->
        MuulService.dialect_tag credential = "postgres"
        /\ MuulService.getRemoteDatabaseSchema send coerced upper_unicode credential
           = MuulService.discover_with send coerced upper_unicode credential
               "postgres" Dialects.postgres)
    /\ (forall t, MuulService.dbType credential = Some t ->
                  equal_ignoring_case t "sqlserver" = false ->
                  t <> "" ->
                  MuulService.dialect_tag credential = toLowerCase t
                  /\ (In (toLowerCase t) Dialects.registry_keys ->
                      exists dialect,
                        Dialects.DialectRegistry (toLowerCase t) = Dialects.Entry dialect
                        /\ MuulService.getRemoteDatabaseSchema send coerced
                             upper_unicode credential
                           = MuulService.discover_with send coerced upper_unicode
                               credential (toLowerCase t) dialect)
                  /\ (~ In (toLowerCase t) Dialects.registry_keys ->
                      ~ In (toLowerCase t) Dialects.inherited_keys ->
                      forall w,
                        MuulService.getRemoteDatabaseSchema send coerced
                          upper_unicode credential w
                        = (Ok (mkSchema []), w))).
Proof.
  intros W send coerced upper_unicode credential.
  assert (Hci : forall t, equal_ignoring_case t "sqlserver"
                          = String.eqb (toLowerCase t) "sqlserver").
  { intros t. reflexivity. }
  split; [|split].
  - intros t Ht Hs. rewrite Hci in Hs. apply String.eqb_eq in Hs.
    pose proof (dialect_tag_sqlserver credential t Ht Hs) as Htag.
    split; [exact Htag|].
    unfold MuulService.getRemoteDatabaseSchema. rewrite Htag. reflexivity.
  - intros Habs. pose proof (dialect_tag_absent credential Habs) as Htag.
    split; [exact Htag|].
    unfold MuulService.getRemoteDatabaseSchema. rewrite Htag. reflexivity.
  - intros t Ht Hs Hne. rewrite Hci in Hs. apply String.eqb_neq in Hs.
    assert (Hlow : toLowerCase t <> "").
    { destruct t; [contradiction | discriminate]. }
    pose proof (dialect_tag_other credential t Ht Hs Hlow) as Htag.
    split; [exact Htag|]. split.
    + intros Hkey. unfold MuulService.getRemoteDatabaseSchema. rewrite Htag.
      cbn [Dialects.registry_keys In] in Hkey.
      destruct Hkey as [<-|[<-|[<-|[<-|[<-|[<-|[]]]]]]];
        eexists; split; reflexivity.
    + intros Hkey Hinh w. apply schema_of_missing_dialect. rewrite Htag.
      unfold Dialects.DialectRegistry.
      cbn [Dialects.registry_keys Dialects.inherited_keys In] in Hkey, Hinh.
      repeat match goal with
             | |- context [String.eqb (toLowerCase t) ?k] =>
                 destruct (String.eqb_spec (toLowerCase t) k);
                 [exfalso; first [apply Hkey | apply Hinh]; auto 10|]
             end.
      reflexivity.
Qed.

Lemma C2_dialect_resolution_witness :
  MuulService.dialect_tag (MuulService.mkCredential "c1" (Some "SqlServer")) = "mssql"
  /\ MuulService.dialect_tag (MuulService.mkCredential "c2" None) = "postgres"
  /\ MuulService.dialect_tag (MuulService.mkCredential "c3" (Some "Oracle")) = "oracle"
  /\ MuulService.getRemoteDatabaseSchema (World := unit) None (fun _ => false) (fun s => s)
       (MuulService.mkCredential "c3" (Some "Oracle")) tt
     = (Ok (mkSchema []), tt)
  /\ (exists dialect,
        Dialects.DialectRegistry (toLowerCase "MySQL") = Dialects.Entry dialect
        /\ MuulService.getRemoteDatabaseSchema (World := unit) None (fun _ => false)
             (fun s => s) (MuulService.mkCredential "c4" (Some "MySQL"))
           = MuulService.discover_with None (fun _ => false) (fun s => s)
               (MuulService.mkCredential "c4" (Some "MySQL")) (toLowerCase "MySQL")
               dialect).
Proof.
  split; [|split; [|split; [|split]]].
  - destruct (C2_dialect_resolution unit None (fun _ => false) (fun s => s)
                (MuulService.mkCredential "c1" (Some "SqlServer"))) as [H _].
    destruct (H "SqlServer") as [Htag _]; [reflexivity | reflexivity | exact Htag].
  - destruct (C2_dialect_resolution unit None (fun _ => false) (fun s => s)
                (MuulService.mkCredential "c2" None)) as [_ [H _]].
    destruct H as [Htag _]; [left; reflexivity | exact Htag].
  - destruct (C2_dialect_resolution unit None (fun _ => false) (fun s => s)
                (MuulService.mkCredential "c3" (Some "Oracle"))) as [_ [_ H]].
    destruct (H "Oracle") as [Htag _];
      [reflexivity | reflexivity | discriminate | exact Htag].
  - destruct (C2_dialect_resolution unit None (fun _ => false) (fun s => s)
                (MuulService.mkCredential "c3" (Some "Oracle"))) as [_ [_ H]].
    destruct (H "Oracle") as [_ [_ Hschema]];
      [reflexivity | reflexivity | discriminate |].
    apply Hschema.
    + cbn. intros H0. repeat (destruct H0 as [H0|H0]; [discriminate H0|]). exact H0.
    + cbn. intros H0. repeat (destruct H0 as [H0|H0]; [discriminate H0|]). exact H0.
  - destruct (C2_dialect_resolution unit None (fun _ => false) (fun s => s)
                (MuulService.mkCredential "c4" (Some "MySQL"))) as [_ [_ H]].
    destruct (H "MySQL") as [_ [Hentry _]];
      [reflexivity | reflexivity | discriminate |].
    apply Hentry. cbn. right. right. left. reflexivity.
Defined.

(** C10: when the dialect resolved for the connection is [sqlite],
    [explainQuery] hands exactly [EXPLAIN QUERY PLAN SELECT 1] to the
    execution path (the remote one when a credential is given, the local
    one otherwise). *)
Theorem C10_explain_sqlite :
  forall (realDatabases : list (string * (string * string)))
         (Outcome : Type)
         (executeQuery : string -> string -> Outcome)
         (executeRemote : MuulService.CredentialEntry -> string -> Outcome)
         (dbId : string) (credential : option MuulService.CredentialEntry),
    MuulService.getDialectForDb realDatabases dbId credential = "sqlite" ->
    MuulService.explainQuery realDatabases executeQuery executeRemote
      dbId "SELECT 1" credential
    = match credential with
      | Some c => executeRemote c "EXPLAIN QUERY PLAN SELECT 1"
      | None => executeQuery dbId "EXPLAIN QUERY PLAN SELECT 1"
      end.
Proof.
  intros dbs Outcome executeQuery executeRemote dbId credential Hd.
  unfold MuulService.explainQuery. rewrite Hd. reflexivity.
Qed.

Lemma C10_explain_sqlite_witness :
  MuulService.explainQuery [("user-db-1", ("people.csv", "sqlite"))]
    (fun dbId sql_text => (dbId, sql_text))
    (fun c sql_text => (MuulService.id c, sql_text))
    "user-db-1" "SELECT 1" None
  = ("user-db-1", "EXPLAIN QUERY PLAN SELECT 1").
Proof.
  apply (C10_explain_sqlite [("user-db-1", ("people.csv", "sqlite"))]
           (string * string)
           (fun dbId sql_text => (dbId, sql_text))
           (fun c sql_text => (MuulService.id c, sql_text))
           "user-db-1" None).
  reflexivity.
Defined.

(* ------------------------------------------------------------------ *)
(** ** Primary-key detection *)
(* ------------------------------------------------------------------ *)

Section PrimaryKeyFacts.

Import MuulService.

Ltac by_all_chars :=
  let c := fresh "c" in
  intros c; destruct c as [[] [] [] [] [] [] [] []]; vm_compute; reflexivity.

Lemma upper_P : forall c, Ascii.eqb (upper_char c) "P" = Ascii.eqb (lower_char c) "p".
Proof. by_all_chars. Qed.

Lemma upper_R : forall c, Ascii.eqb (upper_char c) "R" = Ascii.eqb (lower_char c) "r".
Proof. by_all_chars. Qed.

Lemma upper_I : forall c, Ascii.eqb (upper_char c) "I" = Ascii.eqb (lower_char c) "i".
Proof. by_all_chars. Qed.

(** For a key of ASCII characters, comparing the upper-cased key with
    [PRI] is comparing the key with [PRI] up to letter case. *)
Lemma upper_is_PRI upper_unicode k :
  all_ascii k = true ->
  String.eqb (toUpperCase upper_unicode k) "PRI" = equal_ignoring_case k "PRI".
Proof.
  intros Hk. unfold toUpperCase. rewrite Hk. clear Hk.
  unfold equal_ignoring_case. change (toLowerCase "PRI") with "pri".
  destruct k as [|a [|b [|c [|d k]]]]; try reflexivity; cbn.
  - destruct (Ascii.eqb (upper_char a) "P"), (Ascii.eqb (lower_char a) "p");
      reflexivity.
  - rewrite upper_P. destruct (Ascii.eqb (lower_char a) "p"); [|reflexivity].
    destruct (Ascii.eqb (upper_char b) "R"), (Ascii.eqb (lower_char b) "r");
      reflexivity.
  - rewrite upper_P, upper_R, upper_I. reflexivity.
  - rewrite upper_P, upper_R, upper_I.
    destruct (Ascii.eqb (lower_char a) "p"); [|reflexivity].
    destruct (Ascii.eqb (lower_char b) "r"); [|reflexivity].
    destruct (Ascii.eqb (lower_char c) "i"); reflexivity.
Qed.

Lemma strict_eq_num v n : strict_eq v (JNum n) = true <-> v = JNum n.
Proof.
  destruct v; simpl; split; try discriminate; intros H.
  - apply Z.eqb_eq in H. congruence.
  - injection H as ->. apply Z.eqb_refl.
Qed.

Lemma strict_eq_true v : strict_eq v (JBool true) = true <-> v = JBool true.
Proof.
  destruct v as [| |[]| | | |]; simpl; split; try discriminate; try reflexivity.
Qed.

End PrimaryKeyFacts.

(** C5, as stated, fails in its last clause: for [mysql] the [pk] field is
    not consulted.  The row [{field: "id", key: "PRI"}], whose [pk] is
    absent, is a primary key. *)
Lemma C5_mysql_ignores_pk :
  ~ (forall (coerced : JsVal -> bool) (upper_unicode : string -> string)
            (dbTypeStr : string) (colRow : list (string * JsVal)),
        lookup colRow "pk" = JNum 0 \/ lookup colRow "pk" = JBool false
        \/ lookup colRow "pk" = JUndefined ->
        MuulService.is_pk coerced upper_unicode dbTypeStr colRow = Ok false).
Proof.
  intros H.
  specialize (H (fun _ => false) (fun s => s) "mysql"
                [("field", JStr "id"); ("key", JStr "PRI")]).
  assert (Habs : lookup [("field", JStr "id"); ("key", JStr "PRI")] "pk" = JUndefined)
    by reflexivity.
  specialize (H (or_intror (or_intror Habs))).
  vm_compute in H. discriminate H.
Qed.

(** C5, amended: the primary-key flag of every column row, per dialect
    tag.
    - [sqlite]: the comparison [pk > 0]: a number gives [0 < pk], a boolean
      gives itself, an absent or [null] field gives false, and a text, an
      array or an object is compared through its numeric reading;
    - [postgres], [mssql]: true exactly when [pk] is the number 1 or the
      boolean [true];
    - [mysql]: [pk] is not read; a falsy or absent [key] gives false; a text
      [key] gives the equality of its upper-cased form with [PRI], which for
      a text of ASCII characters is equality with [PRI] up to letter case;
      a truthy [key] that is not a text makes the row throw;
    - every other tag: false;
    - every tag other than [mysql]: a [pk] of 0, [false] or absent gives
      false. *)
Theorem C5_primary_key_detection :
  forall (coerced : JsVal -> bool) (upper_unicode : string -> string)
         (colRow : list (string * JsVal)),
    let is_pk := MuulService.is_pk coerced upper_unicode in
    ((forall n, lookup colRow "pk" = JNum n -> is_pk "sqlite" colRow = Ok (0 <? n)%Z)
     /\ (forall b, lookup colRow "pk" = JBool b -> is_pk "sqlite" colRow = Ok b)
     /\ (lookup colRow "pk" = JUndefined \/ lookup colRow "pk" = JNull ->
         is_pk "sqlite" colRow = Ok false)
     /\ (is_object (lookup colRow "pk") = true
         \/ (exists t, lookup colRow "pk" = JStr t) ->
         is_pk "sqlite" colRow = Ok (coerced (lookup colRow "pk"))))
    /\ (forall d, d = "postgres" \/ d = "mssql" ->
                  exists b, is_pk d colRow = Ok b
                            /\ (b = true <-> lookup colRow "pk" = JNum 1
                                             \/ lookup colRow "pk" = JBool true))
    /\ ((forall k, lookup colRow "key" = JStr k ->
                   is_pk "mysql" colRow
                   = Ok (String.eqb (toUpperCase upper_unicode k) "PRI"))
        /\ (forall k, lookup colRow "key" = JStr k -> all_ascii k = true ->
                      is_pk "mysql" colRow = Ok (equal_ignoring_case k "PRI"))
        /\ (truthy (lookup colRow "key") = false -> is_pk "mysql" colRow = Ok false)
        /\ (truthy (lookup colRow "key") = true ->
            (forall k, lookup colRow "key" <> JStr k) ->
            exists msg, is_pk "mysql" colRow = Throw (TypeError msg)))
    /\ (forall d, ~ In d ["sqlite"; "postgres"; "mssql"; "mysql"] ->
                  is_pk d colRow = Ok false)
    /\ (forall d, d <> "mysql" ->
                  lookup colRow "pk" = JNum 0 \/ lookup colRow "pk" = JBool false
                  \/ lookup colRow "pk" = JUndefined ->
                  is_pk d colRow = Ok false).
Proof.
  intros coerced upper_unicode colRow is_pk. subst is_pk.
  split; [|split; [|split; [|split]]].
  - unfold MuulService.is_pk. cbn [String.eqb Ascii.eqb Bool.eqb].
    change (String.eqb "sqlite" "sqlite") with true. cbv iota.
    split; [|split; [|split]].
    + intros n ->. reflexivity.
    + intros b ->. reflexivity.
    + intros [-> | ->]; reflexivity.
    + intros [Hobj | [t ->]]; [|reflexivity].
      destruct (lookup colRow "pk"); try discriminate Hobj; reflexivity.
  - intros d Hd.
    exists (strict_eq (lookup colRow "pk") (JNum 1)
            || strict_eq (lookup colRow "pk") (JBool true)).
    split.
    + destruct Hd as [-> | ->]; reflexivity.
    + rewrite orb_true_iff, strict_eq_num, strict_eq_true. reflexivity.
  - assert (Hstr : forall k, lookup colRow "key" = JStr k ->
                     MuulService.is_pk coerced upper_unicode "mysql" colRow
                     = Ok (String.eqb (toUpperCase upper_unicode k) "PRI")).
    { intros k Hk. unfold MuulService.is_pk.
      change (String.eqb "mysql" "sqlite") with false.
      change (String.eqb "mysql" "postgres" || String.eqb "mysql" "mssql") with false.
      change (String.eqb "mysql" "mysql") with true. cbv iota.
      rewrite Hk. unfold or_else. cbn [truthy].
      destruct (String.eqb_spec k "") as [-> | Hne]; reflexivity. }
    split; [exact Hstr|]. split; [|split].
    + intros k Hk Hascii. rewrite (Hstr k Hk), (upper_is_PRI _ _ Hascii). reflexivity.
    + intros Hfalsy. unfold MuulService.is_pk.
      change (String.eqb "mysql" "sqlite") with false.
      change (String.eqb "mysql" "postgres" || String.eqb "mysql" "mssql") with false.
      change (String.eqb "mysql" "mysql") with true. cbv iota.
      unfold or_else. rewrite Hfalsy. reflexivity.
    + intros Htruthy Hnot. unfold MuulService.is_pk.
      change (String.eqb "mysql" "sqlite") with false.
      change (String.eqb "mysql" "postgres" || String.eqb "mysql" "mssql") with false.
      change (String.eqb "mysql" "mysql") with true. cbv iota.
      unfold or_else. rewrite Htruthy.
      destruct (lookup colRow "key") as [| | | |k| |] eqn:Ek;
        try (eexists; reflexivity).
      exfalso. apply (Hnot k). reflexivity.
  - intros d Hd. unfold MuulService.is_pk. cbn [In] in Hd.
    destruct (String.eqb_spec d "sqlite"); [exfalso; apply Hd; auto|].
    destruct (String.eqb_spec d "postgres"); [exfalso; apply Hd; auto|].
    destruct (String.eqb_spec d "mssql"); [exfalso; apply Hd; auto|].
    destruct (String.eqb_spec d "mysql"); [exfalso; apply Hd; auto 6|].
    reflexivity.
  - intros d Hd Hpk. unfold MuulService.is_pk.
    destruct (String.eqb_spec d "mysql") as [->|_]; [contradiction|].
    destruct (String.eqb d "sqlite");
      [|destruct (String.eqb d "postgres" || String.eqb d "mssql")];
      try reflexivity;
      destruct Hpk as [-> | [-> | ->]]; reflexivity.
Qed.

Lemma C5_primary_key_detection_witness :
  MuulService.is_pk (fun _ => false) (fun s => s) "sqlite"
    [("name", JStr "id"); ("pk", JNum 1)] = Ok true
  /\ MuulService.is_pk (fun _ => false) (fun s => s) "mysql"
       [("field", JStr "id"); ("key", JStr "pri")] = Ok true
  /\ MuulService.is_pk (fun _ => false) (fun s => s) "postgres"
       [("name", JStr "id"); ("pk", JNum 0)] = Ok false
  /\ MuulService.is_pk (fun _ => false) (fun s => s) "mysql"
       [("field", JStr "id"); ("key", JNum 0)] = Ok false
  /\ (exists msg,
        MuulService.is_pk (fun _ => false) (fun s => s) "mysql"
          [("field", JStr "id"); ("key", JNum 1)] = Throw (TypeError msg))
  /\ MuulService.is_pk (fun _ => false) (fun s => s) "sqlite"
       [("name", JStr "id"); ("pk", JBool true)] = Ok true
  /\ MuulService.is_pk (fun _ => false) (fun s => s) "parquet"
       [("name", JStr "id"); ("pk", JNum 1)] = Ok false.
Proof.
  split; [|split; [|split; [|split; [|split; [|split]]]]].
  - destruct (C5_primary_key_detection (fun _ => false) (fun s => s)
                [("name", JStr "id"); ("pk", JNum 1)]) as [[H _] _].
    apply (H 1%Z). reflexivity.
  - destruct (C5_primary_key_detection (fun _ => false) (fun s => s)
                [("field", JStr "id"); ("key", JStr "pri")]) as [_ [_ [[_ [H _]] _]]].
    apply (H "pri"); reflexivity.
  - destruct (C5_primary_key_detection (fun _ => false) (fun s => s)
                [("name", JStr "id"); ("pk", JNum 0)]) as [_ [_ [_ [_ H]]]].
    apply (H "postgres").
    + discriminate.
    + left. reflexivity.
  - destruct (C5_primary_key_detection (fun _ => false) (fun s => s)
                [("field", JStr "id"); ("key", JNum 0)]) as [_ [_ [[_ [_ [H _]]] _]]].
    apply H. reflexivity.
  - destruct (C5_primary_key_detection (fun _ => false) (fun s => s)
                [("field", JStr "id"); ("key", JNum 1)]) as [_ [_ [[_ [_ [_ H]]] _]]].
    apply H; [reflexivity | intros k; discriminate].
  - destruct (C5_primary_key_detection (fun _ => false) (fun s => s)
                [("name", JStr "id"); ("pk", JBool true)]) as [[_ [H _]] _].
    apply (H true). reflexivity.
  - destruct (C5_primary_key_detection (fun _ => false) (fun s => s)
                [("name", JStr "id"); ("pk", JNum 1)]) as [_ [_ [_ [H _]]]].
    apply (H "parquet"). cbn.
    intros H0. repeat (destruct H0 as [H0|H0]; [discriminate H0|]). exact H0.
Defined.

(* ------------------------------------------------------------------ *)
(** ** Remote execution *)
(* ------------------------------------------------------------------ *)

Section RemoteQueryFacts.

Import MuulService.

Variable World : Type.

Lemma get_object v key : is_object v = true -> get v key = Ok (read v key).
Proof.
  destruct v; simpl; try discriminate; intros _; unfold read; simpl.
  - destruct (String.eqb key "length"); reflexivity.
  - reflexivity.
Qed.

Lemma get_truthy v key : truthy v = true -> get v key = Ok (read v key).
Proof.
  destruct v; simpl; try discriminate; intros _; unfold read; simpl;
    try reflexivity; destruct (String.eqb key "length"); reflexivity.
Qed.

Lemma project_row cols obj :
  is_object obj = true ->
  mapM (fun col => get obj col) cols = Ok (map (read obj) cols).
Proof.
  intros Hobj. induction cols as [|col cols IHc]; simpl; [reflexivity|].
  rewrite (get_object obj col Hobj). simpl. rewrite IHc. reflexivity.
Qed.

(** Projecting rows that are objects never throws. *)
Lemma project_objects cols items :
  Forall (fun v => is_object v = true) items ->
  mapM (fun obj => mapM (fun col => get obj col) cols) items
  = Ok (map (fun obj => map (read obj) cols) items).
Proof.
  induction 1 as [|obj items Hobj _ IH]; simpl; [reflexivity|].
  rewrite (project_row cols obj Hobj). simpl. rewrite IH. reflexivity.
Qed.

(** The shape inference on an empty column list and object rows. *)
Lemma infer_shape_objects c first others :
  truthy c = false \/ c = JArr [] ->
  Forall (fun v => is_object v = true) (first :: others) ->
  infer_shape (or_else c (JArr [])) (or_else (JArr (first :: others)) (JArr []))
  = Ok (JArr (map JStr (keys first)),
        JArr (map (fun obj => JArr (map (read obj) (keys first))) (first :: others))).
Proof.
  intros Hc Hrows.
  assert (Hcols : or_else c (JArr []) = JArr []).
  { unfold or_else. destruct Hc as [-> | ->]; reflexivity. }
  rewrite Hcols. unfold or_else at 1. cbn [truthy].
  unfold infer_shape. cbn [truthy get String.eqb bind List.length Z.of_nat strict_eq
                            negb orb Z.eqb].
  replace (is_object first) with true
    by (symmetry; exact (Forall_inv Hrows)).
  rewrite (project_objects (keys first) (first :: others) Hrows).
  cbn [bind]. rewrite map_map. reflexivity.
Qed.

(** A rejection whose reason is [null] or [undefined] makes the [catch]
    block itself throw. *)
Lemma handle_failure_nullish reason :
  reason = JUndefined \/ reason = JNull ->
  exists e, handle_failure reason = Throw e.
Proof. intros [-> | ->]; eexists; reflexivity. Qed.

Lemma handle_failure_absorbs reason :
  reason <> JUndefined -> reason <> JNull ->
  exists e, handle_failure reason = Ok (failure e) /\ truthy e = true.
Proof.
  intros Hu Hn. unfold handle_failure.
  assert (Hget : exists m, get reason "message" = Ok m).
  { destruct reason; simpl; try contradiction; eauto. }
  destruct Hget as [m ->]. simpl.
  exists (or_else m (JStr "Bridge communication failed")). split; [reflexivity|].
  unfold or_else. destruct (truthy m) eqn:E; [exact E | reflexivity].
Qed.

(** A reply whose [ok] is not truthy gives the failure literal. *)
Lemma handle_response_not_ok response :
  truthy response && truthy (read response "ok") = false ->
  exists e, handle_response response = Ok (failure e) /\ truthy e = true.
Proof.
  intros Hok. unfold handle_response.
  assert (Hfalsy : exists ok, (if truthy response then get response "ok" else Ok response)
                              = Ok ok /\ truthy ok = false).
  { destruct (truthy response) eqn:E.
    - rewrite (get_truthy response "ok" E). eexists; split; [reflexivity|].
      simpl in Hok. exact Hok.
    - eexists; split; [reflexivity | exact E]. }
  destruct Hfalsy as [ok [-> Hf]]. cbn [bind]. rewrite Hf.
  assert (Hget : exists e, get_opt response "error" = Ok e).
  { destruct response; simpl; eauto. }
  destruct Hget as [e ->]. cbn [bind].
  exists (or_else e (JStr "Unknown remote error")). split; [reflexivity|].
  unfold or_else. destruct (truthy e) eqn:E; [exact E | reflexivity].
Qed.

(** The failures [executeRemoteQuery] absorbs: a missing bridge, a reply
    that is not [ok], and a rejection with a reason other than [null] and
    [undefined]. *)
Lemma remote_failures_absorbed
      (send : RemoteRequest -> World -> SendOutcome * World)
      credential sql_text w :
  (exists e, executeRemoteQuery (World := World) None credential sql_text w
             = (Ok (failure e), w) /\ truthy e = true)
  /\ (forall response w',
         send (mkRequest "EXECUTE_REMOTE_QUERY" (id credential) sql_text) w
         = (Resolved response, w') ->
         truthy response && truthy (read response "ok") = false ->
         exists e, executeRemoteQuery (Some send) credential sql_text w
                   = (Ok (failure e), w') /\ truthy e = true)
  /\ (forall reason w',
         send (mkRequest "EXECUTE_REMOTE_QUERY" (id credential) sql_text) w
         = (Rejected reason, w') ->
         reason <> JUndefined -> reason <> JNull ->
         exists e, executeRemoteQuery (Some send) credential sql_text w
                   = (Ok (failure e), w') /\ truthy e = true).
Proof.
  split; [|split].
  - eexists; split; reflexivity.
  - intros response w' Hsend Hok. unfold executeRemoteQuery. rewrite Hsend.
    destruct (handle_response_not_ok response Hok) as [e [-> He]].
    exists e. split; [reflexivity | exact He].
  - intros reason w' Hsend Hu Hn. unfold executeRemoteQuery. rewrite Hsend.
    destruct (handle_failure_absorbs reason Hu Hn) as [e [-> He]].
    exists e. split; [reflexivity | exact He].
Qed.

End RemoteQueryFacts.

(** C3: column inference.  When the reply is [ok], carries no [columns]
    (or an empty list) and its [rows] is a non-empty array of objects,
    [executeRemoteQuery] resolves with the keys of the first row as
    columns, in their enumeration order, and with every row projected to
    the tuple of its values under those keys. *)
Theorem C3_column_inference :
  forall (World : Type)
         (send : MuulService.RemoteRequest -> World -> MuulService.SendOutcome * World)
         (credential : MuulService.CredentialEntry) (sql_text : string)
         (w w' : World) (props : list (string * JsVal))
         (first : JsVal) (others : list JsVal),
    send (MuulService.mkRequest "EXECUTE_REMOTE_QUERY"
            (MuulService.id credential) sql_text) w
    = (MuulService.Resolved (JObj props), w') ->
    truthy (lookup props "ok") = true ->
    truthy (lookup props "columns") = false \/ lookup props "columns" = JArr [] ->
    lookup props "rows" = JArr (first :: others) ->
    Forall (fun v => is_object v = true) (first :: others) ->
    exists result,
      MuulService.executeRemoteQuery (Some send) credential sql_text w = (Ok result, w')
      /\ MuulService.columns result = JArr (map JStr (keys first))
      /\ MuulService.rows result
         = JArr (map (fun obj => JArr (map (read obj) (keys first))) (first :: others))
      /\ MuulService.error result = JUndefined.
Proof.
  intros W send credential sql_text w w' props first others Hsend Hok Hcols Hrows Hobj.
  unfold MuulService.executeRemoteQuery. rewrite Hsend.
  unfold MuulService.handle_response.
  cbn [truthy get bind]. rewrite Hok.
  unfold MuulService.success. cbn [get bind]. rewrite Hrows.
  rewrite (infer_shape_objects (lookup props "columns") first others Hcols Hobj).
  cbn [bind].
  set (count := if truthy (lookup props "rowCount") then Ok (lookup props "rowCount")
                else _).
  assert (Hcount : exists n, count = Ok n).
  { subst count. destruct (truthy (lookup props "rowCount")); [eauto|].
    cbn. eauto. }
  destruct Hcount as [n ->]. cbn [bind].
  eexists. split; [reflexivity|]. cbn. repeat split; reflexivity.
Qed.

Lemma C3_column_inference_witness :
  exists result,
    MuulService.executeRemoteQuery (World := unit)
      (Some (fun _ w =>
               (MuulService.Resolved
                  (JObj [("ok", JBool true);
                         ("rows", JArr [JObj [("a", JNum 1); ("b", JStr "x")]])]), w)))
      (MuulService.mkCredential "c1" None) "SELECT a, b FROM t" tt
    = (Ok result, tt)
    /\ MuulService.columns result = JArr [JStr "a"; JStr "b"]
    /\ MuulService.rows result = JArr [JArr [JNum 1; JStr "x"]]
    /\ MuulService.error result = JUndefined.
Proof.
  apply (C3_column_inference unit
           (fun _ w =>
              (MuulService.Resolved
                 (JObj [("ok", JBool true);
                        ("rows", JArr [JObj [("a", JNum 1); ("b", JStr "x")]])]), w))
           (MuulService.mkCredential "c1" None) "SELECT a, b FROM t" tt tt
           [("ok", JBool true); ("rows", JArr [JObj [("a", JNum 1); ("b", JStr "x")]])]
           (JObj [("a", JNum 1); ("b", JStr "x")]) []).
  - reflexivity.
  - reflexivity.
  - left. reflexivity.
  - reflexivity.
  - repeat constructor.
Defined.

(** The round trip of the specification, evaluated: the whole result. *)
Example remote_reply_round_trip :
  MuulService.executeRemoteQuery (World := unit)
    (Some (fun _ w =>
             (MuulService.Resolved
                (JObj [("ok", JBool true);
                       ("rows", JArr [JObj [("a", JNum 1); ("b", JStr "x")]])]), w)))
    (MuulService.mkCredential "c1" None) "SELECT a, b FROM t" tt
  = (Ok (MuulService.mkResult (JArr [JStr "a"; JStr "b"])
           (JArr [JArr [JNum 1; JStr "x"]]) (JNum 1) (JNum 0) JUndefined JUndefined),
     tt).
Proof. reflexivity. Qed.

(** C4 fails on the code when the bridge rejects without a reason (for
    instance a timeout written as [setTimeout(reject, ms)]): the [catch]
    block reads [error.message] of [undefined], so [executeRemoteQuery]
    itself rejects instead of resolving with an [error] result. *)
Theorem C4_rejection_without_reason_escapes :
  forall (credential : MuulService.CredentialEntry) (sql_text : string),
    exists e,
      MuulService.executeRemoteQuery (World := unit)
        (Some (fun _ w => (MuulService.Rejected JUndefined, w)))
        credential sql_text tt
      = (Throw e, tt).
Proof. intros credential sql_text. eexists. reflexivity. Qed.

(* ------------------------------------------------------------------ *)
(** ** The foreign-key invariant of the schema sources *)
(* ------------------------------------------------------------------ *)

Section InvariantFacts.

Lemma fk_consistent_b_spec {V} (c : ColumnDefinition V) :
  fk_consistent_b c = true <-> fk_consistent c.
Proof.
  unfold fk_consistent_b, fk_consistent.
  destruct (isForeignKey c), (references c) as [r|]; simpl.
  - split; [intros _; split; [discriminate | reflexivity] | reflexivity].
  - split; [discriminate | intros [H _]; exfalso; apply (H eq_refl); reflexivity].
  - split; [discriminate | intros [_ H]; apply H; discriminate].
  - split; [intros _; split; [discriminate | intros H; exfalso; apply H; reflexivity]
           | reflexivity].
Qed.

Lemma schema_consistent_by_check {V} (s : DbSchema V) :
  forallb (fun t => forallb fk_consistent_b (t_columns t)) (tables s) = true ->
  schema_fk_consistent s.
Proof.
  intros H t Ht c Hc. apply fk_consistent_b_spec.
  rewrite forallb_forall in H. specialize (H t Ht).
  rewrite forallb_forall in H. exact (H c Hc).
Qed.

Lemma mapM_ok {A B} (f : A -> Res B) (P : B -> Prop) :
  (forall a b, f a = Ok b -> P b) ->
  forall xs ys, mapM f xs = Ok ys -> Forall P ys.
Proof.
  intros Hf. induction xs as [|x xs IH]; simpl; intros ys H.
  - injection H as <-. constructor.
  - destruct (f x) as [y|e] eqn:Ey; simpl in H; [|discriminate].
    destruct (mapM f xs) as [ys'|e] eqn:Eys; simpl in H; [|discriminate].
    injection H as <-. constructor; [exact (Hf x y Ey) | apply IH; reflexivity].
Qed.

Section Remote.

Import MuulService.

Variable World : Type.
Variable externalMessage_send : option (RemoteRequest -> World -> SendOutcome * World).
Variable coerced : JsVal -> bool.
Variable upper_unicode : string -> string.

Lemma await_ok {A B} (m : Async World A) (k : A -> Async World B) w b w' :
  await m k w = (Ok b, w') ->
  exists a w1, m w = (Ok a, w1) /\ k a w1 = (Ok b, w').
Proof.
  unfold await. destruct (m w) as [[a|e] w1]; [eauto | discriminate].
Qed.

Lemma remote_column_consistent dbTypeStr fksData colRow c :
  column_of coerced upper_unicode dbTypeStr fksData colRow = Ok c -> fk_consistent c.
Proof.
  unfold column_of. destruct (is_pk coerced upper_unicode dbTypeStr colRow); simpl; [|discriminate].
  intros [= <-]. apply fk_consistent_b_spec. unfold fk_consistent_b. simpl.
  destruct (find _ fksData); reflexivity.
Qed.

Lemma discover_table_consistent credential dbTypeStr dialect tableName w t w' :
  discover_table externalMessage_send coerced upper_unicode credential dbTypeStr dialect tableName w
  = (Ok (Some t), w') ->
  Forall fk_consistent (t_columns t).
Proof.
  unfold discover_table. intros H.
  apply await_ok in H. destruct H as [colsResult [w1 [_ H]]].
  destruct (truthy (error colsResult)); [discriminate|].
  apply await_ok in H. destruct H as [fksResult [w2 [_ H]]].
  unfold lift in H. injection H as H _.
  destruct (if truthy (error fksResult) then Ok [] else toObjects fksResult)
    as [fksData|]; simpl in H; [|discriminate].
  destruct (toObjects colsResult) as [colRows|]; simpl in H; [|discriminate].
  destruct (mapM (column_of coerced upper_unicode dbTypeStr fksData) colRows) as [cols|] eqn:Ecols;
    simpl in H; [|discriminate].
  injection H as <-. simpl.
  eapply mapM_ok; [|exact Ecols].
  intros a b. apply remote_column_consistent.
Qed.

Lemma discover_tables_consistent credential dbTypeStr dialect tableNames :
  forall w ts w',
    discover_tables externalMessage_send coerced upper_unicode credential dbTypeStr dialect
                    tableNames w = (Ok ts, w') ->
    Forall (fun t => Forall fk_consistent (t_columns t)) ts.
Proof.
  induction tableNames as [|tableName rest IH]; simpl; intros w ts w' H.
  - injection H as <- _. constructor.
  - apply await_ok in H. destruct H as [pushed [w1 [Hp H]]].
    apply await_ok in H. destruct H as [more [w2 [Hm H]]].
    injection H as <- _. specialize (IH _ _ _ Hm).
    destruct pushed as [t|]; [|exact IH].
    constructor; [|exact IH].
    exact (discover_table_consistent _ _ _ _ _ _ _ Hp).
Qed.

Lemma remote_schema_consistent credential w schema w' :
  getRemoteDatabaseSchema externalMessage_send coerced upper_unicode credential w = (Ok schema, w') ->
  schema_fk_consistent schema.
Proof.
  unfold getRemoteDatabaseSchema.
  assert (Hempty : schema_fk_consistent (mkSchema (V := JsVal) [])).
  { intros t []. }
  destruct (Dialects.DialectRegistry (dialect_tag credential)) as [dialect| |].
  - unfold discover_with. intros H.
    apply await_ok in H. destruct H as [tablesResult [w1 [_ H]]].
    destruct (truthy (error tablesResult) || negb (truthy (rows tablesResult))).
    + injection H as <- _. exact Hempty.
    + apply await_ok in H. destruct H as [tableObjects [w2 [_ H]]].
      apply await_ok in H. destruct H as [firstColName [w3 [_ H]]].
      apply await_ok in H. destruct H as [ts [w4 [Hts H]]].
      injection H as <- _.
      pose proof (discover_tables_consistent _ _ _ _ _ _ _ Hts) as Hall.
      rewrite Forall_forall in Hall.
      intros t Ht c Hc. specialize (Hall t Ht). rewrite Forall_forall in Hall.
      exact (Hall c Hc).
  - discriminate.
  - intros [= <- _]. exact Hempty.
Qed.

End Remote.

Section Embedded.

Import SqliteEngine.

Variable Db : Type.
Variable db_exec : Db -> string -> Res (list ExecResult) * Db.
Variable coerced : JsVal -> bool.
Variable upper_unicode : string -> string.

Lemma embedded_column_consistent fks row :
  fk_consistent (column_of coerced fks row).
Proof.
  apply fk_consistent_b_spec. unfold column_of, fk_consistent_b. simpl.
  destruct (find _ fks); reflexivity.
Qed.

Lemma introspect_table_consistent db tableName t db' :
  introspect_table db_exec coerced db tableName = (Ok t, db') ->
  Forall fk_consistent (t_columns t).
Proof.
  unfold introspect_table.
  destruct (db_exec db _) as [[colsRes|] db1]; [|discriminate].
  destruct (db_exec db1 _) as [[fkRes|] db2]; [|discriminate].
  destruct colsRes as [|r colsRes]; [discriminate|].
  intros [= <- _]. simpl. apply Forall_forall. intros c Hc.
  apply in_map_iff in Hc. destruct Hc as [row [<- _]].
  apply embedded_column_consistent.
Qed.

Lemma introspect_tables_consistent tableNames :
  forall db ts db',
    introspect_tables db_exec coerced db tableNames = (Ok ts, db') ->
    Forall (fun t => Forall fk_consistent (t_columns t)) ts.
Proof.
  induction tableNames as [|tableName rest IH]; simpl; intros db ts db' H.
  - injection H as <- _. constructor.
  - destruct (introspect_table db_exec coerced db tableName) as [[t|] db1] eqn:Et;
      [|discriminate].
    destruct (introspect_tables db_exec coerced db1 rest) as [[ts'|] db2] eqn:Ets;
      [|discriminate].
    injection H as <- _. constructor.
    + exact (introspect_table_consistent _ _ _ _ Et).
    + exact (IH _ _ _ Ets).
Qed.

Lemma embedded_schema_consistent instance :
  schema_fk_consistent (fst (getSchema db_exec coerced instance)).
Proof.
  assert (Hempty : schema_fk_consistent (mkSchema (V := JsVal) [])).
  { intros t []. }
  unfold getSchema. destruct instance as [db|]; [|exact Hempty].
  destruct (read_schema db_exec coerced db) as [[schema|] db1] eqn:E; [|exact Hempty].
  simpl. unfold read_schema in E.
  destruct (db_exec db tables_query) as [[[|r rs]|] db0]; try discriminate.
  - injection E as <- _. exact Hempty.
  - destruct (introspect_tables db_exec coerced db0 (concat (values r)))
      as [[ts|] db2] eqn:Ets; [|discriminate].
    injection E as <- _.
    pose proof (introspect_tables_consistent _ _ _ _ Ets) as Hall.
    rewrite Forall_forall in Hall.
    intros t Ht c Hc. specialize (Hall t Ht). rewrite Forall_forall in Hall.
    exact (Hall c Hc).
Qed.

End Embedded.

Lemma mongo_schema_consistent dbId : schema_fk_consistent (MongoEngine.getSchema dbId).
Proof. apply schema_consistent_by_check. vm_compute. reflexivity. Qed.

Lemma mock_schema_consistent dbId : schema_fk_consistent (MockEngine.getSchema dbId).
Proof.
  apply schema_consistent_by_check. unfold MockEngine.getSchema.
  destruct (String.eqb dbId "db-mssql"); reflexivity.
Qed.

End InvariantFacts.

Example sample_discovery :
  MuulService.getRemoteDatabaseSchema (Some SampleBridge.send)
    SampleBridge.no_coercion SampleBridge.no_case_table SampleBridge.credential 0
  = (Ok SampleBridge.expected, 6).
Proof. vm_compute. reflexivity. Qed.

(** C7: in every schema a source produces, a column is flagged as a
    foreign key exactly when it carries a reference.  The sources are
    [MongoEngine.getSchema], the embedded engine's [getSchema] (over any
    behaviour of the database library) and the remote discovery (over any
    bridge, whenever it returns a schema); the canned schemas of
    [MockEngine.getSchema] satisfy it as well. *)
Theorem C7_foreign_key_flag :
  (forall dbId, schema_fk_consistent (MongoEngine.getSchema dbId))
  /\ (forall dbId, schema_fk_consistent (MockEngine.getSchema dbId))
  /\ (forall (Db : Type)
             (db_exec : Db -> string -> Res (list SqliteEngine.ExecResult) * Db)
             (coerced : JsVal -> bool) (instance : option Db),
         schema_fk_consistent (fst (SqliteEngine.getSchema db_exec coerced instance)))
  /\ (forall (World : Type)
             (send : option (MuulService.RemoteRequest -> World
                             -> MuulService.SendOutcome * World))
             (coerced : JsVal -> bool) (upper_unicode : string -> string)
             (credential : MuulService.CredentialEntry)
             (w w' : World) (schema : DbSchema JsVal),
         MuulService.getRemoteDatabaseSchema send coerced upper_unicode credential w
         = (Ok schema, w') ->
         schema_fk_consistent schema).
Proof.
  split; [|split; [|split]].
  - exact mongo_schema_consistent.
  - exact mock_schema_consistent.
  - exact embedded_schema_consistent.
  - intros W send coerced upper_unicode credential w w' schema H.
    exact (remote_schema_consistent W send coerced upper_unicode credential
             w schema w' H).
Qed.

Lemma C7_foreign_key_flag_witness : schema_fk_consistent SampleBridge.expected.
Proof.
  destruct C7_foreign_key_flag as [_ [_ [_ H]]].
  apply (H nat (Some SampleBridge.send) SampleBridge.no_coercion
           SampleBridge.no_case_table SampleBridge.credential 0 6).
  vm_compute. reflexivity.
Defined.

(* ------------------------------------------------------------------ *)
(** ** Partial failure of the remote discovery *)
(* ------------------------------------------------------------------ *)

Section DiscoveryFacts.

Import MuulService.

Variable World : Type.
Variable externalMessage_send : option (RemoteRequest -> World -> SendOutcome * World).
Variable coerced : JsVal -> bool.
Variable upper_unicode : string -> string.
Variable credential : CredentialEntry.
Variable dbTypeStr : string.
Variable dialect : Dialects.DialectDefinition.

#[local] Abbreviation query := (executeRemoteQuery externalMessage_send credential).
#[local] Abbreviation one_table :=
  (discover_table externalMessage_send coerced upper_unicode credential dbTypeStr dialect).
#[local] Abbreviation all_tables :=
  (discover_tables externalMessage_send coerced upper_unicode credential dbTypeStr dialect).

Lemma await_ret {A} (m : Async World A) w : await m (@ret World A) w = m w.
Proof. unfold await, ret. destruct (m w) as [[a|e] w1]; reflexivity. Qed.




(** The loop over one more table. *)
Lemma all_tables_cons tableName rest w pushed w1 :
  one_table tableName w = (Ok pushed, w1) ->
  all_tables (tableName :: rest) w
  = match all_tables rest w1 with
    | (Ok more, w2) =>
        (Ok (match pushed with Some t => t :: more | None => more end), w2)
    | (Throw e, w2) => (Throw e, w2)
    end.
Proof. intros H. simpl. unfold await at 1. rewrite H. reflexivity. Qed.

Lemma columns_built fksData colRows :
  Forall (fun row => exists b, is_pk coerced upper_unicode dbTypeStr row = Ok b) colRows ->
  exists cols, mapM (column_of coerced upper_unicode dbTypeStr fksData) colRows = Ok cols.
Proof.
  induction 1 as [|row colRows [b Hb] _ [cols IH]]; simpl; [eauto|].
  unfold column_of at 1. rewrite Hb. simpl. rewrite IH. simpl. eauto.
Qed.

(** When every query is answered, one table never makes the loop throw. *)
Lemma one_table_returns tableName w :
  (forall sql_text w0, answered coerced upper_unicode dbTypeStr (query sql_text w0)) ->
  exists pushed w1, one_table tableName w = (Ok pushed, w1).
Proof.
  intros Hall. unfold discover_table, await.
  destruct (Hall (Dialects.getColumns dialect (to_string tableName)) w)
    as [rc [w1 [-> Hrc]]].
  destruct (truthy (error rc)) eqn:Ec; [unfold ret; eauto|].
  destruct Hrc as [Hrc|[colRows [HcolRows [_ Hpk]]]]; [discriminate|].
  destruct (Hall (Dialects.getForeignKeys dialect (to_string tableName)) w1)
    as [rf [w2 [-> Hrf]]].
  unfold lift.
  assert (Hfks : exists fksData,
             (if truthy (error rf) then Ok [] else toObjects rf) = Ok fksData).
  { destruct (truthy (error rf)) eqn:Ef; [eauto|].
    destruct Hrf as [Hrf|[objs [Hobjs _]]]; [discriminate | eauto]. }
  destruct Hfks as [fksData ->]. simpl. rewrite HcolRows. simpl.
  destruct (columns_built fksData colRows Hpk) as [cols ->]. simpl. eauto.
Qed.

Lemma all_tables_return tableNames :
  (forall sql_text w0, answered coerced upper_unicode dbTypeStr (query sql_text w0)) ->
  forall w, exists ts w', all_tables tableNames w = (Ok ts, w').
Proof.
  intros Hall. induction tableNames as [|tableName rest IH]; intros w.
  - simpl. unfold ret. eauto.
  - destruct (one_table_returns tableName w Hall) as [pushed [w1 Hp]].
    rewrite (all_tables_cons tableName rest w pushed w1 Hp).
    destruct (IH w1) as [more [w2 ->]]. eauto.
Qed.



End DiscoveryFacts.





(** On the sample bridge the discovery keeps [orders] with its edge,
    leaves [broken] out, and keeps [customers] without edges. *)
Example sample_resolved :
  exists kept,
    DiscoverySpec.resolved (Some SampleBridge.send) SampleBridge.credential
      Dialects.sqlite 1 [JStr "orders"; JStr "broken"; JStr "customers"] kept 6
    /\ kept = [(JStr "orders", false); (JStr "customers", true)]
    /\ DiscoverySpec.tables_as_resolved SampleBridge.expected kept.
Proof.
  eexists. split; [|split].
  - eapply DiscoverySpec.resolved_kept;
      [vm_compute; reflexivity | vm_compute; reflexivity
       | vm_compute; reflexivity |].
    eapply DiscoverySpec.resolved_omitted;
      [vm_compute; reflexivity | vm_compute; reflexivity |].
    eapply DiscoverySpec.resolved_kept;
      [vm_compute; reflexivity | vm_compute; reflexivity
       | vm_compute; reflexivity |].
    apply DiscoverySpec.resolved_none.
  - vm_compute. reflexivity.
  - unfold DiscoverySpec.tables_as_resolved, DiscoverySpec.no_edges.
    repeat constructor; try discriminate.
Qed.

(* ------------------------------------------------------------------ *)
(** ** Importing a delimited-text file *)
(* ------------------------------------------------------------------ *)

Section ImportFacts.

Import SqliteEngine SqlJsModel.

Lemma append_assoc_s (a b c : string) : (a ++ b) ++ c = a ++ (b ++ c).
Proof. induction a as [|x a IH]; simpl; [reflexivity | rewrite IH; reflexivity]. Qed.

Lemma underscore_others_no_quote :
  forall c, Ascii.eqb (underscore_others c) "034"%char = false.
Proof. intros c; destruct c as [[] [] [] [] [] [] [] []]; vm_compute; reflexivity. Qed.

Lemma no_quote_replaced filename :
  no_quote (map_chars underscore_others filename) = true.
Proof.
  induction filename as [|c s IH]; simpl; [reflexivity|].
  rewrite underscore_others_no_quote, IH. reflexivity.
Qed.

Lemma no_quote_drop_suffix suffix s :
  forall r, no_quote s = true -> drop_suffix suffix s = Some r -> no_quote r = true.
Proof.
  induction s as [|c s IH]; intros r Hs; simpl.
  - destruct (equal_ignoring_case "" suffix); [|discriminate].
    intros [= <-]. reflexivity.
  - destruct (equal_ignoring_case (String c s) suffix); [intros [= <-]; reflexivity|].
    destruct (drop_suffix suffix s) as [r'|] eqn:E; simpl; [|discriminate].
    intros [= <-]. simpl in *. apply andb_true_iff in Hs. destruct Hs as [Hc Hs].
    rewrite Hc. simpl. apply IH; [exact Hs | reflexivity].
Qed.

(** A sanitized table name contains no double quote. *)
Lemma no_quote_sanitized filename : no_quote (sanitizeTableName filename) = true.
Proof.
  unfold sanitizeTableName.
  pose proof (no_quote_replaced filename) as H.
  destruct (drop_suffix "_csv" _) eqn:E1; [exact (no_quote_drop_suffix _ _ _ H E1)|].
  destruct (drop_suffix "_json" _) eqn:E2; [exact (no_quote_drop_suffix _ _ _ H E2)|].
  destruct (drop_suffix "_parquet" _) eqn:E3; [exact (no_quote_drop_suffix _ _ _ H E3)|].
  exact H.
Qed.

Lemma read_name_quoted n rest :
  no_quote n = true -> read_name (n ++ String "034"%char rest) = Some (n, rest).
Proof.
  induction n as [|c n IH]; simpl; intros H; [reflexivity|].
  apply andb_true_iff in H. destruct H as [Hc Hn].
  apply negb_true_iff in Hc. rewrite Hc, (IH Hn). reflexivity.
Qed.

(** The text after a quoted name, with the closing quote put in front. *)
Lemma quoted_then n rest :
  quoted n ++ rest = String "034"%char (n ++ String "034"%char rest).
Proof. unfold quoted, dq. simpl. rewrite append_assoc_s. reflexivity. Qed.

Lemma same_name n : equal_ignoring_case n n = true.
Proof. unfold equal_ignoring_case. apply String.eqb_refl. Qed.

Lemma find_stored_head n cols rws rest :
  find_stored (mkStored n cols rws :: rest) n = Some (mkStored n cols rws).
Proof. unfold find_stored. cbn [find stored_name]. rewrite same_name. reflexivity. Qed.

Lemma reserved_is_like n : like_sqlite n = false -> reserved n = false.
Proof.
  unfold like_sqlite, reserved, equal_ignoring_case.
  destruct n as [|c1 [|c2 [|c3 [|c4 [|c5 [|c6 [|c7 n]]]]]]]; try reflexivity;
    cbn; intros H;
    repeat match goal with
           | |- context [Ascii.eqb ?a ?b] => destruct (Ascii.eqb a b)
           end;
    try reflexivity; try discriminate.
Qed.

End ImportFacts.

Section ImportScenario.

Import SqliteEngine SqlJsModel.

(** The table name: free of double quotes and not matching [sqlite_%]. *)
Variable n : string.
Hypothesis Hquote : no_quote n = true.
Hypothesis Hlike : like_sqlite n = false.

Lemma scenario_create :
  db_run db_new
    ("CREATE TABLE " ++ quoted n ++ " ("
     ++ join ", " (map (fun f => quoted f ++ " TEXT") ["id"; "name"]) ++ ");")
  = Ok [mkStored n scenario_columns []].
Proof.
  unfold db_run, db_exec. rewrite quoted_then. cbn -[read_name create_table].
  rewrite (read_name_quoted n _ Hquote). cbn -[create_table].
  unfold create_table. rewrite (reserved_is_like n Hlike). reflexivity.
Qed.

Lemma scenario_prepare rws :
  db_prepare [mkStored n scenario_columns rws]
    ("INSERT INTO " ++ quoted n ++ " VALUES ("
     ++ join ", " (map (fun _ : string => "?") ["id"; "name"]) ++ ")")
  = Ok (mkStatement n 2).
Proof.
  unfold db_prepare. rewrite quoted_then. cbn -[read_name find_stored].
  rewrite (read_name_quoted n _ Hquote). cbn -[find_stored].
  rewrite find_stored_head. reflexivity.
Qed.

Lemma scenario_insert v :
  v = JNum 1 \/ v = JStr "1" ->
  stmt_run [mkStored n scenario_columns []] (mkStatement n 2) [v; JStr "Alice"]
  = Ok [scenario_table n].
Proof.
  intros Hv. unfold stmt_run. cbn -[find_stored mapM append_row].
  rewrite find_stored_head.
  assert (Hrow : mapM as_text [v; JStr "Alice"] = Ok [JStr "1"; JStr "Alice"]).
  { destruct Hv as [-> | ->]; reflexivity. }
  rewrite Hrow. cbn [bind append_row target stored_name].
  rewrite same_name. reflexivity.
Qed.

Lemma scenario_catalogue :
  db_exec [scenario_table n] tables_query
  = (Ok [mkExec ["name"] [[JStr n]]], [scenario_table n]).
Proof.
  unfold db_exec. cbn -[like_sqlite].
  rewrite Hlike. reflexivity.
Qed.

Lemma scenario_table_info :
  db_exec [scenario_table n] ("PRAGMA table_info(" ++ quoted (to_string (JStr n)) ++ ")")
  = (Ok [mkExec ["cid"; "name"; "type"; "notnull"; "dflt_value"; "pk"]
           [[JNum 0; JStr "id"; JStr "TEXT"; JNum 0; JNull; JNum 0];
            [JNum 1; JStr "name"; JStr "TEXT"; JNum 0; JNull; JNum 0]]],
     [scenario_table n]).
Proof.
  unfold db_exec. cbn [to_string]. rewrite quoted_then. cbn -[read_name find_stored].
  rewrite (read_name_quoted n _ Hquote). cbn -[find_stored].
  unfold scenario_table. rewrite find_stored_head. reflexivity.
Qed.

Lemma scenario_foreign_keys :
  db_exec [scenario_table n]
    ("PRAGMA foreign_key_list(" ++ quoted (to_string (JStr n)) ++ ")")
  = (Ok [], [scenario_table n]).
Proof.
  unfold db_exec. cbn [to_string]. rewrite quoted_then. cbn -[read_name].
  rewrite (read_name_quoted n _ Hquote). reflexivity.
Qed.

Lemma append_empty (s : string) : s ++ "" = s.
Proof. induction s as [|c s IH]; simpl; [reflexivity | rewrite IH; reflexivity]. Qed.

Lemma scenario_select :
  db_exec [scenario_table n] ("SELECT * FROM " ++ quoted n)
  = (Ok [mkExec ["id"; "name"] [[JStr "1"; JStr "Alice"]]], [scenario_table n]).
Proof.
  unfold db_exec. rewrite <- (append_empty (quoted n)).
  rewrite quoted_then. cbn -[read_name find_stored].
  rewrite (read_name_quoted n _ Hquote). cbn -[find_stored].
  unfold scenario_table. rewrite find_stored_head. reflexivity.
Qed.

End ImportScenario.

Section ImportTheorem.

Import SqliteEngine SqlJsModel.

Lemma endsWith_last suffix s :
  suffix <> "" -> endsWith suffix s = true -> last_char s = last_char suffix.
Proof.
  intros Hne. destruct suffix as [|a suffix]; [congruence|].
  induction s as [|c s IH]; [discriminate|].
  cbn [endsWith]. intros H. apply orb_true_iff in H. destruct H as [H|H].
  - apply String.eqb_eq in H. rewrite <- H. reflexivity.
  - rewrite <- (IH H). destruct s as [|d s']; [discriminate H | reflexivity].
Qed.

(** A name that ends in [.csv] ends neither in [.sqlite] nor in [.db]. *)
Lemma csv_is_not_a_container filename :
  endsWith ".csv" filename = true ->
  endsWith ".sqlite" filename || endsWith ".db" filename = false.
Proof.
  intros H. apply endsWith_last in H; [|discriminate].
  apply orb_false_iff. split.
  - destruct (endsWith ".sqlite" filename) eqn:E; [|reflexivity].
    apply endsWith_last in E; [|discriminate]. rewrite H in E. discriminate E.
  - destruct (endsWith ".db" filename) eqn:E; [|reflexivity].
    apply endsWith_last in E; [|discriminate]. rewrite H in E. discriminate E.
Qed.

Example sanitized_names :
  map sanitizeTableName ["people.csv"; "my data (1).csv"; "a.b.JSON"; "x.parquet"; "notes.txt"]
  = ["people"; "my_data__1_"; "a_b"; "x"; "notes_txt"].
Proof. reflexivity. Qed.

Lemma exec_begin db : db_exec db "BEGIN TRANSACTION" = (Ok [], db).
Proof. reflexivity. Qed.

Lemma exec_commit db : db_exec db "COMMIT" = (Ok [], db).
Proof. reflexivity. Qed.

Lemma scenario_import parse file v :
  endsWith ".csv" (file_name file) = true ->
  parse (file_text file)
  = mkParsed (Some ["id"; "name"]) [JObj [("id", v); ("name", JStr "Alice")]] ->
  v = JNum 1 \/ v = JStr "1" ->
  like_sqlite (sanitizeTableName (file_name file)) = false ->
  import parse file = Ok ([scenario_table (sanitizeTableName (file_name file))], "sqlite").
Proof.
  intros Hcsv Hparse Hv Hlike.
  pose proof (no_quote_sanitized (file_name file)) as Hquote.
  unfold import, createDatabaseFromFile.
  rewrite (csv_is_not_a_container _ Hcsv), Hcsv, Hparse. cbn [fields data].
  unfold importDataToTable.
  rewrite (scenario_create _ Hquote Hlike). cbn [bind].
  rewrite (scenario_prepare _ Hquote). cbn [bind].
  unfold exec_only. rewrite exec_begin. cbn [bind insert_rows].
  assert (Hvals : row_values ["id"; "name"] (JObj [("id", v); ("name", JStr "Alice")])
                  = Ok [v; JStr "Alice"]).
  { destruct Hv as [-> | ->]; reflexivity. }
  rewrite Hvals. cbn [bind].
  rewrite (scenario_insert _ v Hv). cbn [bind].
  rewrite exec_commit. reflexivity.
Qed.

Lemma scenario_schema coerced n :
  no_quote n = true -> like_sqlite n = false ->
  schema_of coerced [scenario_table n]
  = mkSchema [mkTable (JStr n) [text_column "id"; text_column "name"]].
Proof.
  intros Hquote Hlike. unfold schema_of, getSchema, read_schema.
  rewrite (scenario_catalogue _ Hlike).
  cbn [values concat app introspect_tables]. unfold introspect_table.
  rewrite (scenario_table_info _ Hquote), (scenario_foreign_keys _ Hquote).
  reflexivity.
Qed.

Lemma scenario_rows n :
  no_quote n = true ->
  select_all [scenario_table n] n
  = Ok (mkResult ["id"; "name"] [[JStr "1"; JStr "Alice"]] 1 JUndefined).
Proof.
  intros Hquote. unfold select_all, executeQuery.
  rewrite (scenario_select _ Hquote). reflexivity.
Qed.

End ImportTheorem.

(** Outside the names that the catalogue query hides, the import does
    what the scenario says: a [.csv] file that the parser reads as the
    header [id,name] and the single row [1,Alice] gives an instance whose
    schema is exactly one table, named by sanitizing the file name, with
    the two columns [id] and [name], both of type [TEXT] and neither
    primary nor foreign key, and on which [SELECT *] from the quoted table
    name returns exactly the row [["1","Alice"]]. *)
Lemma csv_import_scenario :
  forall (parse : string -> SqliteEngine.ParseResult) (coerced : JsVal -> bool)
         (file : SqliteEngine.File) (v : JsVal),
    endsWith ".csv" (SqliteEngine.file_name file) = true ->
    parse (SqliteEngine.file_text file)
    = SqliteEngine.mkParsed (Some ["id"; "name"])
        [JObj [("id", v); ("name", JStr "Alice")]] ->
    v = JNum 1 \/ v = JStr "1" ->
    SqlJsModel.like_sqlite (SqliteEngine.sanitizeTableName (SqliteEngine.file_name file))
    = false ->
    let tableName := SqliteEngine.sanitizeTableName (SqliteEngine.file_name file) in
    exists db,
      SqlJsModel.import parse file = Ok (db, "sqlite")
      /\ SqlJsModel.schema_of coerced db
         = mkSchema [mkTable (JStr tableName)
                       [SqlJsModel.text_column "id"; SqlJsModel.text_column "name"]]
      /\ SqlJsModel.select_all db tableName
         = Ok (SqliteEngine.mkResult ["id"; "name"] [[JStr "1"; JStr "Alice"]] 1
                 JUndefined).
Proof.
  intros parse coerced file v Hcsv Hparse Hv Hlike tableName.
  pose proof (no_quote_sanitized (SqliteEngine.file_name file)) as Hquote.
  exists [SqlJsModel.scenario_table tableName]. split; [|split].
  - exact (scenario_import parse file v Hcsv Hparse Hv Hlike).
  - exact (scenario_schema coerced tableName Hquote Hlike).
  - exact (scenario_rows tableName Hquote).
Qed.

Example csv_import_people :
  exists db,
    SqlJsModel.import SqlJsModel.scenario_parse
      (SqliteEngine.mkFile "people.csv" SqlJsModel.scenario_text)
    = Ok (db, "sqlite")
    /\ SqlJsModel.schema_of (fun _ => false) db
       = mkSchema [mkTable (JStr "people")
                     [SqlJsModel.text_column "id"; SqlJsModel.text_column "name"]]
    /\ SqlJsModel.select_all db "people"
       = Ok (SqliteEngine.mkResult ["id"; "name"] [[JStr "1"; JStr "Alice"]] 1
               JUndefined).
Proof.
  apply (csv_import_scenario SqlJsModel.scenario_parse (fun _ => false)
           (SqliteEngine.mkFile "people.csv" SqlJsModel.scenario_text) (JNum 1)).
  - reflexivity.
  - reflexivity.
  - left. reflexivity.
  - reflexivity.
Qed.

(** C8: the import of the file [sqlitedata.csv], with the header [id,name]
    and the row [1,Alice].  The table [sqlitedata] is created and holds the
    row, but the schema of the instance shows no table: the catalogue query
    of [getSchema] filters with [name NOT LIKE 'sqlite_%'], where [_]
    stands for any one character, so the filter meant for the tables the
    library keeps for itself also hides this one. *)
Theorem C8_hidden_table_name :
  exists db,
    SqlJsModel.import SqlJsModel.scenario_parse
      (SqliteEngine.mkFile "sqlitedata.csv" SqlJsModel.scenario_text)
    = Ok (db, "sqlite")
    /\ SqliteEngine.sanitizeTableName "sqlitedata.csv" = "sqlitedata"
    /\ SqlJsModel.select_all db "sqlitedata"
       = Ok (SqliteEngine.mkResult ["id"; "name"] [[JStr "1"; JStr "Alice"]] 1
               JUndefined)
    /\ tables (SqlJsModel.schema_of (fun _ => false) db) = []
    /\ ~ (exists t, tables (SqlJsModel.schema_of (fun _ => false) db) = [t]).
Proof.
  eexists. split; [vm_compute; reflexivity|].
  split; [reflexivity|]. split; [vm_compute; reflexivity|].
  split; [vm_compute; reflexivity|].
  intros [t Ht]. vm_compute in Ht. discriminate Ht.
Qed.

(* ================================================================== *)
(** * Further properties of the code *)
(* ================================================================== *)

(* ------------------------------------------------------------------ *)
(** ** The table names found in the statement text *)
(* ------------------------------------------------------------------ *)

Section TokenFacts.

Import JoinInference JoinOutcome.

Lemma existsb_eqb_In x seen :
  existsb (String.eqb x) seen = true <-> In x seen.
Proof.
  rewrite existsb_exists. split.
  - intros [y [Hy He]]. apply String.eqb_eq in He. subst. exact Hy.
  - intros H. exists x. split; [exact H | apply String.eqb_refl].
Qed.

Lemma dedup_spec xs : forall seen,
  NoDup (dedup seen xs)
  /\ (forall x, In x (dedup seen xs) <-> In x xs /\ ~ In x seen).
Proof.
  induction xs as [|y xs IH]; intros seen; simpl.
  - split; [constructor | intros x; tauto].
  - destruct (existsb (String.eqb y) seen) eqn:E.
    + apply existsb_eqb_In in E. destruct (IH seen) as [Hn Hi].
      split; [exact Hn|]. intros x. rewrite Hi. split.
      * intros [H1 H2]. auto.
      * intros [[<- | H1] H2]; [contradiction | auto].
    + assert (Hy : ~ In y seen).
      { intros H. apply existsb_eqb_In in H. congruence. }
      destruct (IH (y :: seen)) as [Hn Hi]. split.
      * constructor; [|exact Hn]. rewrite Hi. simpl. tauto.
      * intros x. simpl. rewrite Hi. simpl. split.
        -- intros [<- | [H1 H2]]; [auto | split; [auto | tauto]].
        -- intros [[<- | H1] H2]; [auto|].
           destruct (string_dec y x) as [-> | Hne]; [auto | right; tauto].
Qed.

Lemma flush_tokens cur acc :
  (forall c, In c cur -> is_word_char c = true) ->
  Forall word_token acc -> Forall word_token (flush cur acc).
Proof.
  intros Hcur Hacc. destruct cur as [|c cur]; [exact Hacc|].
  unfold flush. constructor; [|exact Hacc]. split.
  - intros H. apply (f_equal list_ascii_of_string) in H.
    rewrite list_ascii_of_string_of_list_ascii in H. simpl in H.
    destruct (rev cur); discriminate H.
  - intros x Hx. rewrite list_ascii_of_string_of_list_ascii in Hx.
    apply in_rev in Hx. apply Hcur. exact Hx.
Qed.

Lemma word_runs_tokens s : forall cur,
  (forall c, In c cur -> is_word_char c = true) ->
  Forall word_token (word_runs s cur).
Proof.
  induction s as [|c s IH]; intros cur Hcur; simpl.
  - apply flush_tokens; [exact Hcur | constructor].
  - destruct (is_word_char c) eqn:E.
    + apply IH. intros x [<- | Hx]; [exact E | apply Hcur; exact Hx].
    + apply flush_tokens; [exact Hcur | apply IH; intros x []].
Qed.

Lemma in_flush x cur acc : In x acc -> In x (flush cur acc).
Proof. destruct cur; simpl; auto. Qed.

(** Tokens after a character that is not a word character do not depend on
    what precedes it. *)
Lemma word_runs_after pre : forall cur q rest x,
  is_word_char q = false ->
  In x (word_runs rest []) ->
  In x (word_runs (pre ++ String q rest) cur).
Proof.
  induction pre as [|c pre IH]; intros cur q rest x Hq Hx; simpl.
  - rewrite Hq. apply in_flush. exact Hx.
  - destruct (is_word_char c); [apply IH; assumption|].
    apply in_flush. apply IH; assumption.
Qed.

Lemma word_runs_word t : forall cur q rest,
  (forall c, In c (list_ascii_of_string t) -> is_word_char c = true) ->
  is_word_char q = false ->
  word_runs (t ++ String q rest) cur
  = flush (rev (list_ascii_of_string t) ++ cur) (word_runs rest []).
Proof.
  induction t as [|c t IH]; intros cur q rest Ht Hq; simpl.
  - rewrite Hq. reflexivity.
  - rewrite (Ht c (or_introl eq_refl)).
    rewrite IH; [| intros x Hx; apply Ht; right; exact Hx | exact Hq].
    rewrite <- app_assoc. reflexivity.
Qed.

End TokenFacts.

(** X1: the existing-table list read off the statement text contains no
    duplicate, and each of its entries is a non-empty run of the
    characters [A-Za-z0-9_$]. *)
Theorem X1_tokens_distinct_words :
  forall newSql : string,
    NoDup (JoinInference.existingTablesInSql newSql)
    /\ Forall (fun t => t <> ""
                        /\ forall c, In c (list_ascii_of_string t) ->
                                     JoinInference.is_word_char c = true)
              (JoinInference.existingTablesInSql newSql).
Proof.
  intros newSql. unfold JoinInference.existingTablesInSql.
  destruct (dedup_spec (JoinInference.word_runs newSql []) []) as [Hn Hi].
  split; [exact Hn|].
  pose proof (word_runs_tokens newSql [] (fun c H => match H with end)) as Hw.
  rewrite Forall_forall in *. intros t Ht. apply Hi in Ht. destruct Ht as [Ht _].
  exact (Hw t Ht).
Qed.

(** X2: a table name written between double quotes in the statement (the
    way the application itself writes table names) is always among the
    existing tables, provided the name is a non-empty run of word
    characters. *)
Theorem X2_quoted_table_is_found :
  forall (pre post t : string),
    t <> "" ->
    (forall c, In c (list_ascii_of_string t) -> JoinInference.is_word_char c = true) ->
    In t (JoinInference.existingTablesInSql (pre ++ quoted t ++ post)).
Proof.
  intros pre post t Hne Hw. unfold JoinInference.existingTablesInSql.
  apply (dedup_spec _ []). split; [|intros []].
  rewrite quoted_then.
  apply word_runs_after; [reflexivity|].
  rewrite word_runs_word; [| exact Hw | reflexivity].
  rewrite app_nil_r.
  destruct (rev (list_ascii_of_string t)) as [|c l] eqn:E.
  - exfalso. apply Hne. destruct t; [reflexivity|].
    apply (f_equal (@List.length ascii)) in E. rewrite length_rev in E.
    simpl in E. discriminate E.
  - unfold JoinInference.flush. left. rewrite <- E, rev_involutive.
    apply string_of_list_ascii_of_string.
Qed.

Lemma X2_quoted_table_is_found_witness :
  In "orders"
     (JoinInference.existingTablesInSql
        ("SELECT * FROM " ++ quoted "orders" ++ " LIMIT 100;")).
Proof.
  apply (X2_quoted_table_is_found "SELECT * FROM " " LIMIT 100;" "orders").
  - discriminate.
  - intros c Hc. simpl in Hc.
    repeat (destruct Hc as [<- | Hc]; [reflexivity|]). destruct Hc.
Defined.

(* ------------------------------------------------------------------ *)
(** ** What the drop handler proposes *)
(* ------------------------------------------------------------------ *)

Section ProposalFacts.

Import JoinInference JoinOutcome.

Variable activeSchema : DbSchema string.
Variable newTable_name : string.
Variable tableDef : TableDefinition string.

#[local] Abbreviation step' := (scan_step activeSchema newTable_name tableDef).
#[local] Abbreviation tier' := (tier activeSchema newTable_name tableDef).
#[local] Abbreviation candidate' := (candidate activeSchema newTable_name tableDef).
#[local] Abbreviation scan' := (scan activeSchema newTable_name tableDef).

Lemma candidate_new_table e j : candidate' e = Some j -> newTable j = tableDef.
Proof.
  unfold candidate, scan_step, scan_init. simpl.
  destruct (find_fk e (t_columns tableDef)); simpl.
  - intros [= <-]; reflexivity.
  - destruct (find_rev_fk newTable_name (find_table activeSchema e)); simpl.
    + intros [= <-]; reflexivity.
    + destruct (intersect tableDef (find_table activeSchema e)); simpl.
      * discriminate.
      * intros [= <-]; reflexivity.
Qed.

(** The join held by the loop is against a table already scanned. *)
Lemma fold_join_origin l : forall st,
  state_ok st ->
  (forall j, fst st = Some j -> newTable j = tableDef) ->
  forall j, fst (fold_left step' l st) = Some j ->
            newTable j = tableDef
            /\ (fst st = Some j \/ In (existingTable j) l).
Proof.
  induction l as [|e l IH]; simpl; intros st Hok Hnew j Hj.
  - split; [apply Hnew; exact Hj | left; exact Hj].
  - destruct (step_cases activeSchema newTable_name tableDef st e
                (state_ok_valid st Hok)) as [[Hs _]|[Hs [H2 _]]].
    + rewrite Hs in Hj. destruct (IH st Hok Hnew j Hj) as [H1 [H3|H3]]; auto.
    + rewrite Hs in Hj.
      destruct (IH (candidate' e, tier' e)
                   (candidate_ok activeSchema newTable_name tableDef e H2)
                   (fun j0 H => candidate_new_table e j0 H) j Hj) as [H1 [H3|H3]].
      * split; [exact H1|]. right. left. simpl in H3.
        symmetry. exact (candidate_existing activeSchema newTable_name tableDef e j H3).
      * auto.
Qed.

Lemma best_tier_none l :
  best_tier activeSchema newTable_name tableDef l = (-1)%Z
  <-> forall e, In e l -> tier' e = (-1)%Z.
Proof.
  unfold best_tier. split.
  - intros H e He.
    pose proof (fold_max_mem activeSchema newTable_name tableDef l (-1)%Z e He) as Hle.
    destruct (tier_valid activeSchema newTable_name tableDef e) as [?|[?|[?|?]]]; lia.
  - intros H.
    pose proof (fold_max_ge activeSchema newTable_name tableDef l (-1)%Z) as Hge.
    pose proof (fold_max_bound activeSchema newTable_name tableDef l (-1)%Z (-1)%Z
                  ltac:(lia)
                  (fun x Hx => ltac:(rewrite (H x Hx); lia))) as Hle.
    lia.
Qed.

End ProposalFacts.

(** X3: the scan over the existing tables proposes no join exactly when no
    existing table qualifies in any tier; when it proposes one, the join is
    for the dropped table and against a table of the existing list. *)
Theorem X3_join_proposed_iff_candidate :
  forall (activeSchema : DbSchema string) (newTable_name : string)
         (tableDef : TableDefinition string) (existing : list string),
    let result := JoinInference.scan activeSchema newTable_name tableDef existing in
    (fst result = None
     <-> forall e, In e existing ->
                   JoinInference.tier activeSchema newTable_name tableDef e = (-1)%Z)
    /\ (forall j, fst result = Some j ->
                  JoinInference.newTable j = tableDef
                  /\ In (JoinInference.existingTable j) existing).
Proof.
  intros S n d existing result. subst result. split.
  - rewrite <- best_tier_none, <- scan_score.
    pose proof (scan_ok S n d existing) as Hok.
    unfold JoinInference.state_ok in Hok.
    destruct (JoinInference.scan S n d existing) as [[j|] s]; cbn [fst snd] in *.
    + split; [discriminate | intros ->; exfalso].
      destruct Hok as [[H _]|[[H|H] _]]; lia.
    + split; [intros _; exact Hok | reflexivity].
  - intros j Hj.
    destruct (fold_join_origin S n d existing JoinInference.scan_init
                (init_ok) (fun j0 H => ltac:(discriminate H)) j Hj) as [H1 [H2|H2]].
    + discriminate H2.
    + split; assumption.
Qed.

Lemma X3_join_proposed_iff_candidate_witness :
  exists j,
    fst (JoinInference.scan JoinInference.shop "orders" JoinInference.orders
           ["FROM"; "customers"]) = Some j
    /\ JoinInference.newTable j = JoinInference.orders
    /\ In (JoinInference.existingTable j) ["FROM"; "customers"].
Proof.
  destruct (X3_join_proposed_iff_candidate JoinInference.shop "orders"
              JoinInference.orders ["FROM"; "customers"]) as [_ H].
  eexists. split; [reflexivity|]. apply H. reflexivity.
Defined.

Section DropFacts.

Import JoinInference JoinOutcome.



End DropFacts.



(** Three drops on the text [SELECT * FROM "customers"], over the shop
    schema extended with a table [notes] that shares no column with the
    others.  [orders] alone opens the join builder on its declared key;
    [notes] alone appends its statement; both together open the join
    builder, and the statement of [notes] is not written. *)
Example drop_examples :
  let schema :=
    mkSchema [JoinInference.customers; JoinInference.orders;
              mkTable "notes" [JoinInference.plain "body" "text" false]] in
  let text := "SELECT * FROM " ++ quoted "customers" in
  let join :=
    JoinInference.mkJoin JoinInference.orders "customers"
      (JoinSpec.equality "orders" "customer_id" "customers" "id") false in
  JoinInference.handleEditorDrop schema "db-1" "[...]" "db-1" ["orders"] text
  = JoinInference.OpenJoinBuilder [join]
  /\ JoinInference.handleEditorDrop schema "db-1" "[...]" "db-1" ["notes"] text
     = JoinInference.UpdateTabContent
         (text ++ nl ++ nl ++ "SELECT * FROM " ++ quoted "notes" ++ " LIMIT 100;")
  /\ JoinInference.handleEditorDrop schema "db-1" "[...]" "db-1" ["orders"; "notes"] text
     = JoinInference.OpenJoinBuilder [join]
  /\ JoinInference.handleEditorDrop schema "db-1" "[...]" "db-2" ["orders"] text
     = JoinInference.Ignored
  /\ JoinInference.handleEditorDrop schema "db-1" "[...]" "db-1" ["orders"; "notes"] ""
     = JoinInference.UpdateTabContent
         ("SELECT * FROM " ++ quoted "orders" ++ " LIMIT 100;" ++ nl ++ nl
          ++ "SELECT * FROM " ++ quoted "notes" ++ " LIMIT 100;").
Proof. repeat split; reflexivity. Qed.

(* ------------------------------------------------------------------ *)
(** ** What [executeRemoteQuery] resolves with *)
(* ------------------------------------------------------------------ *)

Section RemoteOutcomeFacts.

Import MuulService RemoteShape.

Lemma bind_throw {A B} (r : Res A) (k : A -> Res B) e :
  bind r k = Throw e -> r = Throw e \/ exists a, r = Ok a /\ k a = Throw e.
Proof. destruct r as [a|e0]; simpl; [eauto | intros [= ->]; auto]. Qed.

Lemma bind_ok {A B} (r : Res A) (k : A -> Res B) b :
  bind r k = Ok b -> exists a, r = Ok a /\ k a = Ok b.
Proof. destruct r as [a|e0]; simpl; [eauto | discriminate]. Qed.

Lemma get_throw v key e : get v key = Throw e -> exists msg, e = TypeError msg.
Proof.
  destruct v; simpl; try discriminate;
    try (intros [= <-]; eauto);
    destruct (String.eqb key "length"); discriminate.
Qed.

Lemma get_opt_throw v key e : get_opt v key = Throw e -> exists msg, e = TypeError msg.
Proof.
  destruct v; simpl; try discriminate;
    destruct (String.eqb key "length"); discriminate.
Qed.

Lemma mapM_throw {A B} (f : A -> Res B) xs e :
  mapM f xs = Throw e -> exists x, In x xs /\ f x = Throw e.
Proof.
  induction xs as [|x xs IH]; simpl; [discriminate|].
  intros H. apply bind_throw in H. destruct H as [H|[y [_ H]]].
  - exists x. auto.
  - apply bind_throw in H. destruct H as [H|[ys [_ H]]]; [|discriminate].
    destruct (IH H) as [x' [Hin Hx]]. exists x'. auto.
Qed.

Lemma infer_shape_throw c r e :
  infer_shape c r = Throw e -> exists msg, e = TypeError msg.
Proof.
  unfold infer_shape. intros H. apply bind_throw in H.
  destruct H as [H|[len [_ H]]].
  - destruct (truthy c); [exact (get_throw _ _ _ H) | discriminate].
  - destruct (negb (truthy c) || strict_eq len (JNum 0)); [|discriminate].
    destruct r as [| | | | |[|first others]|]; try discriminate.
    destruct (is_object first); [|discriminate].
    apply bind_throw in H. destruct H as [H|[p [_ H]]]; [|discriminate].
    apply mapM_throw in H. destruct H as [obj [_ H]].
    apply mapM_throw in H. destruct H as [col [_ H]].
    exact (get_throw _ _ _ H).
Qed.

Lemma success_throw response e :
  success response = Throw e -> exists msg, e = TypeError msg.
Proof.
  unfold success. intros H.
  apply bind_throw in H. destruct H as [H|[c [_ H]]]; [exact (get_throw _ _ _ H)|].
  apply bind_throw in H. destruct H as [H|[r [_ H]]]; [exact (get_throw _ _ _ H)|].
  apply bind_throw in H. destruct H as [H|[[c1 r1] [_ H]]];
    [exact (infer_shape_throw _ _ _ H)|].
  apply bind_throw in H. destruct H as [H|[rc [_ H]]]; [exact (get_throw _ _ _ H)|].
  apply bind_throw in H. destruct H as [H|[n [_ H]]].
  { destruct (truthy rc); [discriminate|].
    destruct (truthy r1); [exact (get_throw _ _ _ H) | discriminate]. }
  apply bind_throw in H. destruct H as [H|[ms [_ H]]]; [exact (get_throw _ _ _ H)|].
  apply bind_throw in H. destruct H as [H|[raw [_ H]]]; [exact (get_throw _ _ _ H)|].
  discriminate.
Qed.

Lemma success_error response r : success response = Ok r -> error r = JUndefined.
Proof.
  unfold success. intros H.
  apply bind_ok in H. destruct H as [c [_ H]].
  apply bind_ok in H. destruct H as [r0 [_ H]].
  apply bind_ok in H. destruct H as [[c1 r1] [_ H]].
  apply bind_ok in H. destruct H as [rc [_ H]].
  apply bind_ok in H. destruct H as [n [_ H]].
  apply bind_ok in H. destruct H as [ms [_ H]].
  apply bind_ok in H. destruct H as [raw [_ H]].
  injection H as <-. reflexivity.
Qed.

Lemma or_else_truthy a b : truthy b = true -> truthy (or_else a b) = true.
Proof. unfold or_else. destruct (truthy a) eqn:E; auto. Qed.

Lemma handle_response_throw response e :
  handle_response response = Throw e -> exists msg, e = TypeError msg.
Proof.
  unfold handle_response. intros H.
  apply bind_throw in H. destruct H as [H|[ok [_ H]]].
  - destruct (truthy response); [exact (get_throw _ _ _ H) | discriminate].
  - destruct (truthy ok); [exact (success_throw _ _ H)|].
    apply bind_throw in H. destruct H as [H|[x [_ H]]];
      [exact (get_opt_throw _ _ _ H) | discriminate].
Qed.

Lemma handle_response_result response r :
  handle_response response = Ok r -> well_formed_result r.
Proof.
  unfold handle_response. intros H.
  apply bind_ok in H. destruct H as [ok [_ H]].
  destruct (truthy ok).
  - left. exact (success_error _ _ H).
  - apply bind_ok in H. destruct H as [x [_ H]]. injection H as <-.
    right. split; [reflexivity|]. simpl. apply or_else_truthy. reflexivity.
Qed.

Lemma handle_failure_result reason r :
  handle_failure reason = Ok r -> well_formed_result r.
Proof.
  unfold handle_failure. intros H.
  apply bind_ok in H. destruct H as [m [_ H]]. injection H as <-.
  right. split; [reflexivity|]. simpl. apply or_else_truthy. reflexivity.
Qed.

Lemma handle_failure_type_error msg :
  exists r, handle_failure (TypeError msg) = Ok r.
Proof. eexists. reflexivity. Qed.

End RemoteOutcomeFacts.

(** X5: whatever the bridge does, a result that [executeRemoteQuery]
    resolves with and whose [error] is set has no column, no row and a row
    count of zero; a result of the success branch has no [error]. *)
Theorem X5_error_means_empty :
  forall (World : Type)
         (send : option (MuulService.RemoteRequest -> World
                         -> MuulService.SendOutcome * World))
         (credential : MuulService.CredentialEntry) (sql_text : string)
         (w w' : World) (r : MuulService.QueryResult),
    MuulService.executeRemoteQuery send credential sql_text w = (Ok r, w') ->
    truthy (MuulService.error r) = true ->
    MuulService.columns r = JArr [] /\ MuulService.rows r = JArr []
    /\ MuulService.rowCount r = JNum 0.
Proof.
  intros W send credential sql_text w w' r H He.
  assert (Hwf : RemoteShape.well_formed_result r).
  { unfold MuulService.executeRemoteQuery in H. destruct send as [send|].
    - destruct (send _ w) as [[response|reason] w1].
      + destruct (MuulService.handle_response response) as [r0|e] eqn:E.
        * injection H as <- _. exact (handle_response_result _ _ E).
        * destruct (MuulService.handle_failure e) as [r0|e0] eqn:E0; [|discriminate].
          injection H as <- _. exact (handle_failure_result _ _ E0).
      + destruct (MuulService.handle_failure reason) as [r0|e0] eqn:E0; [|discriminate].
        injection H as <- _. exact (handle_failure_result _ _ E0).
    - injection H as <- _. right. split; reflexivity. }
  destruct Hwf as [Hu | [Hf _]].
  - rewrite Hu in He. discriminate He.
  - rewrite Hf. repeat split; reflexivity.
Qed.

Lemma X5_error_means_empty_witness :
  MuulService.columns (MuulService.failure (JStr "denied")) = JArr []
  /\ MuulService.rows (MuulService.failure (JStr "denied")) = JArr []
  /\ MuulService.rowCount (MuulService.failure (JStr "denied")) = JNum 0.
Proof.
  apply (X5_error_means_empty unit
           (Some (RemoteShape.answering
                    (JObj [("ok", JBool false); ("error", JStr "denied")])))
           (MuulService.mkCredential "c1" None) "SELECT 1" tt tt).
  - reflexivity.
  - reflexivity.
Defined.

(** X6: [executeRemoteQuery] rejects only when the bridge call itself
    rejects (or throws) with [null] or [undefined].  Every reply, however
    malformed, and every other rejection is turned into a result. *)
Theorem X6_only_bare_rejection_escapes :
  forall (World : Type)
         (send : option (MuulService.RemoteRequest -> World
                         -> MuulService.SendOutcome * World))
         (credential : MuulService.CredentialEntry) (sql_text : string)
         (w w' : World) (e : JsVal),
    MuulService.executeRemoteQuery send credential sql_text w = (Throw e, w') ->
    exists f reason,
      send = Some f
      /\ f (MuulService.mkRequest "EXECUTE_REMOTE_QUERY"
              (MuulService.id credential) sql_text) w
         = (MuulService.Rejected reason, w')
      /\ (reason = JUndefined \/ reason = JNull).
Proof.
  intros W send credential sql_text w w' e H.
  unfold MuulService.executeRemoteQuery in H. destruct send as [f|]; [|discriminate].
  exists f.
  destruct (f _ w) as [[response|reason] w1] eqn:Ef.
  - exfalso. destruct (MuulService.handle_response response) as [r0|e0] eqn:E;
      [discriminate|].
    destruct (handle_response_throw _ _ E) as [msg ->].
    destruct (handle_failure_type_error msg) as [r0 Hr]. rewrite Hr in H.
    discriminate H.
  - exists reason.
    destruct (MuulService.handle_failure reason) as [r0|e0] eqn:E; [discriminate|].
    injection H as _ <-. split; [reflexivity|].
    destruct reason; simpl in E; try discriminate; auto.
Qed.

Lemma X6_only_bare_rejection_escapes_witness :
  exists f reason,
    Some (fun (_ : MuulService.RemoteRequest) (w : unit) =>
            (MuulService.Rejected JNull, w)) = Some f
    /\ f (MuulService.mkRequest "EXECUTE_REMOTE_QUERY" "c1" "SELECT 1") tt
       = (MuulService.Rejected reason, tt)
    /\ (reason = JUndefined \/ reason = JNull).
Proof.
  apply (X6_only_bare_rejection_escapes unit
           (Some (fun _ w => (MuulService.Rejected JNull, w)))
           (MuulService.mkCredential "c1" None) "SELECT 1" tt tt
           (TypeError "Cannot read properties of null or undefined (reading 'message')")).
  reflexivity.
Defined.

(** A reply that is [ok] but whose rows cannot be projected (a [null] row)
    is absorbed as an error result. *)
Example null_row_is_absorbed :
  exists message,
    MuulService.executeRemoteQuery (World := unit)
      (Some (RemoteShape.answering
               (JObj [("ok", JBool true);
                      ("rows", JArr [JObj [("a", JNum 1)]; JNull])])))
      (MuulService.mkCredential "c1" None) "SELECT a FROM t" tt
    = (Ok (MuulService.failure (JStr message)), tt).
Proof. eexists. reflexivity. Qed.

(** X7: the failures [executeRemoteQuery] absorbs.  With no bridge, with
    a reply whose [ok] is not truthy, and with a rejection whose reason is
    neither [null] nor [undefined], the call resolves with the failure
    literal (no column, no row, count 0) carrying a truthy [error]. *)
Theorem X7_failures_absorbed :
  forall (World : Type)
         (send : MuulService.RemoteRequest -> World -> MuulService.SendOutcome * World)
         (credential : MuulService.CredentialEntry) (sql_text : string) (w : World),
    (exists e, MuulService.executeRemoteQuery (World := World) None credential sql_text w
               = (Ok (MuulService.failure e), w) /\ truthy e = true)
    /\ (forall response w',
           send (MuulService.mkRequest "EXECUTE_REMOTE_QUERY"
                   (MuulService.id credential) sql_text) w
           = (MuulService.Resolved response, w') ->
           truthy response && truthy (read response "ok") = false ->
           exists e, MuulService.executeRemoteQuery (Some send) credential sql_text w
                     = (Ok (MuulService.failure e), w') /\ truthy e = true)
    /\ (forall reason w',
           send (MuulService.mkRequest "EXECUTE_REMOTE_QUERY"
                   (MuulService.id credential) sql_text) w
           = (MuulService.Rejected reason, w') ->
           reason <> JUndefined -> reason <> JNull ->
           exists e, MuulService.executeRemoteQuery (Some send) credential sql_text w
                     = (Ok (MuulService.failure e), w') /\ truthy e = true).
Proof.
  intros W send credential sql_text w. split; [|split].
  - eexists; split; reflexivity.
  - intros response w' Hsend Hok. unfold MuulService.executeRemoteQuery.
    rewrite Hsend.
    destruct (handle_response_not_ok response Hok) as [e [-> He]].
    exists e. split; [reflexivity | exact He].
  - intros reason w' Hsend Hu Hn. unfold MuulService.executeRemoteQuery.
    rewrite Hsend.
    destruct (handle_failure_absorbs reason Hu Hn) as [e [-> He]].
    exists e. split; [reflexivity | exact He].
Qed.

Lemma X7_failures_absorbed_witness :
  (exists e, MuulService.executeRemoteQuery (World := unit)
               (Some (RemoteShape.answering (JObj [("ok", JNum 0)])))
               (MuulService.mkCredential "c1" None) "SELECT 1" tt
             = (Ok (MuulService.failure e), tt) /\ truthy e = true)
  /\ (exists e, MuulService.executeRemoteQuery (World := unit)
                  (Some (RemoteShape.rejecting "socket closed"))
                  (MuulService.mkCredential "c1" None) "SELECT 1" tt
                = (Ok (MuulService.failure e), tt) /\ truthy e = true).
Proof.
  split.
  - destruct (X7_failures_absorbed unit
                (RemoteShape.answering (JObj [("ok", JNum 0)]))
                (MuulService.mkCredential "c1" None) "SELECT 1" tt) as [_ [H _]].
    apply (H (JObj [("ok", JNum 0)]) tt); reflexivity.
  - destruct (X7_failures_absorbed unit (RemoteShape.rejecting "socket closed")
                (MuulService.mkCredential "c1" None) "SELECT 1" tt) as [_ [_ H]].
    apply (H (JObj [("message", JStr "socket closed")]) tt);
      [reflexivity | discriminate | discriminate].
Defined.

(* ------------------------------------------------------------------ *)
(** ** Statistics *)
(* ------------------------------------------------------------------ *)

Section StatsFacts.

Import Stats.

Variable V : Type.

Lemma count_columns_spec (cols : list (ColumnDefinition V)) (p f c : nat) :
  fold_left count_column cols (p, f, c)
  = (p + List.length (filter (@isPrimaryKey V) cols),
     f + List.length (filter (@isForeignKey V) cols),
     c + List.length cols).
Proof.
  revert p f c. induction cols as [|x cols IH]; intros p f c.
  - simpl. apply f_equal2; [apply f_equal2|]; lia.
  - cbn [fold_left filter]. unfold count_column at 2.
    destruct (isPrimaryKey x); destruct (isForeignKey x);
      rewrite IH; cbn [List.length];
      (apply f_equal2; [apply f_equal2|]; lia).
Qed.

Lemma count_tables_spec (ts : list (TableDefinition V)) (p f c : nat) :
  fold_left count_table ts (p, f, c)
  = (p + List.length (filter (@isPrimaryKey V) (flat_map (@t_columns V) ts)),
     f + List.length (filter (@isForeignKey V) (flat_map (@t_columns V) ts)),
     c + List.length (flat_map (@t_columns V) ts)).
Proof.
  revert p f c. induction ts as [|t ts IH]; intros p f c.
  - simpl. apply f_equal2; [apply f_equal2|]; lia.
  - cbn [fold_left flat_map]. unfold count_table at 2.
    rewrite count_columns_spec, IH.
    rewrite !filter_app, !length_app.
    apply f_equal2; [apply f_equal2|]; lia.
Qed.

Lemma count_schema_spec (schema : DbSchema V) :
  count_schema schema
  = (List.length (filter (@isPrimaryKey V) (all_columns schema)),
     List.length (filter (@isForeignKey V) (all_columns schema)),
     List.length (all_columns schema)).
Proof. unfold count_schema. rewrite count_tables_spec. reflexivity. Qed.

Lemma filter_length_le {A} (p : A -> bool) (l : list A) :
  List.length (filter p l) <= List.length l.
Proof.
  induction l as [|x l IH]; simpl; [lia|]. destruct (p x); simpl; lia.
Qed.

End StatsFacts.

(** X8: the statistics computed from a schema.  The nested loops count
    every column of every table once: the column count is the number of
    columns, the key counts are the numbers of columns flagged as primary
    and as foreign key, the index count is the primary-key count, and no key
    count exceeds the column count. *)
Theorem X8_stats_from_schema :
  forall (V : Type) (schema : DbSchema V),
    let s := Stats.calculateStatsFromSchema schema in
    Stats.tableCount s = List.length (tables schema)
    /\ Stats.columnCount s = List.length (Stats.all_columns schema)
    /\ Stats.pkCount s
       = List.length (filter (@isPrimaryKey V) (Stats.all_columns schema))
    /\ Stats.fkCount s
       = List.length (filter (@isForeignKey V) (Stats.all_columns schema))
    /\ Stats.indexCount s = JNum (Z.of_nat (Stats.pkCount s))
    /\ Stats.pkCount s <= Stats.columnCount s
    /\ Stats.fkCount s <= Stats.columnCount s.
Proof.
  intros V schema. unfold Stats.calculateStatsFromSchema.
  rewrite count_schema_spec. cbn.
  repeat split; apply filter_length_le.
Qed.

(** The statistics of the shop schema of the examples. *)
Example shop_stats :
  Stats.calculateStatsFromSchema JoinInference.shop
  = Stats.mkStats 3 7 3 2 (JNum 3).
Proof. reflexivity. Qed.

(* ------------------------------------------------------------------ *)
(** ** The embedded engine: schema, statistics, queries *)
(* ------------------------------------------------------------------ *)

Section EmbeddedFacts.

Import SqliteEngine.

Variable Db : Type.
Variable db_exec : Db -> string -> Res (list ExecResult) * Db.
Variable coerced : JsVal -> bool.
Variable upper_unicode : string -> string.



Lemma last_result_snoc (results : list ExecResult) (r : ExecResult) :
  last_result (results ++ [r])%list = Some r.
Proof.
  induction results as [|x results IH]; [reflexivity|].
  cbn [app last_result]. destruct (results ++ [r])%list eqn:E.
  - destruct results; discriminate E.
  - exact IH.
Qed.

End EmbeddedFacts.


(** One table whose columns cannot be read empties the whole schema. *)
Example broken_table_empties_schema :
  map (@t_name JsVal)
      (tables (fst (SqliteEngine.getSchema (SampleEngine.exec false)
                      SampleEngine.no_coercion (Some tt))))
  = [JStr "a"; JStr "b"]
  /\ tables (fst (SqliteEngine.getSchema (SampleEngine.exec true)
                    SampleEngine.no_coercion (Some tt))) = [].
Proof. split; reflexivity. Qed.

(** X10: the statistics of an embedded database are either all zero (no
    instance, or an exception while counting the indexes) or their table,
    column and key counts are those [calculateStatsFromSchema] gives for
    the schema the engine reads; the key counts never exceed the column
    count. *)
Theorem X10_embedded_stats :
  forall (Db : Type) (db_exec : Db -> string -> Res (list SqliteEngine.ExecResult) * Db)
         (coerced : JsVal -> bool) (number_of : JsVal -> JsVal)
         (instance : option Db),
    let s := fst (SqliteStats.getStats db_exec coerced number_of instance) in
    let c := Stats.calculateStatsFromSchema
               (fst (SqliteEngine.getSchema db_exec coerced instance)) in
    (s = Stats.zero_stats
     \/ (Stats.tableCount s = Stats.tableCount c
         /\ Stats.columnCount s = Stats.columnCount c
         /\ Stats.pkCount s = Stats.pkCount c
         /\ Stats.fkCount s = Stats.fkCount c))
    /\ Stats.pkCount s <= Stats.columnCount s
    /\ Stats.fkCount s <= Stats.columnCount s.
Proof.
  intros Db db_exec coerced number_of instance.
  unfold SqliteStats.getStats. destruct instance as [db|];
    [|cbn; split; [left; reflexivity | lia]].
  destruct (SqliteEngine.getSchema db_exec coerced (Some db)) as [schema [db1|]];
    [|cbn; split; [left; reflexivity | lia]].
  destruct (db_exec db1 SqliteStats.index_query) as [[indexRes|e] db2];
    [|cbn; split; [left; reflexivity | lia]].
  destruct (SqliteStats.index_count number_of indexRes) as [indexCount|e];
    [|cbn; split; [left; reflexivity | lia]].
  unfold Stats.calculateStatsFromSchema. cbn [fst].
  rewrite count_schema_spec. cbn.
  split; [right; repeat split | split; apply filter_length_le].
Qed.

(** The sample database: one primary key, one foreign key, two indexes;
    and zeroes when the introspection of a table fails after the catalogue
    was read (the schema is empty, the index count is still read). *)
Example sample_stats :
  fst (SqliteStats.getStats (SampleEngine.exec false) SampleEngine.no_coercion
         (fun v => v) (Some tt))
  = Stats.mkStats 2 2 1 1 (JNum 2)
  /\ fst (SqliteStats.getStats (SampleEngine.exec true) SampleEngine.no_coercion
            (fun v => v) (Some tt))
     = Stats.mkStats 0 0 0 0 (JNum 2).
Proof. split; reflexivity. Qed.

(** X11: a statement text with several statements answers with the result
    set of the last statement that produced one: its columns, its rows and
    their number, and no error. *)
Theorem X11_last_result_set :
  forall (Db : Type) (db_exec : Db -> string -> Res (list SqliteEngine.ExecResult) * Db)
         (db db1 : Db) (sql_text : string)
         (results : list SqliteEngine.ExecResult) (r : SqliteEngine.ExecResult),
    db_exec db sql_text = (Ok (results ++ [r])%list, db1) ->
    SqliteEngine.executeQuery db_exec (Some db) sql_text
    = (Ok (SqliteEngine.mkResult (SqliteEngine.res_columns r) (SqliteEngine.values r)
             (List.length (SqliteEngine.values r)) JUndefined),
       Some db1).
Proof.
  intros Db db_exec db db1 sql_text results r H.
  unfold SqliteEngine.executeQuery. rewrite H, last_result_snoc. reflexivity.
Qed.

Lemma X11_last_result_set_witness :
  SqliteEngine.executeQuery (SampleEngine.exec false) (Some tt) "SELECT 1; SELECT 2"
  = (Ok (SqliteEngine.mkResult ["2"] [[JNum 2]] 1 JUndefined), Some tt).
Proof.
  apply (X11_last_result_set unit (SampleEngine.exec false) tt tt "SELECT 1; SELECT 2"
           [SqliteEngine.mkExec ["1"] [[JNum 1]]]
           (SqliteEngine.mkExec ["2"] [[JNum 2]])).
  reflexivity.
Defined.

(* ------------------------------------------------------------------ *)
(** ** The import of delimited text: names and cells *)
(* ------------------------------------------------------------------ *)

Section SanitizeFacts.

Import SqliteEngine.

Lemma map_chars_length f s : String.length (map_chars f s) = String.length s.
Proof. induction s as [|c s IH]; simpl; [reflexivity | rewrite IH; reflexivity]. Qed.

Lemma map_chars_append f a b :
  map_chars f (a ++ b) = map_chars f a ++ map_chars f b.
Proof. induction a as [|c a IH]; simpl; [reflexivity | rewrite IH; reflexivity]. Qed.

Lemma equal_ignoring_case_length a b :
  equal_ignoring_case a b = true -> String.length a = String.length b.
Proof.
  unfold equal_ignoring_case, toLowerCase. intros H.
  apply String.eqb_eq in H. apply (f_equal String.length) in H.
  rewrite !map_chars_length in H. exact H.
Qed.

Lemma append_length (a b : string) :
  String.length (a ++ b) = String.length a + String.length b.
Proof. induction a as [|c a IH]; simpl; [reflexivity | rewrite IH; reflexivity]. Qed.

(** The suffix is removed where the text ends with it. *)
Lemma drop_suffix_append suffix tail x :
  equal_ignoring_case tail suffix = true -> drop_suffix suffix (x ++ tail) = Some x.
Proof.
  intros H. induction x as [|c x IH].
  - cbn [append]. destruct tail; cbn [drop_suffix]; rewrite H; reflexivity.
  - cbn [append drop_suffix]. rewrite IH.
    destruct (equal_ignoring_case (String c (x ++ tail)) suffix) eqn:E; [|reflexivity].
    apply equal_ignoring_case_length in E, H.
    cbn [String.length] in E. rewrite append_length in E. lia.
Qed.

Lemma underscore_others_class c :
  is_alnum (underscore_others c) = true \/ underscore_others c = "_"%char.
Proof. unfold underscore_others. destruct (is_alnum c) eqn:E; auto. Qed.

Lemma replaced_class filename :
  Forall (fun c => is_alnum c = true \/ c = "_"%char)
         (list_ascii_of_string (map_chars underscore_others filename)).
Proof.
  induction filename as [|c s IH]; simpl; constructor;
    [apply underscore_others_class | exact IH].
Qed.

Lemma drop_suffix_class suffix s :
  forall r,
    Forall (fun c => is_alnum c = true \/ c = "_"%char) (list_ascii_of_string s) ->
    drop_suffix suffix s = Some r ->
    Forall (fun c => is_alnum c = true \/ c = "_"%char) (list_ascii_of_string r).
Proof.
  induction s as [|c s IH]; intros r Hs; cbn [drop_suffix].
  - destruct (equal_ignoring_case "" suffix); [|discriminate].
    intros [= <-]. constructor.
  - destruct (equal_ignoring_case (String c s) suffix); [intros [= <-]; constructor|].
    destruct (drop_suffix suffix s) as [r'|] eqn:E; cbn [option_map]; [|discriminate].
    intros [= <-]. cbn [list_ascii_of_string] in *.
    inversion Hs; subst. constructor; [assumption | apply IH; [assumption | reflexivity]].
Qed.

End SanitizeFacts.

(** X12: the table name of an imported file.  Whatever the file name, the
    name consists of letters, digits and underscores only; and for a file
    name ending in [.csv], the only names the import sanitizes, it is the
    part before the extension with each other character replaced by an
    underscore. *)
Theorem X12_sanitized_table_name :
  forall filename : string,
    Forall (fun c => SqliteEngine.is_alnum c = true \/ c = "_"%char)
           (list_ascii_of_string (SqliteEngine.sanitizeTableName filename))
    /\ SqliteEngine.sanitizeTableName (filename ++ ".csv")
       = map_chars SqliteEngine.underscore_others filename.
Proof.
  intros filename. split.
  - unfold SqliteEngine.sanitizeTableName.
    pose proof (replaced_class filename) as H.
    destruct (SqliteEngine.drop_suffix "_csv" _) eqn:E1;
      [exact (drop_suffix_class _ _ _ H E1)|].
    destruct (SqliteEngine.drop_suffix "_json" _) eqn:E2;
      [exact (drop_suffix_class _ _ _ H E2)|].
    destruct (SqliteEngine.drop_suffix "_parquet" _) eqn:E3;
      [exact (drop_suffix_class _ _ _ H E3)|].
    exact H.
  - unfold SqliteEngine.sanitizeTableName.
    rewrite map_chars_append.
    change (map_chars SqliteEngine.underscore_others ".csv") with "_csv".
    rewrite drop_suffix_append; reflexivity.
Qed.

(** Only the last extension is removed, and the letter case of the
    extension does not matter to the second replacement. *)
Example sanitized_twice :
  SqliteEngine.sanitizeTableName "sales 2024.csv.csv" = "sales_2024_csv"
  /\ SqliteEngine.sanitizeTableName "Q1-report.CSV" = "Q1_report"
  /\ SqliteEngine.sanitizeTableName "data.json" = "data".
Proof. repeat split; reflexivity. Qed.

(** X13: the cells bound to the insert statement for one parsed row:
    one per field, in the order of the fields, and never [undefined]; for a
    field the row has a member for, the cell is that member, with [null] in
    place of [undefined] and [null]. *)
Theorem X13_row_values :
  forall (field_names : list string) (row : JsVal) (vals : list JsVal),
    SqliteEngine.row_values field_names row = Ok vals ->
    List.length vals = List.length field_names
    /\ ~ In JUndefined vals
    /\ forall i f, nth_error field_names i = Some f ->
         In f (keys row) ->
         nth_error vals i
         = Some (match read row f with
                 | JUndefined | JNull => JNull
                 | v => v
                 end).
Proof.
  unfold SqliteEngine.row_values.
  induction field_names as [|f rest IH]; intros row vals; cbn [mapM].
  - intros [= <-]. repeat split; [intros [] | intros [|i] f0; discriminate].
  - destruct (get row f) as [v|e] eqn:Eg; cbn [bind]; [|discriminate].
    destruct (mapM _ rest) as [vs|e] eqn:Em; cbn [bind]; [|discriminate].
    intros [= <-]. destruct (IH row vs Em) as [Hl [Hn Hi]].
    split; [cbn [List.length]; rewrite Hl; reflexivity|]. split.
    + intros [H|H]; [|exact (Hn H)]. destruct v; discriminate H.
    + intros [|i] f0; cbn [nth_error].
      * intros [= <-] _. unfold read. rewrite Eg. destruct v; reflexivity.
      * apply Hi.
Qed.

Lemma X13_row_values_witness :
  List.length [JNum 7; JNull] = List.length ["id"; "note"]
  /\ ~ In JUndefined [JNum 7; JNull]
  /\ forall i f, nth_error ["id"; "note"] i = Some f ->
       In f (keys (JObj [("id", JNum 7); ("note", JUndefined)])) ->
       nth_error [JNum 7; JNull] i
       = Some (match read (JObj [("id", JNum 7); ("note", JUndefined)]) f with
               | JUndefined | JNull => JNull
               | v => v
               end).
Proof.
  apply (X13_row_values ["id"; "note"] (JObj [("id", JNum 7); ("note", JUndefined)])
           [JNum 7; JNull]).
  reflexivity.
Defined.

(* ------------------------------------------------------------------ *)
(** ** The router: plans, rows as objects, discovery without a bridge *)
(* ------------------------------------------------------------------ *)

Section IndexFacts.

Lemma to_uint_not_nil (n : nat) : Nat.to_uint n <> Decimal.Nil.
Proof.
  intros H. pose proof (DecimalNat.Unsigned.of_to n) as E.
  rewrite H in E. cbn in E. subst n. discriminate H.
Qed.

Lemma index_string_inj (i j : nat) : index_string i = index_string j -> i = j.
Proof.
  unfold index_string. intros H.
  apply (f_equal DecimalString.NilZero.uint_of_string) in H.
  rewrite !DecimalString.NilZero.usu in H by apply to_uint_not_nil.
  injection H as H. exact (DecimalNat.Unsigned.to_uint_inj _ _ H).
Qed.

Lemma index_string_not_length (i : nat) : String.eqb (index_string i) "length" = false.
Proof.
  destruct (String.eqb_spec (index_string i) "length") as [H|]; [|reflexivity].
  unfold index_string in H.
  apply (f_equal DecimalString.NilZero.uint_of_string) in H.
  rewrite DecimalString.NilZero.usu in H by apply to_uint_not_nil.
  vm_compute in H. discriminate H.
Qed.

Lemma element_named_nth (items : list JsVal) :
  forall k i, element_named items k (index_string (k + i)) = nth i items JUndefined.
Proof.
  induction items as [|x items IH]; intros k i; cbn [element_named].
  - destruct i; reflexivity.
  - destruct (String.eqb_spec (index_string k) (index_string (k + i))) as [E|E].
    + apply index_string_inj in E. assert (i = 0) by lia. subst i. reflexivity.
    + destruct i as [|i]; [exfalso; apply E; f_equal; lia|].
      cbn [nth]. replace (k + S i) with (S k + i) by lia. apply IH.
Qed.

(** [row[i]] on an array. *)
Lemma get_index_array (items : list JsVal) (i : nat) :
  get_index (JArr items) i = Ok (nth i items JUndefined).
Proof.
  unfold get_index, get. rewrite index_string_not_length.
  rewrite <- (element_named_nth items 0 i). reflexivity.
Qed.

Lemma lookup_assign_same obj k v : lookup (assign obj k v) k = v.
Proof.
  induction obj as [|[k0 v0] obj IH]; cbn [assign lookup].
  - rewrite String.eqb_refl. reflexivity.
  - destruct (String.eqb k0 k) eqn:E; cbn [lookup]; rewrite E; [reflexivity | exact IH].
Qed.

Lemma lookup_assign_other obj k v k' :
  k <> k' -> lookup (assign obj k v) k' = lookup obj k'.
Proof.
  intros Hne. induction obj as [|[k0 v0] obj IH]; cbn [assign lookup].
  - destruct (String.eqb_spec k k'); [contradiction | reflexivity].
  - destruct (String.eqb_spec k0 k) as [->|]; cbn [lookup].
    + destruct (String.eqb_spec k k'); [contradiction | reflexivity].
    + rewrite IH. reflexivity.
Qed.

Import MuulService.

Lemma fill_object_spec (cells : list JsVal) (names : list string) :
  forall i obj0,
    exists obj,
      fill_object (map JStr names) i (JArr cells) obj0 = Ok obj
      /\ (forall k, ~ In k (map toLowerCase names) -> lookup obj k = lookup obj0 k)
      /\ (NoDup (map toLowerCase names) ->
          forall n name, nth_error names n = Some name ->
            lookup obj (toLowerCase name) = nth (i + n) cells JUndefined).
Proof.
  induction names as [|a rest IH]; intros i obj0; cbn [map fill_object].
  - exists obj0. split; [reflexivity|]. split; [reflexivity|].
    intros _ [|n] name; discriminate.
  - rewrite get_index_array. cbn [bind].
    destruct (IH (S i) (assign obj0 (toLowerCase a) (nth i cells JUndefined)))
      as [obj [Hf [Hout Hin]]].
    exists obj. split; [exact Hf|]. split.
    + intros k Hk. rewrite (Hout k); [|intros H; apply Hk; right; exact H].
      apply lookup_assign_other. intros E. apply Hk. left. exact E.
    + intros Hnd [|n] name; cbn [nth_error]; inversion Hnd as [|? ? Hnot Hnd']; subst.
      * intros [= E]. subst name. rewrite (Hout _ Hnot), lookup_assign_same.
        f_equal. lia.
      * intros Hn. rewrite (Hin Hnd' n name Hn). f_equal. lia.
Qed.

Lemma includes_prefix sub s : String.prefix sub s = true -> includes sub s = true.
Proof. intros H. destruct s; cbn [includes]; rewrite H; reflexivity. Qed.

Lemma prefix_append (a b : string) : String.prefix a (a ++ b) = true.
Proof.
  induction a as [|c a IH]; cbn.
  - destruct b; reflexivity.
  - destruct (Ascii.ascii_dec c c) as [_|n]; [exact IH | contradiction].
Qed.

Lemma includes_append (sub a b : string) : includes sub (a ++ sub ++ b) = true.
Proof.
  induction a as [|c a IH].
  - change ("" ++ sub ++ b) with (sub ++ b). apply includes_prefix, prefix_append.
  - change (String c a ++ sub ++ b) with (String c (a ++ sub ++ b)).
    cbn [includes]. rewrite IH. apply orb_true_r.
Qed.

Lemma includes_tail (sub a : string) : includes sub (a ++ sub) = true.
Proof.
  replace (a ++ sub) with (a ++ sub ++ "")
    by (f_equal; induction sub as [|c s IH]; cbn; [reflexivity | rewrite IH; reflexivity]).
  apply includes_append.
Qed.

End IndexFacts.

(** X14: how a plan request is routed.  Whatever dialect is resolved,
    the statement handed on contains the statement asked about; it goes to
    the remote path exactly when a credential is given and its dialect is
    not [mongodb]: a [mongodb] credential is explained by the local
    engines. *)
Theorem X14_explain_routing :
  forall (realDatabases : list (string * (string * string))) (Outcome : Type)
         (executeQuery : string -> string -> Outcome)
         (executeRemote : MuulService.CredentialEntry -> string -> Outcome)
         (dbId sql_text : string) (credential : option MuulService.CredentialEntry),
    exists explainSql,
      includes sql_text explainSql = true
      /\ MuulService.explainQuery realDatabases executeQuery executeRemote
           dbId sql_text credential
         = match credential with
           | Some c =>
               if String.eqb (MuulService.dialect_tag c) "mongodb"
               then executeQuery dbId explainSql
               else executeRemote c explainSql
           | None => executeQuery dbId explainSql
           end.
Proof.
  intros realDatabases Outcome executeQuery executeRemote dbId sql_text credential.
  unfold MuulService.explainQuery.
  set (type := MuulService.getDialectForDb realDatabases dbId credential).
  assert (Htype : forall c, credential = Some c -> type = MuulService.dialect_tag c)
    by (intros c ->; reflexivity).
  assert (Hrun : forall stmt,
             String.eqb type "mongodb" = false ->
             match credential with
             | Some c => executeRemote c stmt
             | None => executeQuery dbId stmt
             end
             = match credential with
               | Some c =>
                   if String.eqb (MuulService.dialect_tag c) "mongodb"
                   then executeQuery dbId stmt
                   else executeRemote c stmt
               | None => executeQuery dbId stmt
               end).
  { intros stmt Hm. destruct credential as [c|]; [|reflexivity].
    rewrite <- (Htype c eq_refl), Hm. reflexivity. }
  destruct (String.eqb_spec type "postgres") as [Ep|_].
  { eexists. split; [|apply Hrun; rewrite Ep; reflexivity]. apply includes_tail. }
  destruct (String.eqb_spec type "sqlite") as [Es|_].
  { eexists. split; [|apply Hrun; rewrite Es; reflexivity]. apply includes_tail. }
  destruct (String.eqb_spec type "mssql") as [Em|_].
  { eexists. split; [|apply Hrun; rewrite Em; reflexivity].
    exact (includes_append sql_text ("SET SHOWPLAN_XML ON;" ++ nl ++ "GO" ++ nl)
             (nl ++ "GO" ++ nl ++ "SET SHOWPLAN_XML OFF;")). }
  destruct (String.eqb_spec type "mysql") as [Ey|_].
  { eexists. split; [|apply Hrun; rewrite Ey; reflexivity]. apply includes_tail. }
  destruct (String.eqb type "mongodb") eqn:Eg.
  - exists (if includes ".explain" sql_text then sql_text
            else sql_text ++ ".explain(" ++ dq ++ "executionStats" ++ dq ++ ")").
    split.
    + destruct (includes ".explain" sql_text).
      * apply includes_prefix. rewrite <- (prefix_append sql_text "") at 1.
        f_equal. induction sql_text as [|c s IH]; cbn; [reflexivity|].
        rewrite <- IH at 1. reflexivity.
      * apply (includes_append sql_text "").
    + destruct credential as [c|]; [|reflexivity].
      rewrite <- (Htype c eq_refl), Eg. reflexivity.
  - eexists. split; [|apply Hrun; reflexivity]. apply includes_tail.
Qed.

(** A statement that already asks for its plan is passed on unchanged, so
    explaining twice adds the suffix once. *)
Example explain_document_query :
  MuulService.explainQuery [] (fun _ stmt => stmt) (fun _ stmt => stmt)
    "db-mongo" "db.users.find({})" None
  = "db.users.find({}).explain(" ++ dq ++ "executionStats" ++ dq ++ ")"
  /\ MuulService.explainQuery [] (fun _ stmt => stmt) (fun _ stmt => stmt) "db-mongo"
       (MuulService.explainQuery [] (fun _ stmt => stmt) (fun _ stmt => stmt)
          "db-mongo" "db.users.find({})" None) None
     = "db.users.find({}).explain(" ++ dq ++ "executionStats" ++ dq ++ ")".
Proof. split; reflexivity. Qed.

(** X15: rows as objects.  For a result whose columns are names that
    stay distinct when lowercased and whose rows are arrays, [toObjects]
    gives one object per row, and the member under a lowercased column
    name is the cell at that column's index ([undefined] for a short
    row).  A column spelled [__proto__] is left aside: assigning to that
    name does not create a member. *)
Theorem X15_rows_as_objects :
  forall (r : MuulService.QueryResult) (names : list string) (rws : list (list JsVal)),
    MuulService.columns r = JArr (map JStr names) ->
    MuulService.rows r = JArr (map JArr rws) ->
    NoDup (map toLowerCase names) ->
    ~ In "__proto__" (map toLowerCase names) ->
    exists objs,
      MuulService.toObjects r = Ok objs
      /\ List.length objs = List.length rws
      /\ forall j cells i name,
           nth_error rws j = Some cells ->
           nth_error names i = Some name ->
           exists obj, nth_error objs j = Some obj
                       /\ lookup obj (toLowerCase name) = nth i cells JUndefined.
Proof.
  intros r names rws Hc Hr Hnd _. unfold MuulService.toObjects. rewrite Hr, Hc.
  clear Hr Hc. induction rws as [|cells rws IH]; cbn [map mapM].
  - exists []. split; [reflexivity|]. split; [reflexivity|].
    intros [|j] ? ? ?; discriminate.
  - destruct (fill_object_spec cells names 0 []) as [obj [Hf [_ Hin]]].
    rewrite Hf. cbn [bind]. destruct IH as [objs [Hm [Hl Hall]]].
    rewrite Hm. cbn [bind]. exists (obj :: objs).
    split; [reflexivity|]. split; [cbn [List.length]; rewrite Hl; reflexivity|].
    intros [|j] cells' i name; cbn [nth_error].
    + intros [= <-] Hn. exists obj. split; [reflexivity|]. exact (Hin Hnd i name Hn).
    + apply Hall.
Qed.

Lemma X15_rows_as_objects_witness :
  exists objs,
    MuulService.toObjects
      (MuulService.mkResult (JArr [JStr "Name"; JStr "PK"])
         (JArr [JArr [JStr "id"; JNum 1]; JArr [JStr "total"]])
         (JNum 2) (JNum 0) JUndefined JUndefined)
    = Ok objs
    /\ List.length objs = 2
    /\ forall j cells i name,
         nth_error [[JStr "id"; JNum 1]; [JStr "total"]] j = Some cells ->
         nth_error ["Name"; "PK"] i = Some name ->
         exists obj, nth_error objs j = Some obj
                     /\ lookup obj (toLowerCase name) = nth i cells JUndefined.
Proof.
  apply (X15_rows_as_objects
           (MuulService.mkResult (JArr [JStr "Name"; JStr "PK"])
              (JArr [JArr [JStr "id"; JNum 1]; JArr [JStr "total"]])
              (JNum 2) (JNum 0) JUndefined JUndefined)
           ["Name"; "PK"] [[JStr "id"; JNum 1]; [JStr "total"]]).
  - reflexivity.
  - reflexivity.
  - cbn. constructor; [intros [H|[]]; discriminate H|].
    constructor; [intros []|constructor].
  - cbn. intros [H|[H|[]]]; discriminate H.
Defined.

(** Two columns that differ in letter case only share one member: the
    later column wins. *)
Example later_column_wins :
  MuulService.toObjects
    (MuulService.mkResult (JArr [JStr "id"; JStr "ID"]) (JArr [JArr [JNum 1; JNum 2]])
       (JNum 1) (JNum 0) JUndefined JUndefined)
  = Ok [[("id", JNum 2)]].
Proof. reflexivity. Qed.

(** X16: without the bridge the discovery of a remote schema answers
    with no table and leaves the world as it was, whatever the credential;
    the one exception is an engine name that spells a member every object
    inherits, which makes the discovery reject. *)
Theorem X16_discovery_without_bridge :
  forall (World : Type) (coerced : JsVal -> bool) (upper_unicode : string -> string)
         (credential : MuulService.CredentialEntry) (w : World),
    MuulService.getRemoteDatabaseSchema None coerced upper_unicode credential w
    = (Ok (mkSchema []), w)
    \/ (Dialects.DialectRegistry (MuulService.dialect_tag credential)
        = Dialects.Inherited
        /\ exists msg,
             MuulService.getRemoteDatabaseSchema None coerced upper_unicode
               credential w
             = (Throw (TypeError msg), w)).
Proof.
  intros World coerced upper_unicode credential w.
  unfold MuulService.getRemoteDatabaseSchema.
  destruct (Dialects.DialectRegistry (MuulService.dialect_tag credential)) as [d| |].
  - left. reflexivity.
  - right. split; [reflexivity|]. eexists. reflexivity.
  - left. reflexivity.
Qed.

(** Both cases occur. *)
Example discovery_without_bridge_cases :
  MuulService.getRemoteDatabaseSchema (World := unit) None (fun _ => false)
    (fun s => s) (MuulService.mkCredential "c1" (Some "MySQL")) tt
  = (Ok (mkSchema []), tt)
  /\ exists msg,
       MuulService.getRemoteDatabaseSchema (World := unit) None (fun _ => false)
         (fun s => s) (MuulService.mkCredential "c1" (Some "Constructor")) tt
       = (Throw (TypeError msg), tt).
Proof. split; [reflexivity | eexists; reflexivity]. Qed.

(* ------------------------------------------------------------------ *)
(** ** The document-store engine *)
(* ------------------------------------------------------------------ *)

Section DocumentFacts.

Import MongoEngine MongoQuery.

Lemma take_word_stops (name rest : string) :
  all_w name = true ->
  take_word (name ++ String "."%char rest) = (name, String "."%char rest).
Proof.
  induction name as [|c name IH]; intros H.
  - reflexivity.
  - cbn [all_w] in H. apply andb_true_iff in H. destruct H as [Hc Hn].
    cbn [append take_word]. rewrite Hc, (IH Hn). reflexivity.
Qed.

Lemma match_here_named (name rest : string) :
  all_w name = true -> name <> "" ->
  match_here ("db." ++ name ++ "." ++ rest) = Some name.
Proof.
  intros Hw Hne. unfold match_here.
  change (after_prefix "db." ("db." ++ name ++ "." ++ rest))
    with (Some (name ++ String "."%char rest)).
  cbv beta iota. rewrite (take_word_stops name rest Hw).
  destruct name; [contradiction|reflexivity].
Qed.

Lemma collection_of_named (name rest : string) :
  all_w name = true -> name <> "" ->
  collection_of ("db." ++ name ++ "." ++ rest) = name.
Proof.
  intros Hw Hne. unfold collection_of.
  rewrite (includes_prefix _ _ (prefix_append "db." (name ++ "." ++ rest))).
  assert (H : match_collection ("db." ++ name ++ "." ++ rest) = Some name).
  { pose proof (match_here_named name rest Hw Hne) as Hm.
    remember ("db." ++ name ++ "." ++ rest) as q.
    destruct q; cbn [match_collection]; rewrite Hm; reflexivity. }
  rewrite H. reflexivity.
Qed.

Lemma split_dots_nonempty (path : string) : split_dots path <> [].
Proof.
  induction path as [|c path IH]; cbn [split_dots]; [discriminate|].
  destruct (Ascii.eqb c "."%char); [discriminate|].
  destruct (split_dots path); discriminate.
Qed.

Lemma split_dots_plain (k : string) : dot_free k = true -> split_dots k = [k].
Proof.
  induction k as [|c k IH]; cbn [dot_free split_dots]; intros H; [reflexivity|].
  apply andb_true_iff in H. destruct H as [Hc Hk].
  apply negb_true_iff in Hc. rewrite Hc, (IH Hk). reflexivity.
Qed.

Lemma split_dots_dotted (k rest : string) :
  dot_free k = true -> split_dots (k ++ "." ++ rest) = k :: split_dots rest.
Proof.
  induction k as [|c k IH]; cbn [dot_free]; intros H; [reflexivity|].
  apply andb_true_iff in H. destruct H as [Hc Hk].
  apply negb_true_iff in Hc.
  change (String c k ++ "." ++ rest) with (String c (k ++ "." ++ rest)).
  cbn [split_dots]. rewrite Hc, (IH Hk). reflexivity.
Qed.

End DocumentFacts.

(** X17: a document query addresses the collection named after [db.]:
    for a non-empty name of word characters followed by a dot, the documents
    returned are those of that collection, the row count is their number,
    and every row has one cell per column. *)
Theorem X17_document_query_collection :
  forall (dbId name rest : string),
    MongoQuery.all_w name = true ->
    name <> "" ->
    let r := MongoQuery.executeQuery dbId ("db." ++ name ++ "." ++ rest) in
    MongoQuery.rawJson r = MongoEngine.getMockDocuments name
    /\ MongoQuery.columns r
       = MongoEngine.extractColumns (MongoEngine.getMockDocuments name)
    /\ MongoQuery.rowCount r = List.length (MongoEngine.getMockDocuments name)
    /\ Forall (fun row => List.length row = List.length (MongoQuery.columns r))
              (MongoQuery.rows r).
Proof.
  intros dbId name rest Hw Hne. unfold MongoQuery.executeQuery.
  rewrite (collection_of_named name rest Hw Hne). cbn [MongoQuery.rawJson
    MongoQuery.columns MongoQuery.rowCount MongoQuery.rows].
  split; [reflexivity|]. split; [reflexivity|].
  split; [apply length_map|].
  apply Forall_forall. intros row Hin. apply in_map_iff in Hin.
  destruct Hin as [doc [<- _]]. apply length_map.
Qed.

Lemma X17_document_query_collection_witness :
  let r := MongoQuery.executeQuery "db-mongo" ("db." ++ "orders" ++ "." ++ "find({})") in
  MongoQuery.rawJson r = MongoEngine.getMockDocuments "orders"
  /\ MongoQuery.columns r
     = MongoEngine.extractColumns (MongoEngine.getMockDocuments "orders")
  /\ MongoQuery.rowCount r = List.length (MongoEngine.getMockDocuments "orders")
  /\ Forall (fun row => List.length row = List.length (MongoQuery.columns r))
            (MongoQuery.rows r).
Proof.
  apply (X17_document_query_collection "db-mongo" "orders" "find({})").
  - reflexivity.
  - discriminate.
Defined.

(** A query that names no collection, or whose [db.] is not followed by
    a name and a dot, reads the collection [users]. *)
Example document_query_default :
  MongoQuery.collection_of "find all" = "users"
  /\ MongoQuery.collection_of "db.orders" = "users"
  /\ MongoQuery.collection_of "use db..x; db.logs.count()" = "logs".
Proof. repeat split; reflexivity. Qed.

(** X18: a flattened column reads back the value it was made from.  For
    a member [k] of a document, the column [k] gives that member; and when
    the member is a plain object with a member [subK], the column [k.subK]
    gives the member [subK] of that object.  Neither name may contain a
    dot. *)
Theorem X18_nested_value_round_trip :
  forall (props sub : list (string * JsVal)) (k subK : string),
    MongoQuery.dot_free k = true ->
    MongoQuery.dot_free subK = true ->
    In k (keys (JObj props)) ->
    MongoQuery.getNestedValue (JObj props) k = lookup props k
    /\ (lookup props k = JObj sub ->
        In subK (keys (JObj sub)) ->
        In (k ++ "." ++ subK) (MongoEngine.extractColumns [JObj props])
        /\ MongoQuery.getNestedValue (JObj props) (k ++ "." ++ subK)
           = lookup sub subK).
Proof.
  intros props sub k subK Hk Hs Hin. unfold MongoQuery.getNestedValue. split.
  - rewrite (split_dots_plain k Hk). reflexivity.
  - intros Hl Hsub. split.
    + unfold MongoEngine.extractColumns. apply (dedup_spec _ []).
      split; [|intros []]. cbn [flat_map]. rewrite app_nil_r.
      unfold MongoEngine.document_keys. apply in_flat_map.
      exists k. split; [exact Hin|].
      unfold read. cbn [get]. rewrite Hl.
      apply in_map_iff. exists subK. split; [reflexivity | exact Hsub].
    + rewrite (split_dots_dotted k subK Hk), (split_dots_plain subK Hs).
      cbn. rewrite Hl. reflexivity.
Qed.

Lemma X18_nested_value_round_trip_witness :
  MongoQuery.getNestedValue
    (JObj [("_id", JStr "1"); ("profile", JObj [("age", JNum 30)])]) "profile"
  = lookup [("_id", JStr "1"); ("profile", JObj [("age", JNum 30)])] "profile"
  /\ (lookup [("_id", JStr "1"); ("profile", JObj [("age", JNum 30)])] "profile"
      = JObj [("age", JNum 30)] ->
      In "age" (keys (JObj [("age", JNum 30)])) ->
      In ("profile" ++ "." ++ "age")
         (MongoEngine.extractColumns
            [JObj [("_id", JStr "1"); ("profile", JObj [("age", JNum 30)])]])
      /\ MongoQuery.getNestedValue
           (JObj [("_id", JStr "1"); ("profile", JObj [("age", JNum 30)])])
           ("profile" ++ "." ++ "age")
         = lookup [("age", JNum 30)] "age").
Proof.
  apply (X18_nested_value_round_trip
           [("_id", JStr "1"); ("profile", JObj [("age", JNum 30)])]
           [("age", JNum 30)] "profile" "age");
    [reflexivity | reflexivity | right; left; reflexivity].
Defined.

(** A member whose own name contains a dot is listed as a column but
    cannot be read back. *)
Example dotted_name_is_lost :
  MongoEngine.extractColumns [JObj [("a.b", JNum 1)]] = ["a.b"]
  /\ MongoQuery.getNestedValue (JObj [("a.b", JNum 1)]) "a.b" = JUndefined.
Proof. split; reflexivity. Qed.

(* ------------------------------------------------------------------ *)
(** ** Bridge helpers *)
(* ------------------------------------------------------------------ *)

Section BridgeFacts.

Import MuulService BridgeHelpers.

Lemma read_get (v : JsVal) (key : string) (x : JsVal) :
  get v key = Ok x -> read v key = x.
Proof. unfold read. intros ->. reflexivity. Qed.

Lemma get_opt_read (v : JsVal) (key : string) : get_opt v key = Ok (read v key).
Proof. unfold read. destruct v; cbn; try reflexivity; destruct (String.eqb key "length"); reflexivity. Qed.

Lemma strict_eq_bool_true (v : JsVal) : strict_eq v (JBool true) = true <-> v = JBool true.
Proof.
  split; [|intros ->; reflexivity].
  destruct v as [| |b| | | |]; cbn; try discriminate. destruct b; [reflexivity|discriminate].
Qed.

(** What the [try] block of [fetchSavedCredentials] can return. *)
Lemma entries_of_items (response : JsVal) (items : list JsVal) :
  entries_of response = Ok items -> items <> [] ->
  truthy (read response "ok") = true
  /\ (read response "entries" = JArr items
      \/ (truthy (read response "entries") = false
          /\ read (read response "data") "entries" = JArr items)).
Proof.
  unfold entries_of. intros H Hne.
  destruct (truthy response) eqn:Et.
  - destruct (get response "ok") as [ok|e] eqn:Eo; cbn [bind] in H; [|discriminate].
    rewrite (read_get _ _ _ Eo).
    destruct (truthy ok) eqn:Ek; [|injection H as <-; contradiction].
    split; [reflexivity|].
    destruct (get response "entries") as [root|e] eqn:Er; cbn [bind] in H; [|discriminate].
    rewrite (read_get _ _ _ Er).
    destruct (truthy root) eqn:Etr; cbn [bind] in H.
    + left. destruct root; injection H as <-; try contradiction. reflexivity.
    + right. split; [reflexivity|].
      destruct (get response "data") as [d|e] eqn:Ed; cbn [bind] in H; [|discriminate].
      rewrite (read_get _ _ _ Ed). rewrite get_opt_read in H. cbn [bind] in H.
      destruct (read d "entries"); injection H as <-; try contradiction. reflexivity.
  - cbn [bind] in H. rewrite Et in H. injection H as <-. contradiction.
Qed.

End BridgeFacts.

(** X19: credentials are returned only from a reply that is [ok] and
    carries an array of entries, at its root or, when the root has none,
    under [data]; with no bridge, a rejection, or any other reply the list
    is empty. *)
Theorem X19_saved_credentials_source :
  forall (World : Type)
         (externalMessage_send :
            option (string -> World -> MuulService.SendOutcome * World))
         (w w' : World) (items : list JsVal),
    BridgeHelpers.fetchSavedCredentials externalMessage_send w = (items, w') ->
    items <> [] ->
    exists send response,
      externalMessage_send = Some send
      /\ send "GET_SAVED_CREDENTIALS" w = (MuulService.Resolved response, w')
      /\ truthy (read response "ok") = true
      /\ (read response "entries" = JArr items
          \/ (truthy (read response "entries") = false
              /\ read (read response "data") "entries" = JArr items)).
Proof.
  intros World ext w w' items H Hne. unfold BridgeHelpers.fetchSavedCredentials in H.
  destruct ext as [send|]; [|injection H as <- _; contradiction].
  destruct (send "GET_SAVED_CREDENTIALS" w) as [[response|reason] w1] eqn:Es;
    [|injection H as <- _; contradiction].
  destruct (BridgeHelpers.entries_of response) as [found|e] eqn:Ee;
    [|injection H as <- _; contradiction].
  injection H as <- <-.
  destruct (entries_of_items response found Ee Hne) as [Hok Hfrom].
  exists send, response. repeat split; assumption.
Qed.

Lemma X19_saved_credentials_source_witness :
  exists send response,
    Some (fun (_ : string) (w : unit) =>
            (MuulService.Resolved
               (JObj [("ok", JBool true);
                      ("data", JObj [("entries", JArr [JObj [("id", JStr "c1")]])])]),
             w)) = Some send
    /\ send "GET_SAVED_CREDENTIALS" tt = (MuulService.Resolved response, tt)
    /\ truthy (read response "ok") = true
    /\ (read response "entries" = JArr [JObj [("id", JStr "c1")]]
        \/ (truthy (read response "entries") = false
            /\ read (read response "data") "entries" = JArr [JObj [("id", JStr "c1")]])).
Proof.
  apply (X19_saved_credentials_source unit
           (Some (fun _ w =>
                    (MuulService.Resolved
                       (JObj [("ok", JBool true);
                              ("data", JObj [("entries", JArr [JObj [("id", JStr "c1")]])])]),
                     w)))
           tt tt [JObj [("id", JStr "c1")]]).
  - reflexivity.
  - discriminate.
Defined.

(** A truthy [entries] at the root that is not an array hides the array
    under [data]. *)
Example root_entries_hide_data :
  BridgeHelpers.fetchSavedCredentials
    (Some (fun (_ : string) (w : unit) =>
             (MuulService.Resolved
                (JObj [("ok", JBool true); ("entries", JNum 3);
                       ("data", JObj [("entries", JArr [JObj [("id", JStr "c1")]])])]),
              w))) tt
  = ([], tt).
Proof. reflexivity. Qed.

(** X20: the browser is detected exactly when the bridge is there and
    its reply has both [ok] and [isMuulorigin] equal to the boolean [true];
    a truthy value of another type does not count. *)
Theorem X20_detection_is_strict :
  forall (World : Type)
         (externalMessage_send :
            option (string -> World -> MuulService.SendOutcome * World))
         (w : World),
    fst (BridgeHelpers.detectMuulBrowser externalMessage_send w) = true
    <-> exists send response w',
          externalMessage_send = Some send
          /\ send "MUULORIGIN" w = (MuulService.Resolved response, w')
          /\ read response "ok" = JBool true
          /\ read response "isMuulorigin" = JBool true.
Proof.
  intros World ext w. unfold BridgeHelpers.detectMuulBrowser, BridgeHelpers.is_muul_reply.
  split.
  - destruct ext as [send|]; [|discriminate].
    destruct (send "MUULORIGIN" w) as [[response|reason] w1] eqn:Es; [|discriminate].
    rewrite !get_opt_read. cbn [bind].
    destruct (strict_eq (read response "ok") (JBool true)) eqn:E1; [|discriminate].
    cbn [bind fst]. intros E2.
    exists send, response, w1. split; [reflexivity|]. split; [exact Es|].
    split; apply strict_eq_bool_true; assumption.
  - intros [send [response [w1 [-> [Es [Hok Hflag]]]]]].
    rewrite Es, !get_opt_read. cbn [bind]. rewrite Hok. cbn [strict_eq Bool.eqb bind fst].
    rewrite Hflag. reflexivity.
Qed.

(** A reply with a number where [true] is expected is not a detection. *)
Example detection_rejects_truthy :
  fst (BridgeHelpers.detectMuulBrowser
         (Some (fun (_ : string) (w : unit) =>
                  (MuulService.Resolved
                     (JObj [("ok", JBool true); ("isMuulorigin", JNum 1)]), w))) tt)
  = false.
Proof. reflexivity. Qed.

(* ------------------------------------------------------------------ *)
(** ** The schema advisor *)
(* ------------------------------------------------------------------ *)

Section AdvisorFacts.

Import DbaAdvisor.

Lemma audit_table_critical (t : TableDefinition string) :
  filter is_critical (audit_table t) = if hasPk t then [] else [heap_finding t].
Proof.
  unfold audit_table. destruct (hasPk t); destruct (2 <? _)%nat; reflexivity.
Qed.

Lemma audit_table_no_pass (t : TableDefinition string) :
  existsb is_pass (audit_table t) = false.
Proof.
  unfold audit_table. destruct (hasPk t); destruct (2 <? _)%nat; reflexivity.
Qed.

Lemma critical_count (ts : list (TableDefinition string)) :
  List.length (filter is_critical (flat_map audit_table ts))
  = List.length (filter (fun t => negb (hasPk t)) ts).
Proof.
  induction ts as [|t ts IH]; [reflexivity|].
  cbn [flat_map filter]. rewrite filter_app, length_app, audit_table_critical, IH.
  destruct (hasPk t); reflexivity.
Qed.

Lemma findings_no_pass (ts : list (TableDefinition string)) :
  existsb is_pass (flat_map audit_table ts) = false.
Proof.
  induction ts as [|t ts IH]; [reflexivity|].
  cbn [flat_map]. rewrite existsb_app, audit_table_no_pass, IH. reflexivity.
Qed.

End AdvisorFacts.

(** X21: what the schema audit reports.  It reports nothing exactly for
    a schema without tables; it reports one critical finding per table that
    has no primary-key column; and the passing verdict is never mixed with
    a complaint: when it occurs, it is the only entry. *)
Theorem X21_schema_audit :
  forall schema : DbSchema string,
    (DbaAdvisor.auditSchema schema = [] <-> tables schema = [])
    /\ List.length (filter DbaAdvisor.is_critical (DbaAdvisor.auditSchema schema))
       = List.length (filter (fun t => negb (DbaAdvisor.hasPk t)) (tables schema))
    /\ (existsb DbaAdvisor.is_pass (DbaAdvisor.auditSchema schema) = true
        <-> DbaAdvisor.auditSchema schema = [DbaAdvisor.ok_finding]).
Proof.
  intros schema. unfold DbaAdvisor.auditSchema.
  pose proof (critical_count (tables schema)) as Hc.
  pose proof (findings_no_pass (tables schema)) as Hp.
  destruct (flat_map DbaAdvisor.audit_table (tables schema)) as [|r results] eqn:Er.
  - destruct (tables schema) as [|t ts] eqn:Et.
    + repeat split; try reflexivity; discriminate.
    + split; [split; discriminate|]. split; [exact Hc|]. split; reflexivity.
  - assert (Hts : tables schema <> []).
    { intros E. rewrite E in Er. discriminate Er. }
    split; [split; [discriminate | intros E; contradiction]|].
    split; [exact Hc|]. rewrite Hp. split; [discriminate|].
    intros E. rewrite E in Hp. discriminate Hp.
Qed.

(** A table with a key and three wide columns gets a warning only; the
    test for wide types is sensitive to letter case, so the [TEXT] columns
    an import creates never count. *)
Example audit_examples :
  map DbaAdvisor.severity
      (DbaAdvisor.auditSchema
         (mkSchema [mkTable "notes"
                      [mkColumn "id" "int" true false None;
                       mkColumn "a" "text" false false None;
                       mkColumn "b" "varchar(max)" false false None;
                       mkColumn "c" "blob" false false None]]))
  = [DbaAdvisor.Warning]
  /\ map DbaAdvisor.severity
         (DbaAdvisor.auditSchema
            (mkSchema [mkTable "sales"
                         [mkColumn "a" "TEXT" false false None;
                          mkColumn "b" "TEXT" false false None;
                          mkColumn "c" "TEXT" false false None]]))
     = [DbaAdvisor.Critical].
Proof. split; reflexivity. Qed.

(* ------------------------------------------------------------------ *)
(** ** The router state: uploads *)
(* ------------------------------------------------------------------ *)

Section RouterFacts.

Import SqliteEngine Router RouterState.

Lemma map_get_set_same {A} (m : list (string * A)) (k : string) (v : A) :
  map_get (map_set m k v) k = Some v.
Proof.
  unfold map_get. induction m as [|[k0 v0] m IH]; cbn [map_set find fst].
  - rewrite String.eqb_refl. reflexivity.
  - destruct (String.eqb k0 k) eqn:E; cbn [find fst]; rewrite E; [reflexivity | exact IH].
Qed.

Lemma map_get_set_other {A} (m : list (string * A)) (k k' : string) (v : A) :
  k <> k' -> map_get (map_set m k v) k' = map_get m k'.
Proof.
  intros Hne. unfold map_get. induction m as [|[k0 v0] m IH]; cbn [map_set find fst].
  - destruct (String.eqb_spec k k'); [contradiction | reflexivity].
  - destruct (String.eqb_spec k0 k) as [->|]; cbn [find fst].
    + destruct (String.eqb_spec k k'); [contradiction | reflexivity].
    + destruct (String.eqb k0 k'); [reflexivity | exact IH].
Qed.

Lemma map_set_fresh {A} (m : list (string * A)) (k : string) (v : A) :
  map_has m k = false -> map_set m k v = (m ++ [(k, v)])%list.
Proof.
  unfold map_has, map_get. induction m as [|[k0 v0] m IH]; cbn [map_set find fst app].
  - reflexivity.
  - destruct (String.eqb k0 k); cbn [option_map]; [discriminate|].
    intros H. rewrite (IH H). reflexivity.
Qed.

Lemma append_cancel (p a b : string) : p ++ a = p ++ b -> a = b.
Proof.
  induction p as [|c p IH]; cbn [append]; intros H; [exact H|].
  injection H as H. exact (IH H).
Qed.

(** The type tag of a created database is always [sqlite]. *)
Lemma created_type
      (Db Statement : Type) (db_new : Db) (db_open : string -> Db)
      (db_run : Db -> string -> Res Db) (db_prepare : Db -> string -> Res Statement)
      (stmt_run : Db -> Statement -> list JsVal -> Res Db)
      (db_exec : Db -> string -> Res (list ExecResult) * Db)
      (papa_parse : string -> ParseResult) (file : File) (db : Db) (type : string) :
  createDatabaseFromFile db_new db_open db_run db_prepare stmt_run db_exec
    papa_parse file = Ok (db, type) ->
  type = "sqlite".
Proof.
  unfold createDatabaseFromFile.
  destruct (endsWith ".sqlite" (file_name file) || endsWith ".db" (file_name file)).
  - destruct (db_run _ _); cbn [bind]; [|discriminate]. intros [= _ <-]. reflexivity.
  - destruct (endsWith ".csv" (file_name file)); [|intros [= _ <-]; reflexivity].
    destruct (fields (papa_parse (file_text file))) as [field_names|];
      [|intros [= _ <-]; reflexivity].
    destruct (data (papa_parse (file_text file))) as [|row rest];
      [intros [= _ <-]; reflexivity|].
    destruct (importDataToTable _ _ _ _ _ _ _ _); cbn [bind]; [|discriminate].
    intros [= _ <-]. reflexivity.
Qed.

End RouterFacts.

(** X22: an upload never replaces a database.  In a state whose ids
    were all handed out by earlier uploads (true of the initial state, and
    kept by every upload), the id of a new upload is not registered yet, the
    database is listed after the earlier uploads and before the simulated
    ones, and nothing else in the listing changes. *)
Theorem X22_upload_is_fresh :
  forall (Db Statement : Type) (db_new : Db) (db_open : string -> Db)
         (db_run : Db -> string -> Res Db) (db_prepare : Db -> string -> Res Statement)
         (stmt_run : Db -> Statement -> list JsVal -> Res Db)
         (db_exec : Db -> string -> Res (list SqliteEngine.ExecResult) * Db)
         (papa_parse : string -> SqliteEngine.ParseResult)
         (file : SqliteEngine.File) (s s' : Router.Service Db) (d : Router.Database),
    RouterState.ids_below s ->
    Router.uploadDatabase db_new db_open db_run db_prepare stmt_run db_exec
      papa_parse file s = Ok (d, s') ->
    Router.map_has (Router.realDatabases s) (Router.db_id d) = false
    /\ Router.getDatabases s
       = (RouterState.userDbs s ++ Router.systemDbs)%list
    /\ Router.getDatabases s'
       = (RouterState.userDbs s ++ d :: Router.systemDbs)%list
    /\ RouterState.ids_below s'.
Proof.
  intros Db Statement db_new db_open db_run db_prepare stmt_run db_exec papa_parse
         file s s' d Hinv H.
  unfold Router.uploadDatabase in H.
  destruct (SqliteEngine.createDatabaseFromFile _ _ _ _ _ _ _ _) as [[db type]|e];
    cbn [bind] in H; [|discriminate].
  injection H as <- <-. cbn [Router.db_id].
  assert (Hfresh : Router.map_has (Router.realDatabases s) (Router.next_id s) = false).
  { destruct (Router.map_has (Router.realDatabases s) (Router.next_id s)) eqn:E;
      [|reflexivity].
    destruct (Hinv _ E) as [k [Hk Hid]]. unfold Router.next_id in Hid.
    apply append_cancel, index_string_inj in Hid. lia. }
  split; [exact Hfresh|]. split; [reflexivity|]. split.
  - unfold Router.getDatabases, RouterState.userDbs. cbn [Router.realDatabases].
    rewrite (map_set_fresh _ _ _ Hfresh), map_app, <- app_assoc. reflexivity.
  - intros dbId Hhas. cbn [Router.realDatabases Router.virtualIdCounter] in *.
    destruct (String.eqb_spec (Router.next_id s) dbId) as [<-|Hne].
    + exists (Router.virtualIdCounter s). split; [lia | reflexivity].
    + unfold Router.map_has in Hhas. rewrite (map_get_set_other _ _ _ _ Hne) in Hhas.
      destruct (Hinv dbId Hhas) as [k [Hk Hid]]. exists k. split; [lia | exact Hid].
Qed.

Lemma X22_upload_is_fresh_witness :
  Router.map_has (Router.realDatabases (Router.initial SqlJsModel.Db)) "user-db-1" = false
  /\ Router.getDatabases (Router.initial SqlJsModel.Db)
     = (RouterState.userDbs (Router.initial SqlJsModel.Db) ++ Router.systemDbs)%list
  /\ Router.getDatabases
       (Router.mkService [("user-db-1", ("notes.txt", "sqlite"))] 2
          [("user-db-1", SqlJsModel.db_new)])
     = (RouterState.userDbs (Router.initial SqlJsModel.Db)
        ++ Router.mkDatabase "user-db-1" "notes.txt" "sqlite" :: Router.systemDbs)%list
  /\ RouterState.ids_below
       (Router.mkService [("user-db-1", ("notes.txt", "sqlite"))] 2
          [("user-db-1", SqlJsModel.db_new)]).
Proof.
  apply (X22_upload_is_fresh SqlJsModel.Db SqlJsModel.Statement SqlJsModel.db_new
           (fun _ => SqlJsModel.db_new) SqlJsModel.db_run SqlJsModel.db_prepare
           SqlJsModel.stmt_run SqlJsModel.db_exec SqlJsModel.scenario_parse
           (SqliteEngine.mkFile "notes.txt" "") (Router.initial SqlJsModel.Db)
           (Router.mkService [("user-db-1", ("notes.txt", "sqlite"))] 2
              [("user-db-1", SqlJsModel.db_new)])
           (Router.mkDatabase "user-db-1" "notes.txt" "sqlite")).
  - intros dbId H. discriminate H.
  - reflexivity.
Defined.

(** Two uploads in a row, of a delimited text and of a file of another
    kind, get the ids 1 and 2 and are listed in that order. *)
Example two_uploads :
  match RouterState.upload (SqliteEngine.mkFile "people.csv" SqlJsModel.scenario_text)
          (Router.initial SqlJsModel.Db) with
  | Ok (d1, s1) =>
      match RouterState.upload (SqliteEngine.mkFile "notes.txt" "") s1 with
      | Ok (d2, s2) =>
          map Router.db_id (Router.getDatabases s2)
          = ["user-db-1"; "user-db-2"; "db-1"; "db-mssql"; "db-2"; "db-mongo"]
      | Throw _ => False
      end
  | Throw _ => False
  end.
Proof. vm_compute. reflexivity. Qed.

(** X23: an uploaded database is served by the embedded engine.  Its type
    is [sqlite]; reading its schema through the router reads the database
    object the upload created; and a plan for it, asked without a
    credential, is the [EXPLAIN QUERY PLAN] statement run locally. *)
Theorem X23_uploaded_database_is_embedded :
  forall (Db Statement : Type) (db_new : Db) (db_open : string -> Db)
         (db_run : Db -> string -> Res Db) (db_prepare : Db -> string -> Res Statement)
         (stmt_run : Db -> Statement -> list JsVal -> Res Db)
         (db_exec : Db -> string -> Res (list SqliteEngine.ExecResult) * Db)
         (papa_parse : string -> SqliteEngine.ParseResult) (coerced : JsVal -> bool)
         (file : SqliteEngine.File) (s s' : Router.Service Db) (d : Router.Database),
    Router.uploadDatabase db_new db_open db_run db_prepare stmt_run db_exec
      papa_parse file s = Ok (d, s') ->
    Router.db_type d = "sqlite"
    /\ Router.db_name d = SqliteEngine.file_name file
    /\ (exists db,
          SqliteEngine.createDatabaseFromFile db_new db_open db_run db_prepare
            stmt_run db_exec papa_parse file = Ok (db, "sqlite")
          /\ fst (Router.getDatabaseSchema db_exec coerced (Router.db_id d) s')
             = fst (SqliteEngine.getSchema db_exec coerced (Some db)))
    /\ forall (Outcome : Type) (executeQuery : string -> string -> Outcome)
              (executeRemote : MuulService.CredentialEntry -> string -> Outcome)
              (sql_text : string),
         MuulService.explainQuery (Router.realDatabases s') executeQuery executeRemote
           (Router.db_id d) sql_text None
         = executeQuery (Router.db_id d) ("EXPLAIN QUERY PLAN " ++ sql_text).
Proof.
  intros Db Statement db_new db_open db_run db_prepare stmt_run db_exec papa_parse
         coerced file s s' d H.
  unfold Router.uploadDatabase in H.
  destruct (SqliteEngine.createDatabaseFromFile _ _ _ _ _ _ _ _) as [[db type]|e] eqn:Ec;
    cbn [bind] in H; [|discriminate].
  pose proof (created_type _ _ _ _ _ _ _ _ _ _ _ _ Ec) as ->.
  injection H as <- <-. cbn [Router.db_type Router.db_name Router.db_id].
  split; [reflexivity|]. split; [reflexivity|]. split.
  - exists db. split; [reflexivity|].
    unfold Router.getDatabaseSchema, Router.map_has.
    cbn [Router.realDatabases Router.instances Router.virtualIdCounter].
    change (String.eqb (Router.next_id s) "db-mongo") with false. cbv iota.
    rewrite !map_get_set_same.
    destruct (SqliteEngine.getSchema db_exec coerced (Some db)) as [schema [db1|]];
      reflexivity.
  - intros Outcome executeQuery executeRemote sql_text.
    unfold MuulService.explainQuery, MuulService.getDialectForDb,
      MuulService.realDatabases_get.
    cbn [Router.realDatabases].
    change (String.eqb (Router.next_id s) "db-mssql") with false.
    change (String.eqb (Router.next_id s) "db-mongo") with false. cbv iota.
    pose proof (map_get_set_same (Router.realDatabases s) (Router.next_id s)
                  (SqliteEngine.file_name file, "sqlite")) as Hget.
    unfold Router.map_get in Hget. rewrite Hget. reflexivity.
Qed.

Lemma X23_uploaded_database_is_embedded_witness :
  Router.db_type (Router.mkDatabase "user-db-1" "notes.txt" "sqlite") = "sqlite"
  /\ Router.db_name (Router.mkDatabase "user-db-1" "notes.txt" "sqlite")
     = SqliteEngine.file_name (SqliteEngine.mkFile "notes.txt" "")
  /\ (exists db,
        SqliteEngine.createDatabaseFromFile SqlJsModel.db_new
          (fun _ => SqlJsModel.db_new) SqlJsModel.db_run SqlJsModel.db_prepare
          SqlJsModel.stmt_run SqlJsModel.db_exec SqlJsModel.scenario_parse
          (SqliteEngine.mkFile "notes.txt" "") = Ok (db, "sqlite")
        /\ fst (Router.getDatabaseSchema SqlJsModel.db_exec (fun _ => false)
                  (Router.db_id (Router.mkDatabase "user-db-1" "notes.txt" "sqlite"))
                  (Router.mkService [("user-db-1", ("notes.txt", "sqlite"))] 2
                     [("user-db-1", SqlJsModel.db_new)]))
           = fst (SqliteEngine.getSchema SqlJsModel.db_exec (fun _ => false) (Some db)))
  /\ forall (Outcome : Type) (executeQuery : string -> string -> Outcome)
            (executeRemote : MuulService.CredentialEntry -> string -> Outcome)
            (sql_text : string),
       MuulService.explainQuery
         (Router.realDatabases
            (Router.mkService [("user-db-1", ("notes.txt", "sqlite"))] 2
               [("user-db-1", SqlJsModel.db_new)]))
         executeQuery executeRemote
         (Router.db_id (Router.mkDatabase "user-db-1" "notes.txt" "sqlite")) sql_text None
       = executeQuery (Router.db_id (Router.mkDatabase "user-db-1" "notes.txt" "sqlite"))
           ("EXPLAIN QUERY PLAN " ++ sql_text).
Proof.
  apply (X23_uploaded_database_is_embedded SqlJsModel.Db SqlJsModel.Statement
           SqlJsModel.db_new (fun _ => SqlJsModel.db_new) SqlJsModel.db_run
           SqlJsModel.db_prepare SqlJsModel.stmt_run SqlJsModel.db_exec
           SqlJsModel.scenario_parse (fun _ => false)
           (SqliteEngine.mkFile "notes.txt" "") (Router.initial SqlJsModel.Db)
           (Router.mkService [("user-db-1", ("notes.txt", "sqlite"))] 2
              [("user-db-1", SqlJsModel.db_new)])
           (Router.mkDatabase "user-db-1" "notes.txt" "sqlite")).
  reflexivity.
Defined.

(* ------------------------------------------------------------------ *)
(** ** The delimited-text export *)
(* ------------------------------------------------------------------ *)

Section ExportFacts.

Import ExportService.

Lemma includes_head (c : ascii) (s : string) :
  includes (String c EmptyString) (String c s) = true.
Proof.
  cbn [includes String.prefix].
  destruct (Ascii.ascii_dec c c) as [_|n]; [|contradiction].
  destruct s; reflexivity.
Qed.

Lemma needs_quotes_head (s : string) : needs_quotes (String "034"%char s) = true.
Proof.
  unfold needs_quotes. change dq with (String "034"%char EmptyString).
  rewrite includes_head, orb_true_r. reflexivity.
Qed.

(** Doubling the quotes loses nothing, also in front of a closing quote. *)
Lemma double_quotes_inj (a : string) :
  forall b, double_quotes a ++ dq = double_quotes b ++ dq -> a = b.
Proof.
  unfold dq. induction a as [|c a IH]; intros [|c' b]; cbn [double_quotes append].
  - reflexivity.
  - destruct (Ascii.eqb_spec c' "034"%char) as [->|Hc']; cbn [append]; intros H.
    + injection H as H. destruct (double_quotes b); discriminate H.
    + injection H as H _. congruence.
  - destruct (Ascii.eqb_spec c "034"%char) as [->|Hc]; cbn [append]; intros H.
    + injection H as H. destruct (double_quotes a); discriminate H.
    + injection H as H _. congruence.
  - destruct (Ascii.eqb_spec c "034"%char) as [->|Hc];
      destruct (Ascii.eqb_spec c' "034"%char) as [->|Hc']; cbn [append]; intros H.
    + injection H as H. rewrite (IH b H). reflexivity.
    + injection H as H1 H2. congruence.
    + injection H as H1 H2. congruence.
    + injection H as H1 H2. rewrite (IH b H2), H1. reflexivity.
Qed.

Lemma double_quotes_length (s : string) :
  String.length s <= String.length (double_quotes s).
Proof.
  induction s as [|c s IH]; cbn [double_quotes String.length]; [lia|].
  destruct (Ascii.eqb c "034"%char); cbn [String.length]; lia.
Qed.

End ExportFacts.

(** X24: the encoding of a text cell in the export loses nothing: two
    texts with the same encoding are equal; and a text is written as it is
    exactly when it has no comma, no double quote and no line feed. *)
Theorem X24_cell_encoding :
  forall a b : string,
    (ExportService.encode_cell (JStr a) = ExportService.encode_cell (JStr b) -> a = b)
    /\ (ExportService.encode_cell (JStr a) = a
        <-> ExportService.needs_quotes a = false).
Proof.
  intros a b. unfold ExportService.encode_cell. cbn [to_string]. split.
  - destruct (ExportService.needs_quotes a) eqn:Ea;
      destruct (ExportService.needs_quotes b) eqn:Eb; intros H.
    + unfold dq in H at 1 3. cbn [append] in H. injection H as H.
      exact (double_quotes_inj a b H).
    + unfold dq in H at 1. cbn [append] in H. rewrite <- H in Eb.
      rewrite needs_quotes_head in Eb. discriminate Eb.
    + unfold dq in H at 1. cbn [append] in H. rewrite H in Ea.
      rewrite needs_quotes_head in Ea. discriminate Ea.
    + exact H.
  - destruct (ExportService.needs_quotes a) eqn:Ea; split; intros H;
      try reflexivity; try discriminate H.
    exfalso. apply (f_equal String.length) in H.
    unfold dq in H at 1. cbn [append String.length] in H.
    rewrite append_length in H. pose proof (double_quotes_length a). lia.
Qed.

Lemma X24_cell_encoding_witness :
  (ExportService.encode_cell (JStr "a,b") = ExportService.encode_cell (JStr "a,b")
   -> "a,b" = "a,b")
  /\ (ExportService.encode_cell (JStr "a,b") = "a,b"
      <-> ExportService.needs_quotes "a,b" = false).
Proof. exact (X24_cell_encoding "a,b" "a,b"). Defined.

(** What the export does not keep apart or protect: [null] and the empty
    text are both written as nothing, and the names of the columns are
    joined as they are, so a comma in a name shifts the header. *)
Example export_examples :
  ExportService.encode_cell JNull = ExportService.encode_cell (JStr "")
  /\ ExportService.encode_cell (JStr ("say " ++ dq ++ "hi" ++ dq))
     = dq ++ "say " ++ dq ++ dq ++ "hi" ++ dq ++ dq ++ dq
  /\ ExportService.csvContent ["id"; "last, first"] [[JNum 1; JStr "Doe, J"]]
     = Some ("id,last, first" ++ nl ++ "1," ++ dq ++ "Doe, J" ++ dq)
  /\ ExportService.csvContent ["id"] [] = None.
Proof. repeat split; reflexivity. Qed.
